(** * The LiteX CLIC driver and its demo, embedded in Rocq

    Sources embedded here:
    - [litex/soc/software/include/clic.h]: the register accessors and the
      higher-level helpers built on them;
    - [litex/soc/software/demo/clic_demo.c]: the weak default interrupt
      handler, [clic_init], the six test scenarios and [clic_demo];
    - [software/videomixer/processor.c]: the mode table, the mode
      descriptors and the programming of the frame buffer.

    The C functions are written in a small state-and-error monad.  The state
    holds the memory-mapped register window as a byte store, the file-scope
    variables of the demo, the global interrupt-enable flag and the console.
    An array access outside its bounds (undefined behaviour in C) is the
    error [OutOfBounds].  [processor.c] shares nothing with the driver but
    the machine integers; it has a state and a monad of its own. *)

From stdpp Require Import base numbers list strings pretty functions.

Local Open Scope Z_scope.

(** ** Machine integers *)

(** Conversion to [uint8_t]. *)
Definition u8 (v : Z) : Z := v mod 2 ^ 8.

(** Conversion to [unsigned int], and arithmetic in it. *)
Definition u32 (v : Z) : Z := v mod 2 ^ 32.

(** What [printf]'s [%d] shows for an [unsigned int] argument. *)
Definition as_int (v : Z) : Z :=
  if u32 v <? 2 ^ 31 then u32 v else u32 v - 2 ^ 32.

Definition fmt_d (v : Z) : string := pretty (as_int v).

Definition fmt_u (v : Z) : string := pretty (u32 v).

(** The newline character. *)
Definition nl : string := String (Ascii.ascii_of_nat 10) "".

(** ** Errors and results *)

(** [InvalidLine] and [Timeout] are the two error kinds the specification
    names; [OutOfBounds] stands for an array access outside the array, and
    [OutOfFuel] for a loop cut off by the recursion bound of its model. *)
Inductive error : Type :=
  | InvalidLine
  | Timeout
  | OutOfBounds (index : Z)
  | OutOfFuel.

Inductive result (A : Type) : Type :=
  | Ok (a : A)
  | Err (e : error).

Arguments Ok {A} a.
Arguments Err {A} e.

(** ** Program state *)

Record state : Type := mkState {
  (** the bytes behind the [volatile uint8_t *] accesses *)
  mmio : Z -> Z;
  (** [static volatile unsigned int clic_interrupt_count[CONFIG_CPU_INTERRUPTS]] *)
  clic_interrupt_count : list Z;
  clic_last_interrupt_id : Z;
  clic_last_interrupt_priority : Z;
  clic_interrupt_cycles : Z;
  (** the flag written by [irq_setie] *)
  irq_ie : Z;
  (** lines written by [printf], oldest first *)
  console : list string
}.

Definition with_mmio (f : Z -> Z) (s : state) : state :=
  mkState f (clic_interrupt_count s) (clic_last_interrupt_id s)
    (clic_last_interrupt_priority s) (clic_interrupt_cycles s) (irq_ie s)
    (console s).

Definition with_count (l : list Z) (s : state) : state :=
  mkState (mmio s) l (clic_last_interrupt_id s)
    (clic_last_interrupt_priority s) (clic_interrupt_cycles s) (irq_ie s)
    (console s).

Definition with_last_id (v : Z) (s : state) : state :=
  mkState (mmio s) (clic_interrupt_count s) v
    (clic_last_interrupt_priority s) (clic_interrupt_cycles s) (irq_ie s)
    (console s).

Definition with_last_priority (v : Z) (s : state) : state :=
  mkState (mmio s) (clic_interrupt_count s) (clic_last_interrupt_id s)
    v (clic_interrupt_cycles s) (irq_ie s) (console s).

Definition with_cycles (v : Z) (s : state) : state :=
  mkState (mmio s) (clic_interrupt_count s) (clic_last_interrupt_id s)
    (clic_last_interrupt_priority s) v (irq_ie s) (console s).

Definition with_ie (v : Z) (s : state) : state :=
  mkState (mmio s) (clic_interrupt_count s) (clic_last_interrupt_id s)
    (clic_last_interrupt_priority s) (clic_interrupt_cycles s) v (console s).

Definition with_console (out : list string) (s : state) : state :=
  mkState (mmio s) (clic_interrupt_count s) (clic_last_interrupt_id s)
    (clic_last_interrupt_priority s) (clic_interrupt_cycles s) (irq_ie s) out.

(** ** The monad *)

Definition M (A : Type) : Type := state -> result (A * state).

Definition ret {A} (a : A) : M A := fun s => Ok (a, s).

Definition bind {A B} (c : M A) (k : A -> M B) : M B :=
  fun s =>
    match c s with
    | Ok (a, s') => k a s'
    | Err e => Err e
    end.

Declare Scope clic_scope.
Delimit Scope clic_scope with clic.
Bind Scope clic_scope with M.

Notation "x <- c ;; k" := (bind c (fun x => k))
  (at level 100, c at next level, k at level 200, right associativity)
  : clic_scope.
Notation "c ;; k" := (bind c (fun _ => k))
  (at level 100, k at level 200, right associativity) : clic_scope.

Local Open Scope clic_scope.

Definition when (b : bool) (c : M unit) : M unit :=
  if b then c else ret tt.

(** [for (i = 0; i < n; i++) body(i)] *)
Fixpoint for_upto (n : nat) (body : Z -> M unit) : M unit :=
  match n with
  | O => ret tt
  | S k => for_upto k body ;; body (Z.of_nat k)
  end.

(** A [for] loop that carries a local variable through its iterations. *)
Fixpoint for_fold (n : nat) (body : Z -> Z -> M Z) (acc : Z) : M Z :=
  match n with
  | O => ret acc
  | S k => acc' <- for_fold k body acc ;; body (Z.of_nat k) acc'
  end.

(** ** Primitive effects *)

Definition load8 (a : Z) : M Z :=
  fun s => Ok (u8 (mmio s a), s).

Definition store8 (a v : Z) : M unit :=
  fun s => Ok (tt, with_mmio (<[a := u8 v]> (mmio s)) s).

Definition printf (line : string) : M unit :=
  fun s => Ok (tt, with_console (console s ++ [line]) s).

(** [clic_interrupt_count[i]] as an rvalue and as an lvalue. *)
Definition count_get (i : Z) : M Z :=
  fun s =>
    if i <? 0 then Err (OutOfBounds i)
    else match clic_interrupt_count s !! Z.to_nat i with
         | Some c => Ok (c, s)
         | None => Err (OutOfBounds i)
         end.

Definition count_set (i v : Z) : M unit :=
  fun s =>
    if (0 <=? i) && (i <? Z.of_nat (length (clic_interrupt_count s)))
    then Ok (tt, with_count (<[Z.to_nat i := u32 v]> (clic_interrupt_count s)) s)
    else Err (OutOfBounds i).

Definition modify (f : state -> state) : M unit :=
  fun s => Ok (tt, f s).

(** Whatever ran asynchronously (interrupt handlers) since the program's
    previous step. *)
Definition async (activity : state -> state) : M unit :=
  modify activity.

(** [irq_setie] comes from the CPU's [irq.h]: it sets the global
    interrupt-enable flag. *)
Definition irq_setie (ie : Z) : M unit :=
  modify (with_ie ie).

(** ** processor.c

    The video mixer's mode table and the routines that program the frame
    buffer.  [hw/csr.h], [hw/flags.h], [edid.h], [processor.h] and the
    [dvisampler] headers are not among the sources: their constants are
    variables here, a register accessor is the write it stands for, and a
    call into the sampler driver is recorded by name. *)

(** [struct video_timing] of [edid.h]: the fields the file initialises and
    reads, held in [unsigned int]. *)
Record video_timing : Type := mkTiming {
  pixel_clock : Z;
  h_active : Z;
  h_blanking : Z;
  h_sync_offset : Z;
  h_sync_width : Z;
  v_active : Z;
  v_blanking : Z;
  v_sync_offset : Z;
  v_sync_width : Z
}.

(** What stops a run of [processor.c]: a division by zero, a store past the
    end of the caller's buffer, a mode index outside [video_modes] (all
    undefined behaviour in C), and a busy-wait the hardware never ends. *)
Inductive fault : Type :=
  | DivisionByZero
  | BufferOverrun
  | ModeOutOfRange (mode : Z)
  | Spinning.

Inductive outcome (A : Type) : Type :=
  | Done (a : A)
  | Fault (f : fault).

Arguments Done {A} a.
Arguments Fault {A} f.

(** The registers the file writes, each named after its accessor in
    [hw/csr.h] ([fb_enable] for [fb_enable_write], and so on). *)
Inductive csr : Type :=
  | fb_fi_hres
  | fb_fi_hsync_start
  | fb_fi_hsync_end
  | fb_fi_hscan
  | fb_fi_vres
  | fb_fi_vsync_start
  | fb_fi_vsync_end
  | fb_fi_vscan
  | fb_dma0_length
  | fb_dma1_length
  | fb_driver_clocking_cmd_data
  | fb_driver_clocking_send_cmd_data
  | fb_driver_clocking_send_go
  | fb_enable
  | dvisampler0_edid_hpd_en
  | dvisampler1_edid_hpd_en.

(** The functions of the sampler driver the file calls. *)
Inductive sampler_call : Type :=
  | dvisampler0_init_video
  | dvisampler1_init_video
  | dvisampler0_service
  | dvisampler1_service.

(** What the program does to the hardware and to the sampler driver. *)
Inductive event : Type :=
  | CsrWrite (r : csr) (v : Z)
  | MemWrite (addr v : Z)
  | Call (f : sampler_call) (args : list Z).

Record hw : Type := mkHw {
  (** what the program has done so far, oldest first *)
  trace : list event;
  (** what the coming reads of [fb_driver_clocking_status] return, in
      order *)
  answers : list Z;
  (** lines written by [printf], oldest first *)
  shown : list string
}.

Definition V (A : Type) : Type := hw -> outcome (A * hw).

Definition vret {A} (a : A) : V A := fun s => Done (a, s).

Definition vbind {A B} (c : V A) (k : A -> V B) : V B :=
  fun s =>
    match c s with
    | Done (a, s') => k a s'
    | Fault f => Fault f
    end.

Declare Scope video_scope.
Delimit Scope video_scope with video.
Bind Scope video_scope with V.

Notation "x <- c ;; k" := (vbind c (fun x => k))
  (at level 100, c at next level, k at level 200, right associativity)
  : video_scope.
Notation "c ;; k" := (vbind c (fun _ => k))
  (at level 100, k at level 200, right associativity) : video_scope.

Definition emit (e : event) : V unit :=
  fun s => Done (tt, mkHw (trace s ++ [e]) (answers s) (shown s)).

Definition csr_write (r : csr) (v : Z) : V unit := emit (CsrWrite r v).

Definition vprintf (line : string) : V unit :=
  fun s => Done (tt, mkHw (trace s) (answers s) (shown s ++ [line])).

(** [for (i = 0; i < n; i++) body(i)] *)
Fixpoint vfor_upto (n : nat) (body : Z -> V unit) : V unit :=
  match n with
  | O => vret tt
  | S k => (vfor_upto k body ;; body (Z.of_nat k))%video
  end.

(** The reads of a loop [while (spin(status_read()));]: the answers left
    once a read has ended the loop, or nothing when every answer keeps it
    spinning. *)
Fixpoint wait_status (spin : Z -> bool) (l : list Z) : option (list Z) :=
  match l with
  | [] => None
  | v :: rest => if spin v then wait_status spin rest else Some rest
  end.

Definition spin_while (spin : Z -> bool) : V unit :=
  fun s =>
    match wait_status spin (answers s) with
    | Some rest => Done (tt, mkHw (trace s) rest (shown s))
    | None => Fault Spinning
    end.

(** The terminator of a C string. *)
Definition NUL : Ascii.ascii := Ascii.zero.

(** [sprintf(&buf[off], ...)] when the formatted text is [text]: its
    characters and a terminator are stored from [off] on. *)
Definition sprintf_at (buf : list Ascii.ascii) (off : Z) (text : string)
    : outcome (list Ascii.ascii) :=
  let chars := String.list_ascii_of_string text ++ [NUL] in
  if (0 <=? off) && (off + Z.of_nat (length chars) <=? Z.of_nat (length buf))
  then Done (take (Z.to_nat off) buf ++ chars
             ++ drop (Z.to_nat off + length chars) buf)
  else Fault BufferOverrun.

(** The C string that starts at [chars]. *)
Fixpoint c_string (chars : list Ascii.ascii) : string :=
  match chars with
  | [] => EmptyString
  | c :: rest =>
      if Ascii.eqb c NUL then EmptyString else String c (c_string rest)
  end.

Definition string_at (buf : list Ascii.ascii) (off : Z) : string :=
  c_string (drop (Z.to_nat off) buf).

Section Processor.

(** Constants of [processor.h], [hw/flags.h] and the sampler headers, and
    [generate_edid] of [edid.c], which fills a block of 128 bytes. *)
Variable PROCESSOR_MODE_COUNT : Z.
Variable PROCESSOR_MODE_DESCLEN : Z.
Variable CLKGEN_STATUS_BUSY : Z.
Variable CLKGEN_STATUS_PROGDONE : Z.
Variable CLKGEN_STATUS_LOCKED : Z.
Variable DVISAMPLER0_EDID_MEM_BASE : Z.
Variable DVISAMPLER1_EDID_MEM_BASE : Z.
Variable generate_edid :
  string -> string -> Z -> string -> video_timing -> list Z.

(** [static const struct video_timing video_modes[PROCESSOR_MODE_COUNT]]:
    two initialisers; elements past them are zero. *)
Definition video_modes : list video_timing :=
  take (Z.to_nat PROCESSOR_MODE_COUNT)
    ([mkTiming 6500 1024 320 24 136 768 38 3 6;
      mkTiming 7425 1280 370 220 40 720 30 20 5]
     ++ replicate (Z.to_nat PROCESSOR_MODE_COUNT - 2)
          (mkTiming 0 0 0 0 0 0 0 0 0)).

(** The text [processor_list_modes] formats for one mode. *)
Definition mode_descriptor (m : video_timing) : outcome string :=
  let refresh_span :=
    u32 (u32 (h_active m + h_blanking m) * u32 (v_active m + v_blanking m)) in
  if refresh_span =? 0 then Fault DivisionByZero
  else
    let refresh_rate := u32 (pixel_clock m * 10000) / refresh_span in
    Done (fmt_u (h_active m) +:+ "x" +:+ fmt_u (v_active m) +:+ " @"
          +:+ fmt_u refresh_rate +:+ "Hz").

Fixpoint list_modes_upto (n : nat) (mode_descriptors : list Ascii.ascii)
    : outcome (list Ascii.ascii) :=
  match n with
  | O => Done mode_descriptors
  | S k =>
      match list_modes_upto k mode_descriptors with
      | Fault f => Fault f
      | Done buf =>
          let i := Z.of_nat k in
          match video_modes !! k with
          | None => Fault (ModeOutOfRange i)
          | Some m =>
              match mode_descriptor m with
              | Fault f => Fault f
              | Done text => sprintf_at buf (PROCESSOR_MODE_DESCLEN * i) text
              end
          end
      end
  end.

Definition processor_list_modes (mode_descriptors : list Ascii.ascii)
    : outcome (list Ascii.ascii) :=
  list_modes_upto (Z.to_nat PROCESSOR_MODE_COUNT) mode_descriptors.

Definition fb_clkgen_write (cmd data : Z) : V unit :=
  (let word := Z.lor (Z.shiftl data 2) cmd in
   csr_write fb_driver_clocking_cmd_data word ;;
   csr_write fb_driver_clocking_send_cmd_data 1 ;;
   spin_while (fun status => negb (Z.land status CLKGEN_STATUS_BUSY =? 0)))%video.

(** The multiplier and the divider stored through [m] and [d]. *)
Definition fb_get_clock_md (pixel_clock : Z) : Z * Z := (13, 10).

Definition fb_set_mode (mode : video_timing) : V unit :=
  (let '(clock_m, clock_d) := fb_get_clock_md (pixel_clock mode) in
   csr_write fb_fi_hres (h_active mode) ;;
   csr_write fb_fi_hsync_start (u32 (h_active mode + h_sync_offset mode)) ;;
   csr_write fb_fi_hsync_end
     (u32 (h_active mode + h_sync_offset mode + h_sync_width mode)) ;;
   csr_write fb_fi_hscan (u32 (h_active mode + h_blanking mode)) ;;
   csr_write fb_fi_vres (v_active mode) ;;
   csr_write fb_fi_vsync_start (u32 (v_active mode + v_sync_offset mode)) ;;
   csr_write fb_fi_vsync_end
     (u32 (v_active mode + v_sync_offset mode + v_sync_width mode)) ;;
   csr_write fb_fi_vscan (u32 (v_active mode + v_blanking mode)) ;;
   csr_write fb_dma0_length (u32 (h_active mode * v_active mode * 4)) ;;
   csr_write fb_dma1_length (u32 (h_active mode * v_active mode * 4)) ;;
   fb_clkgen_write 0x1 (u32 (clock_d - 1)) ;;
   fb_clkgen_write 0x3 (u32 (clock_m - 1)) ;;
   csr_write fb_driver_clocking_send_go 1 ;;
   vprintf "waiting for PROGDONE..." ;;
   spin_while (fun status => Z.land status CLKGEN_STATUS_PROGDONE =? 0) ;;
   vprintf ("ok" +:+ nl) ;;
   vprintf "waiting for LOCKED..." ;;
   spin_while (fun status => Z.land status CLKGEN_STATUS_LOCKED =? 0) ;;
   vprintf ("ok" +:+ nl) ;;
   vprintf ("Video mode set to " +:+ fmt_d (h_active mode) +:+ "x"
            +:+ fmt_d (v_active mode) +:+ nl))%video.

(** The answers left once the four busy-waits of [fb_set_mode] have ended,
    in their order (BUSY clear, BUSY clear, PROGDONE set, LOCKED set), or
    nothing when one of them never ends. *)
Definition clock_waits (l : list Z) : option (list Z) :=
  match
    wait_status (fun status => negb (Z.land status CLKGEN_STATUS_BUSY =? 0)) l
  with
  | None => None
  | Some after_d =>
      match
        wait_status
          (fun status => negb (Z.land status CLKGEN_STATUS_BUSY =? 0)) after_d
      with
      | None => None
      | Some after_m =>
          match
            wait_status
              (fun status => Z.land status CLKGEN_STATUS_PROGDONE =? 0) after_m
          with
          | None => None
          | Some after_done =>
              wait_status
                (fun status => Z.land status CLKGEN_STATUS_LOCKED =? 0)
                after_done
          end
      end
  end.

(** [MMPTR(base + 4*i) = edid[i]] for the 128 bytes of a block. *)
Definition edid_upload (base : Z) (edid : list Z) : V unit :=
  vfor_upto 128 (fun i =>
    emit (MemWrite (base + 4 * i) (u8 (nth (Z.to_nat i) edid 0)))).

Definition edid_set_mode (mode : video_timing) : V unit :=
  (edid_upload DVISAMPLER0_EDID_MEM_BASE
     (generate_edid "OHW" "MX" 2013 "Mixxeo ch.A" mode) ;;
   edid_upload DVISAMPLER1_EDID_MEM_BASE
     (generate_edid "OHW" "MX" 2013 "Mixxeo ch.B" mode))%video.

Definition processor_start (mode : Z) : V unit :=
  if mode <? 0 then (fun _ => Fault (ModeOutOfRange mode))
  else
    match video_modes !! Z.to_nat mode with
    | None => fun _ => Fault (ModeOutOfRange mode)
    | Some m =>
        (csr_write fb_enable 0 ;;
         csr_write dvisampler0_edid_hpd_en 0 ;;
         csr_write dvisampler1_edid_hpd_en 0 ;;
         fb_set_mode m ;;
         edid_set_mode m ;;
         emit (Call dvisampler0_init_video [h_active m; v_active m]) ;;
         emit (Call dvisampler1_init_video [h_active m; v_active m]) ;;
         csr_write fb_enable 1 ;;
         csr_write dvisampler0_edid_hpd_en 1 ;;
         csr_write dvisampler1_edid_hpd_en 1)%video
    end.

Definition processor_service : V unit :=
  (emit (Call dvisampler0_service []) ;;
   emit (Call dvisampler1_service []))%video.

End Processor.

#[global] Instance csr_eq_dec : EqDecision csr.
Proof. solve_decision. Defined.

(** The values a trace writes to a register, oldest first. *)
Definition written (r : csr) (t : list event) : list Z :=
  omap (fun e =>
          match e with
          | CsrWrite r' v => if decide (r' = r) then Some v else None
          | _ => None
          end) t.

(** Writes to the clock generator's command registers. *)
Definition is_clocking (e : event) : bool :=
  match e with
  | CsrWrite fb_driver_clocking_cmd_data _
  | CsrWrite fb_driver_clocking_send_cmd_data _
  | CsrWrite fb_driver_clocking_send_go _ => true
  | _ => false
  end.

(** Writes that switch the frame buffer or a hot-plug line. *)
Definition is_enable (e : event) : bool :=
  match e with
  | CsrWrite fb_enable _
  | CsrWrite dvisampler0_edid_hpd_en _
  | CsrWrite dvisampler1_edid_hpd_en _ => true
  | _ => false
  end.

(** ** clic.h *)

Definition CLIC_ATTR_TRIG_MASK : Z := 0x03.
Definition CLIC_ATTR_TRIG_EDGE : Z := 0x02.
Definition CLIC_ATTR_TRIG_LEVEL : Z := 0x00.
Definition CLIC_ATTR_POL_MASK : Z := 0x04.
Definition CLIC_ATTR_POL_NEG : Z := 0x00.
(** The header defines this name twice; the second definition, [0x04], is
    the one in force where [clic_configure_interrupt] uses it. *)
Definition CLIC_ATTR_POL_POS : Z := 0x04.

Definition CLIC_INTIP_OFFSET : Z := 0x000.
Definition CLIC_INTIE_OFFSET : Z := 0x400.
Definition CLIC_INTATTR_OFFSET : Z := 0x800.
Definition CLIC_INTPRIO_OFFSET : Z := 0xC00.
Definition CLIC_MITHRESHOLD_OFFSET : Z := 0x1000.

Section Clic.

(** Width of a pointer, and the two constants of [generated/csr.h] the
    sources use. *)
Variable XLEN : Z.
Variable CSR_CLIC_BASE : Z.
Variable CONFIG_CPU_INTERRUPTS : Z.

(** [CSR_CLIC_BASE + offset + irq] as a pointer. *)
Definition reg_addr (offset irq : Z) : Z :=
  (CSR_CLIC_BASE + offset + irq) mod 2 ^ XLEN.

(** The accessors take [irq] as an [unsigned int]: they stand for the C
    functions at arguments from 0 to [2^32 - 1], and an argument that the
    caller computes is written with its conversion, [u32]. *)

Definition clic_get_intip (irq : Z) : M Z :=
  load8 (reg_addr CLIC_INTIP_OFFSET irq).

Definition clic_set_intip (irq value : Z) : M unit :=
  store8 (reg_addr CLIC_INTIP_OFFSET irq) value.

Definition clic_get_intie (irq : Z) : M Z :=
  load8 (reg_addr CLIC_INTIE_OFFSET irq).

Definition clic_set_intie (irq value : Z) : M unit :=
  store8 (reg_addr CLIC_INTIE_OFFSET irq) value.

Definition clic_get_intattr (irq : Z) : M Z :=
  load8 (reg_addr CLIC_INTATTR_OFFSET irq).

Definition clic_set_intattr (irq value : Z) : M unit :=
  store8 (reg_addr CLIC_INTATTR_OFFSET irq) value.

Definition clic_get_intprio (irq : Z) : M Z :=
  load8 (reg_addr CLIC_INTPRIO_OFFSET irq).

Definition clic_set_intprio (irq value : Z) : M unit :=
  store8 (reg_addr CLIC_INTPRIO_OFFSET irq) value.

(** [hart * 0x1000] is computed in [unsigned int]. *)
Definition clic_get_mithreshold (hart : Z) : M Z :=
  load8 (reg_addr CLIC_MITHRESHOLD_OFFSET (u32 (hart * 0x1000))).

Definition clic_set_mithreshold (hart value : Z) : M unit :=
  store8 (reg_addr CLIC_MITHRESHOLD_OFFSET (u32 (hart * 0x1000))) value.

Definition clic_enable_interrupt (irq : Z) : M unit :=
  clic_set_intie irq 1.

Definition clic_disable_interrupt (irq : Z) : M unit :=
  clic_set_intie irq 0.

Definition clic_is_pending (irq : Z) : M bool :=
  v <- clic_get_intip irq ;; ret (negb (v =? 0)).

Definition clic_clear_pending (irq : Z) : M unit :=
  clic_set_intip irq 0.

Definition clic_set_pending (irq : Z) : M unit :=
  clic_set_intip irq 1.

Definition clic_configure_interrupt
    (irq priority : Z) (edge_triggered positive_polarity : bool) : M unit :=
  let attr := 0 in
  let attr := if edge_triggered then Z.lor attr CLIC_ATTR_TRIG_EDGE else attr in
  let attr := if positive_polarity then Z.lor attr CLIC_ATTR_POL_POS else attr in
  clic_set_intattr irq attr ;;
  clic_set_intprio irq priority.

(** ** clic_demo.c *)

(** Where asynchronous interrupt activity can be observed by the latency
    measurement: before the read of the counter made by the wait loop of
    trial [i] when its local [cycles] has a given value, before the read made
    by the [if] that follows the loop, and during the delay that ends the
    trial. *)
Inductive point : Type :=
  | Poll (i cycles : Z)
  | Check (i : Z)
  | Delay (i : Z).

(** [void __attribute__((weak)) clic_interrupt_handler(id, priority)] *)
Definition clic_interrupt_handler (id priority : Z) : M unit :=
  c <- count_get id ;;
  count_set id (c + 1) ;;
  modify (with_last_id id) ;;
  modify (with_last_priority priority) ;;
  modify (fun s => with_cycles (u32 (clic_interrupt_cycles s + 1)) s) ;;
  when (id <? CONFIG_CPU_INTERRUPTS) (clic_clear_pending id) ;;
  c' <- count_get id ;;
  printf ("CLIC: Interrupt " +:+ fmt_d id +:+ " handled (priority="
          +:+ fmt_d priority +:+ ", count=" +:+ fmt_d c' +:+ ")" +:+ nl).

Definition clic_init : M unit :=
  printf ("Initializing CLIC..." +:+ nl) ;;
  for_upto (Z.to_nat CONFIG_CPU_INTERRUPTS) (fun i => count_set i 0) ;;
  for_upto (Z.to_nat CONFIG_CPU_INTERRUPTS) (fun i =>
    clic_disable_interrupt i ;;
    clic_clear_pending i) ;;
  clic_set_mithreshold 0 0 ;;
  irq_setie 1 ;;
  printf ("CLIC initialized" +:+ nl).

(** The verdict [test_interrupt_threshold] prints beside each count once it
    has set the threshold to 100: [(priorities[i] < 100) ? allowed : blocked];
    [true] stands for the "allowed" text. *)
Definition threshold_100_allows (priority : Z) : bool := priority <? 100.

(** [busy_wait] is provided by the system; it changes none of the program's
    variables, and interrupt handlers may run while it spins. *)
Definition delay_ms (activity : state -> state) (ms : Z) : M unit :=
  async activity.

(** [while (clic_interrupt_count[test_irq] == 0 && cycles < 10000) cycles++;]
    inside trial [i]; the result is the final [cycles]. *)
Fixpoint latency_wait (env : point -> state -> state) (test_irq i : Z)
    (fuel : nat) (cycles : Z) : M Z :=
  async (env (Poll i cycles)) ;;
  c <- count_get test_irq ;;
  if (c =? 0) && (cycles <? 10000) then
    match fuel with
    | S fuel' => latency_wait env test_irq i fuel' (u32 (cycles + 1))
    | O => fun _ => Err OutOfFuel
    end
  else ret cycles.

Definition iteration_cycles_line (i cycles : Z) : string :=
  "  Iteration " +:+ fmt_d (i + 1) +:+ ": ~" +:+ fmt_d cycles +:+ " cycles"
  +:+ nl.

Definition iteration_timeout_line (i : Z) : string :=
  "  Iteration " +:+ fmt_d (i + 1) +:+ ": TIMEOUT" +:+ nl.

(** The body of the [for] loop of [test_interrupt_latency]: one trial. It
    takes the running [total_latency] and gives back its new value. *)
Definition latency_iteration (env : point -> state -> state) (test_irq : Z)
    (i total_latency : Z) : M Z :=
  count_set test_irq 0 ;;
  let cycles := 0 in
  clic_set_pending test_irq ;;
  cycles <- latency_wait env test_irq i (Z.to_nat 10000) cycles ;;
  async (env (Check i)) ;;
  c <- count_get test_irq ;;
  total_latency <-
    (if c >? 0 then
       let total_latency := u32 (total_latency + cycles) in
       printf (iteration_cycles_line i cycles) ;;
       ret total_latency
     else
       printf (iteration_timeout_line i) ;;
       ret total_latency) ;;
  delay_ms (env (Delay i)) 10 ;;
  ret total_latency.

Definition test_interrupt_latency (env : point -> state -> state) : M unit :=
  let test_irq := 20 in
  let total_latency := 0 in
  let iterations := 10 in
  printf (nl +:+ "=== Interrupt Latency Measurement ===" +:+ nl) ;;
  clic_configure_interrupt test_irq 64 true true ;;
  clic_enable_interrupt test_irq ;;
  printf ("Measuring interrupt latency over " +:+ fmt_d iterations
          +:+ " iterations..." +:+ nl) ;;
  total_latency <-
    for_fold (Z.to_nat iterations) (latency_iteration env test_irq)
      total_latency ;;
  when (total_latency >? 0)
    (let avg_latency := total_latency / iterations in
     printf (nl +:+ "Average interrupt latency: ~" +:+ fmt_u avg_latency
             +:+ " cycles" +:+ nl)) ;;
  clic_disable_interrupt test_irq.

(** ** The controller's dispatch, from the specification

    The arbiter and the dispatch loop are gateware: no C function of the
    sources computes them.  They are written here over the same register
    window the driver writes, with the callback as a parameter. *)

(** What the registers of a line read in a state. *)
Definition reg (s : state) (offset irq : Z) : Z :=
  u8 (mmio s (reg_addr offset irq)).

Definition line_pending (s : state) (id : Z) : bool :=
  negb (reg s CLIC_INTIP_OFFSET id =? 0).

Definition line_enabled (s : state) (id : Z) : bool :=
  negb (reg s CLIC_INTIE_OFFSET id =? 0).

Definition line_priority (s : state) (id : Z) : Z :=
  reg s CLIC_INTPRIO_OFFSET id.

Definition line_edge (s : state) (id : Z) : bool :=
  negb (Z.land (reg s CLIC_INTATTR_OFFSET id) CLIC_ATTR_TRIG_EDGE =? 0).

Definition threshold (s : state) (context : Z) : Z :=
  reg s CLIC_MITHRESHOLD_OFFSET (u32 (context * 0x1000)).

(** Modelled from the spec: the Threshold Gate's predicate (section 4.2),
    [blocked(priority, context) = priority >= threshold(context)], except
    that threshold value 0 means no blocking.  The gate itself is gateware,
    absent from the C sources. *)
Definition blocked (priority threshold_value : Z) : bool :=
  if threshold_value =? 0 then false else threshold_value <=? priority.

(** Modelled from the spec: the arbiter's candidates (section 4.3), the lines
    that are enabled and pending, filtered by [blocked].  The arbiter is
    gateware, absent from the C sources. *)
Definition eligible (s : state) (context id : Z) : bool :=
  line_enabled s id && line_pending s id
  && negb (blocked (line_priority s id) (threshold s context)).

(** Modelled from the spec: the arbiter's choice (section 4.3, arbiter absent
    from the C sources); among the survivors the numerically smallest
    priority wins, and the lowest id among equals.  [ids] is scanned in
    ascending order; [best] is the winner so far. *)
Fixpoint select_among (s : state) (context : Z) (ids : list Z)
    (best : option Z) : option Z :=
  match ids with
  | [] => best
  | id :: rest =>
      let best' :=
        if eligible s context id then
          match best with
          | None => Some id
          | Some b =>
              if line_priority s id <? line_priority s b then Some id
              else Some b
          end
        else best in
      select_among s context rest best'
  end.

Definition line_ids : list Z :=
  map Z.of_nat (seq 0 (Z.to_nat CONFIG_CPU_INTERRUPTS)).

(** Modelled from the spec: [select_next(context)] (section 4.3, arbiter
    absent from the C sources), a pure decision over the lines [0..N-1]. *)
Definition select_next (s : state) (context : Z) : option Z :=
  select_among s context line_ids None.

(** Modelled from the spec: one poll of the dispatch loop (section 4.4; the
    loop is gateware, absent from the C sources).  A selected line is handed
    to the callback with its priority; afterwards an edge-triggered line has
    its pending bit cleared, a level-triggered line keeps whatever the
    callback left. *)
Definition dispatch_poll (handler : Z -> Z -> M unit) (context : Z)
    : M (option Z) :=
  fun s =>
    match select_next s context with
    | None => Ok (None, s)
    | Some id =>
        (handler id (line_priority s id) ;;
         (fun s' => when (line_edge s' id) (clic_clear_pending id) s') ;;
         ret (Some id)) s
    end.

(** Modelled from the spec: the cooperative poll loop (section 4.4, absent
    from the C sources), run for [n] polls. *)
Fixpoint dispatch_polls (handler : Z -> Z -> M unit) (context : Z)
    (n : nat) : M unit :=
  match n with
  | O => ret tt
  | S k => dispatch_poll handler context ;; dispatch_polls handler context k
  end.


(** ** Vocabulary of the statements *)

(** The variables of the demo, the interrupt flag and the console. *)
Definition same_globals (s s' : state) : Prop :=
  clic_interrupt_count s' = clic_interrupt_count s
  /\ clic_last_interrupt_id s' = clic_last_interrupt_id s
  /\ clic_last_interrupt_priority s' = clic_last_interrupt_priority s
  /\ clic_interrupt_cycles s' = clic_interrupt_cycles s
  /\ irq_ie s' = irq_ie s
  /\ console s' = console s.

(** Every byte of the register window reads the same. *)
Definition same_registers (s s' : state) : Prop :=
  forall a : Z, u8 (mmio s' a) = u8 (mmio s a).

(** The attribute byte [clic_configure_interrupt] composes. *)
Definition attr_of (edge_triggered positive_polarity : bool) : Z :=
  Z.lor (if edge_triggered then CLIC_ATTR_TRIG_EDGE else 0)
        (if positive_polarity then CLIC_ATTR_POL_POS else 0).

(** The number of lines the arbiter could select. *)
Definition eligible_count (s : state) (context : Z) : nat :=
  length (List.filter (eligible s context) line_ids).

(** Line [id], made pending when its counter was [c], either still waits to
    be selected with its counter at [c], or is no longer pending and has
    been serviced once. *)
Definition waiting_or_served_once (id c : Z) (s : state) : Prop :=
  (eligible s 0 id = true
   /\ clic_interrupt_count s !! Z.to_nat id = Some c)
  \/ (line_pending s id = false
      /\ clic_interrupt_count s !! Z.to_nat id = Some (u32 (c + 1))).

(** The state a computation leaves ([s] itself if it fails). *)
Definition after (c : M unit) (s : state) : state :=
  match c s with
  | Ok (_, s') => s'
  | Err _ => s
  end.

(** An environment for the latency measurement in which line [irq] is
    serviced once, by the default handler with priority [priority], right
    before the wait loop of trial [i] reads the counter with [cycles = k];
    nothing else ever runs. *)
Definition deliver_at (irq priority i k : Z) (pt : point) (s : state)
    : state :=
  match pt with
  | Poll i' k' =>
      if (i' =? i) && (k' =? k)
      then after (clic_interrupt_handler irq priority) s
      else s
  | _ => s
  end.

(** A state with every register, variable and counter at zero, and [n]
    counters. *)
Definition zero_state (n : nat) : state :=
  mkState (fun _ => 0) (replicate n 0) 0 0 0 0 [].

(** The operations of [clic.h] that write the registers of one line. *)
Inductive line_op : Type :=
  | OpConfigure (priority : Z) (edge_triggered positive_polarity : bool)
  | OpEnable
  | OpDisable
  | OpSetPending
  | OpClearPending.

Definition run_op (o : line_op) (irq : Z) : M unit :=
  match o with
  | OpConfigure priority e p => clic_configure_interrupt irq priority e p
  | OpEnable => clic_enable_interrupt irq
  | OpDisable => clic_disable_interrupt irq
  | OpSetPending => clic_set_pending irq
  | OpClearPending => clic_clear_pending irq
  end.

(** The default handler run once for each [(id, priority)] of a list, in
    order. *)
Fixpoint service_all (l : list (Z * Z)) : M unit :=
  match l with
  | [] => ret tt
  | (id, priority) :: rest =>
      clic_interrupt_handler id priority ;; service_all rest
  end.

(** How many times [id] is serviced by [service_all l]. *)
Definition services_of (id : Z) (l : list (Z * Z)) : Z :=
  Z.of_nat (length (List.filter (fun x => fst x =? id) l)).

(** The line the default handler prints. *)
Definition handled_line (id priority count : Z) : string :=
  "CLIC: Interrupt " +:+ fmt_d id +:+ " handled (priority="
  +:+ fmt_d priority +:+ ", count=" +:+ fmt_d count +:+ ")" +:+ nl.

(** An environment for the latency measurement given by a schedule: in
    trial [i] line [irq] is serviced by the default handler right before
    poll [k] when [sched i = Some k], and not at all when [sched i = None];
    nothing else ever runs. *)
Definition deliver_by (irq priority : Z) (sched : Z -> option Z)
    (pt : point) (s : state) : state :=
  match pt with
  | Poll i c =>
      match sched i with
      | Some k =>
          if c =? k then after (clic_interrupt_handler irq priority) s else s
      | None => s
      end
  | _ => s
  end.

(** The latency a scheduled trial is measured with (0 for a trial that is
    never serviced), what it makes the console show, and both summed up
    over the first [n] trials. *)
Definition trial_latency (sched : Z -> option Z) (i : Z) : Z :=
  match sched i with
  | Some k => k
  | None => 0
  end.

Definition trial_lines (irq priority : Z) (sched : Z -> option Z) (i : Z)
    : list string :=
  match sched i with
  | Some k => [handled_line irq priority 1; iteration_cycles_line i k]
  | None => [iteration_timeout_line i]
  end.

Fixpoint total_upto (sched : Z -> option Z) (n : nat) : Z :=
  match n with
  | O => 0
  | S k => total_upto sched k + trial_latency sched (Z.of_nat k)
  end.

Fixpoint lines_upto (irq priority : Z) (sched : Z -> option Z) (n : nat)
    : list string :=
  match n with
  | O => []
  | S k => lines_upto irq priority sched k
           ++ trial_lines irq priority sched (Z.of_nat k)
  end.

(** An element of a local array of the demo, read at an index inside its
    bounds. *)
Definition array_get (a : list Z) (i : Z) : Z := nth (Z.to_nat i) a 0.

(** [test_interrupt_threshold]; [activity] is what interrupt handlers do
    while the test sits in its [delay_ms]. *)
Definition test_interrupt_threshold (activity : state -> state) : M unit :=
  let test_irqs := [10; 11; 12] in
  let priorities := [50; 128; 200] in
  printf (nl +:+ "=== Interrupt Threshold ===" +:+ nl) ;;
  for_upto 3 (fun i =>
    clic_configure_interrupt (array_get test_irqs i) (array_get priorities i)
      true true ;;
    clic_enable_interrupt (array_get test_irqs i) ;;
    count_set (array_get test_irqs i) 0) ;;
  printf (nl +:+ "Setting threshold to 100..." +:+ nl) ;;
  clic_set_mithreshold 0 100 ;;
  for_upto 3 (fun i => clic_set_pending (array_get test_irqs i)) ;;
  delay_ms activity 10 ;;
  printf ("Results with threshold=100:" +:+ nl) ;;
  for_upto 3 (fun i =>
    c <- count_get (array_get test_irqs i) ;;
    printf ("  IRQ " +:+ fmt_d (array_get test_irqs i) +:+ " (priority="
            +:+ fmt_d (array_get priorities i) +:+ "): count=" +:+ fmt_d c
            +:+ " "
            +:+ (if threshold_100_allows (array_get priorities i)
                 then "✓ (allowed)" else "✗ (blocked)")
            +:+ nl)) ;;
  clic_set_mithreshold 0 0 ;;
  for_upto 3 (fun i =>
    clic_clear_pending (array_get test_irqs i) ;;
    clic_disable_interrupt (array_get test_irqs i)).

(** A result line of [test_interrupt_threshold]. *)
Definition threshold_result_line (irq priority count : Z) (verdict : string)
    : string :=
  "  IRQ " +:+ fmt_d irq +:+ " (priority=" +:+ fmt_d priority
  +:+ "): count=" +:+ fmt_d count +:+ " " +:+ verdict +:+ nl.

(** A read of a [volatile] variable of the demo. *)
Definition read {A : Type} (f : state -> A) : M A :=
  fun s => Ok (f s, s).

(** The body of the [for] loop of [test_basic_interrupts], for one line. *)
Definition test_basic_interrupts_body (activity : state -> state) (irq : Z)
    : M unit :=
  let priority := 128 in
  printf (nl +:+ "Configuring IRQ " +:+ fmt_d irq +:+ " with priority "
          +:+ fmt_d priority +:+ "..." +:+ nl) ;;
  clic_configure_interrupt irq priority true true ;;
  clic_enable_interrupt irq ;;
  clic_clear_pending irq ;;
  count_set irq 0 ;;
  printf ("Triggering IRQ " +:+ fmt_d irq +:+ "..." +:+ nl) ;;
  clic_set_pending irq ;;
  delay_ms activity 10 ;;
  c <- count_get irq ;;
  (if c >? 0 then
     c' <- count_get irq ;;
     printf ("✓ IRQ " +:+ fmt_d irq +:+ " handled successfully (count="
             +:+ fmt_d c' +:+ ")" +:+ nl)
   else
     printf ("✗ IRQ " +:+ fmt_d irq +:+ " was not handled!" +:+ nl)) ;;
  clic_disable_interrupt irq.

(** [test_basic_interrupts]; [activity i] is what interrupt handlers do
    during the delay of iteration [i]. *)
Definition test_basic_interrupts (activity : Z -> state -> state) : M unit :=
  let test_irqs := [1; 3; 5; 7; 9] in
  let num_tests := 5 in
  printf (nl +:+ "=== Basic Interrupt Functionality ===" +:+ nl) ;;
  for_upto (Z.to_nat num_tests) (fun i =>
    test_basic_interrupts_body (activity i) (array_get test_irqs i)).

Definition test_priority_preemption (activity : state -> state) : M unit :=
  let low_prio_irq := 2 in
  let high_prio_irq := 4 in
  printf (nl +:+ "=== Priority-based Preemption ===" +:+ nl) ;;
  clic_configure_interrupt low_prio_irq 200 true true ;;
  clic_enable_interrupt low_prio_irq ;;
  clic_configure_interrupt high_prio_irq 50 true true ;;
  clic_enable_interrupt high_prio_irq ;;
  count_set low_prio_irq 0 ;;
  count_set high_prio_irq 0 ;;
  printf ("Triggering both interrupts simultaneously..." +:+ nl) ;;
  clic_set_pending low_prio_irq ;;
  clic_set_pending high_prio_irq ;;
  delay_ms activity 10 ;;
  printf ("Results:" +:+ nl) ;;
  cl <- count_get low_prio_irq ;;
  printf ("  Low priority IRQ " +:+ fmt_d low_prio_irq +:+ ": count="
          +:+ fmt_d cl +:+ nl) ;;
  ch <- count_get high_prio_irq ;;
  printf ("  High priority IRQ " +:+ fmt_d high_prio_irq +:+ ": count="
          +:+ fmt_d ch +:+ nl) ;;
  last <- read clic_last_interrupt_id ;;
  (if last =? low_prio_irq then
     printf ("  Last handled: Low priority (IRQ " +:+ fmt_d low_prio_irq
             +:+ ")" +:+ nl)
   else
     last' <- read clic_last_interrupt_id ;;
     if last' =? high_prio_irq then
       printf ("  Last handled: High priority (IRQ " +:+ fmt_d high_prio_irq
               +:+ ")" +:+ nl)
     else ret tt) ;;
  clic_disable_interrupt low_prio_irq ;;
  clic_disable_interrupt high_prio_irq.

(** [test_trigger_modes]; [activity 0] and [activity 1] are what interrupt
    handlers do during its first and its second delay. *)
Definition test_trigger_modes (activity : Z -> state -> state) : M unit :=
  let edge_irq := 15 in
  let level_irq := 16 in
  printf (nl +:+ "=== Test 4: Edge vs Level Triggering ===" +:+ nl) ;;
  printf (nl +:+ "Configuring IRQ " +:+ fmt_d edge_irq
          +:+ " as edge-triggered..." +:+ nl) ;;
  clic_configure_interrupt edge_irq 128 true true ;;
  clic_enable_interrupt edge_irq ;;
  count_set edge_irq 0 ;;
  printf ("Configuring IRQ " +:+ fmt_d level_irq
          +:+ " as level-triggered..." +:+ nl) ;;
  clic_configure_interrupt level_irq 128 false true ;;
  clic_enable_interrupt level_irq ;;
  count_set level_irq 0 ;;
  printf (nl +:+ "Testing edge-triggered interrupt..." +:+ nl) ;;
  clic_set_pending edge_irq ;;
  delay_ms (activity 0) 5 ;;
  ce <- count_get edge_irq ;;
  printf ("  Edge IRQ " +:+ fmt_d edge_irq +:+ ": count=" +:+ fmt_d ce
          +:+ " (should be 1)" +:+ nl) ;;
  printf (nl +:+ "Testing level-triggered interrupt..." +:+ nl) ;;
  clic_set_pending level_irq ;;
  delay_ms (activity 1) 5 ;;
  cv <- count_get level_irq ;;
  printf ("  Level IRQ " +:+ fmt_d level_irq +:+ ": count=" +:+ fmt_d cv
          +:+ nl) ;;
  clic_disable_interrupt edge_irq ;;
  clic_disable_interrupt level_irq.

(** The line and the priority of iteration [i] of
    [test_multiple_interrupts]: [base_irq + i] and [50 + (i * 30)], in
    [unsigned int]. *)
Definition multiple_irq (i : Z) : Z := u32 (25 + i).

Definition multiple_priority (i : Z) : Z := u32 (50 + u32 (i * 30)).

Definition test_multiple_interrupts (activity : state -> state) : M unit :=
  let num_irqs := 5 in
  printf (nl +:+ "=== Multiple Simultaneous Interrupts ===" +:+ nl) ;;
  for_upto (Z.to_nat num_irqs) (fun i =>
    let irq := multiple_irq i in
    let priority := multiple_priority i in
    clic_configure_interrupt irq priority true true ;;
    clic_enable_interrupt irq ;;
    count_set irq 0 ;;
    printf ("Configured IRQ " +:+ fmt_d irq +:+ " with priority "
            +:+ fmt_d priority +:+ nl)) ;;
  printf (nl +:+ "Triggering all " +:+ fmt_d num_irqs
          +:+ " interrupts simultaneously..." +:+ nl) ;;
  for_upto (Z.to_nat num_irqs) (fun i => clic_set_pending (multiple_irq i)) ;;
  delay_ms activity 20 ;;
  printf (nl +:+ "Results:" +:+ nl) ;;
  for_upto (Z.to_nat num_irqs) (fun i =>
    let irq := multiple_irq i in
    c <- count_get irq ;;
    printf ("  IRQ " +:+ fmt_d irq +:+ ": handled " +:+ fmt_d c +:+ " times"
            +:+ nl)) ;;
  for_upto (Z.to_nat num_irqs) (fun i =>
    clic_disable_interrupt (multiple_irq i)).

(** What interrupt handlers do during the delays of each scenario of the
    demo. *)
Record demo_env : Type := {
  during_basic : Z -> state -> state;
  during_preemption : state -> state;
  during_threshold : state -> state;
  during_trigger_modes : Z -> state -> state;
  during_latency : point -> state -> state;
  during_multiple : state -> state
}.

Definition clic_demo (env : demo_env) : M unit :=
  printf nl ;;
  clic_init ;;
  test_basic_interrupts (during_basic env) ;;
  test_priority_preemption (during_preemption env) ;;
  test_interrupt_threshold (during_threshold env) ;;
  test_trigger_modes (during_trigger_modes env) ;;
  test_interrupt_latency (during_latency env) ;;
  test_multiple_interrupts (during_multiple env) ;;
  printf nl.

(** An activity that leaves the counter array at its size. *)
Definition keeps_length (activity : state -> state) : Prop :=
  forall s, length (clic_interrupt_count (activity s))
            = length (clic_interrupt_count s).

(** With [n] counters, a computation either returns, the array still [n]
    long, or stops at an access to the counter array at an index from [n]
    to [m], outside its bounds. *)
Definition within {A : Type} (n : nat) (m : Z) (c : M A) : Prop :=
  forall s, length (clic_interrupt_count s) = n ->
    (exists a s', c s = Ok (a, s') /\ length (clic_interrupt_count s') = n)
    \/ (exists i, c s = Err (OutOfBounds i) /\ Z.of_nat n <= i <= m).

(** With [n] counters, a computation is sure to stop at such an access. *)
Definition overruns {A : Type} (n : nat) (m : Z) (c : M A) : Prop :=
  forall s, length (clic_interrupt_count s) = n ->
    exists i, c s = Err (OutOfBounds i) /\ Z.of_nat n <= i <= m.




(** * Properties *)

(** ** Arithmetic of the register window *)

Lemma u8_idem (v : Z) : u8 (u8 v) = u8 v.
Proof. unfold u8. apply Z.mod_mod. lia. Qed.

Lemma u8_small (v : Z) : 0 <= v < 256 -> u8 v = v.
Proof. intros Hv. unfold u8. apply Z.mod_small. lia. Qed.

Lemma u32_small (v : Z) : 0 <= v < 2 ^ 32 -> u32 v = v.
Proof. intros Hv. unfold u32. apply Z.mod_small. lia. Qed.

(** Two register offsets less than [2^32] apart never share an address,
    whatever the base and the pointer width (of at least 32 bits). *)
Lemma reg_addr_ne (off1 i off2 j : Z) :
  32 <= XLEN ->
  off1 + i <> off2 + j ->
  - 2 ^ 32 < (off1 + i) - (off2 + j) < 2 ^ 32 ->
  reg_addr off1 i <> reg_addr off2 j.
Proof.
  intros Hx Hne Hd. unfold reg_addr. intros Heq.
  assert (Hpow : 2 ^ 32 <= 2 ^ XLEN) by (apply Z.pow_le_mono_r; lia).
  set (m := 2 ^ XLEN) in *.
  pose proof (Z.div_mod (CSR_CLIC_BASE + off1 + i) m ltac:(lia)) as Ha.
  pose proof (Z.div_mod (CSR_CLIC_BASE + off2 + j) m ltac:(lia)) as Hb.
  rewrite Heq in Ha.
  set (qa := (CSR_CLIC_BASE + off1 + i) / m) in *.
  set (qb := (CSR_CLIC_BASE + off2 + j) / m) in *.
  assert (Hk : (off1 + i) - (off2 + j) = m * (qa - qb)) by lia.
  assert (Hcase : qa - qb = 0 \/ 1 <= qa - qb \/ qa - qb <= -1) by lia.
  destruct Hcase as [H0 | [H1 | H1]]; nia.
Qed.

(** ** Running the monad *)

Lemma bind_ok {A B} (c : M A) (k : A -> M B) (s s' : state) (a : A) :
  c s = Ok (a, s') -> bind c k s = k a s'.
Proof. intros H. unfold bind. rewrite H. reflexivity. Qed.

Lemma bind_err {A B} (c : M A) (k : A -> M B) (s : state) (e : error) :
  c s = Err e -> bind c k s = Err e.
Proof. intros H. unfold bind. rewrite H. reflexivity. Qed.

Lemma count_get_run (i c : Z) (s : state) :
  0 <= i ->
  clic_interrupt_count s !! Z.to_nat i = Some c ->
  count_get i s = Ok (c, s).
Proof.
  intros Hi H. unfold count_get.
  destruct (i <? 0) eqn:E; [lia |]. rewrite H. reflexivity.
Qed.

Lemma count_get_oob (i : Z) (s : state) :
  clic_interrupt_count s !! Z.to_nat i = None ->
  count_get i s = Err (OutOfBounds i).
Proof.
  intros H. unfold count_get. rewrite H. destruct (i <? 0); reflexivity.
Qed.

Lemma count_set_run (i v : Z) (s : state) :
  0 <= i ->
  (Z.to_nat i < length (clic_interrupt_count s))%nat ->
  count_set i v s
  = Ok (tt, with_count (<[Z.to_nat i := u32 v]> (clic_interrupt_count s)) s).
Proof.
  intros Hi H. unfold count_set.
  destruct (0 <=? i) eqn:E1; [| lia].
  destruct (i <? Z.of_nat (length (clic_interrupt_count s))) eqn:E2; [| lia].
  reflexivity.
Qed.

(** ** The register accessors *)

Lemma reg_with_mmio (f : Z -> Z) (s : state) (off j : Z) :
  reg (with_mmio f s) off j = u8 (f (reg_addr off j)).
Proof. reflexivity. Qed.

Lemma insert_same (f : Z -> Z) (a v : Z) : u8 ((<[a := u8 v]> f) a) = u8 v.
Proof. rewrite fn_lookup_insert. apply u8_idem. Qed.

Lemma store8_run (a v : Z) (s : state) :
  store8 a v s = Ok (tt, with_mmio (<[a := u8 v]> (mmio s)) s).
Proof. reflexivity. Qed.

Lemma load8_run (a : Z) (s : state) : load8 a s = Ok (u8 (mmio s a), s).
Proof. reflexivity. Qed.

Lemma same_globals_with_mmio (f : Z -> Z) (s : state) :
  same_globals s (with_mmio f s).
Proof. repeat split. Qed.

Lemma clic_configure_interrupt_run (irq priority : Z) (e p : bool) (s : state) :
  clic_configure_interrupt irq priority e p s
  = Ok (tt, with_mmio
              (<[reg_addr CLIC_INTPRIO_OFFSET irq := u8 priority]>
                 (<[reg_addr CLIC_INTATTR_OFFSET irq := u8 (attr_of e p)]>
                    (mmio s))) s).
Proof. destruct e, p; reflexivity. Qed.

(** ** C6: reading the pending bit back *)

(** C6. For every line id (valid ids included) and every starting state,
    [clic_is_pending(id)] run right after [clic_set_pending(id)] returns
    true, and run right after [clic_clear_pending(id)] returns false; the
    read itself leaves the state as the write left it. *)
Theorem is_pending_after_set_and_clear (id : Z) (s : state) :
  (exists s1, clic_set_pending id s = Ok (tt, s1)
              /\ clic_is_pending id s1 = Ok (true, s1)
              /\ (clic_set_pending id ;; clic_is_pending id) s = Ok (true, s1))
  /\
  (exists s0, clic_clear_pending id s = Ok (tt, s0)
              /\ clic_is_pending id s0 = Ok (false, s0)
              /\ (clic_clear_pending id ;; clic_is_pending id) s = Ok (false, s0)).
Proof.
  split; eexists; (split; [reflexivity |]).
  - assert (H : clic_is_pending id
                  (with_mmio (<[reg_addr CLIC_INTIP_OFFSET id := u8 1]> (mmio s)) s)
                = Ok (true, with_mmio (<[reg_addr CLIC_INTIP_OFFSET id := u8 1]> (mmio s)) s)).
    { unfold clic_is_pending, clic_get_intip, bind, ret, load8. cbn [mmio with_mmio].
      rewrite fn_lookup_insert. reflexivity. }
    split; [exact H |].
    unfold bind at 1. unfold clic_set_pending, clic_set_intip. rewrite store8_run.
    exact H.
  - assert (H : clic_is_pending id
                  (with_mmio (<[reg_addr CLIC_INTIP_OFFSET id := u8 0]> (mmio s)) s)
                = Ok (false, with_mmio (<[reg_addr CLIC_INTIP_OFFSET id := u8 0]> (mmio s)) s)).
    { unfold clic_is_pending, clic_get_intip, bind, ret, load8. cbn [mmio with_mmio].
      rewrite fn_lookup_insert. reflexivity. }
    split; [exact H |].
    unfold bind at 1. unfold clic_clear_pending, clic_set_intip. rewrite store8_run.
    exact H.
Qed.

(** ** C2: no operation checks its line id *)

(** C2, as the code has it. [clic_set_pending] and
    [clic_configure_interrupt] take any id, also one at or beyond
    [CONFIG_CPU_INTERRUPTS]: they make no range check, return normally
    (there is no error to return from a [void] function) and have written the
    registers at offset [id]: the pending byte reads as set, the priority
    byte holds the priority given. *)
Theorem line_operations_are_unchecked
    (id priority : Z) (e p : bool) (s : state) :
  (exists s', clic_set_pending id s = Ok (tt, s')
              /\ line_pending s' id = true
              /\ same_globals s s')
  /\
  (exists s', clic_configure_interrupt id priority e p s = Ok (tt, s')
              /\ line_priority s' id = u8 priority
              /\ same_globals s s').
Proof.
  split.
  - eexists. split; [reflexivity |]. split; [| apply same_globals_with_mmio].
    unfold line_pending. rewrite reg_with_mmio, insert_same. reflexivity.
  - rewrite clic_configure_interrupt_run.
    eexists. split; [reflexivity |]. split; [| apply same_globals_with_mmio].
    unfold line_priority. rewrite reg_with_mmio. apply insert_same.
Qed.

(** ** C5: what configure and disable leave alone *)

Ltac addr_ne :=
  apply reg_addr_ne; [assumption | |];
  unfold CLIC_INTIP_OFFSET, CLIC_INTIE_OFFSET, CLIC_INTATTR_OFFSET,
         CLIC_INTPRIO_OFFSET, CLIC_MITHRESHOLD_OFFSET; lia.

Lemma line_edge_attr (f : Z -> Z) (s : state) (id : Z) (e p : bool) :
  u8 (f (reg_addr CLIC_INTATTR_OFFSET id)) = u8 (attr_of e p) ->
  line_edge (with_mmio f s) id = e.
Proof.
  intros H. unfold line_edge. rewrite reg_with_mmio, H.
  destruct e, p; reflexivity.
Qed.

(** C5. For a valid line id, [clic_configure_interrupt] stores the priority
    and the trigger and polarity bits of that line and nothing else: the
    enabled and pending bits of every line (this one too), the priority and
    attributes of every other line, the threshold and the variables of the
    program are as before.  [clic_disable_interrupt] makes the line read as
    disabled and leaves every pending bit, and every other byte, as it
    was.  (The register banks lie [0x400] bytes apart, so the layout holds at
    most [0x400] lines.) *)
Theorem configure_and_disable_frame
    (id priority : Z) (e p : bool) (s : state) :
  32 <= XLEN ->
  CONFIG_CPU_INTERRUPTS <= 0x400 ->
  0 <= id < CONFIG_CPU_INTERRUPTS ->
  (exists s', clic_configure_interrupt id priority e p s = Ok (tt, s')
      /\ line_priority s' id = u8 priority
      /\ reg s' CLIC_INTATTR_OFFSET id = attr_of e p
      /\ line_edge s' id = e
      /\ (forall j, 0 <= j < CONFIG_CPU_INTERRUPTS ->
            line_enabled s' j = line_enabled s j
            /\ line_pending s' j = line_pending s j)
      /\ (forall j, 0 <= j < CONFIG_CPU_INTERRUPTS -> j <> id ->
            line_priority s' j = line_priority s j
            /\ reg s' CLIC_INTATTR_OFFSET j = reg s CLIC_INTATTR_OFFSET j)
      /\ threshold s' 0 = threshold s 0
      /\ (forall a, a <> reg_addr CLIC_INTATTR_OFFSET id ->
                    a <> reg_addr CLIC_INTPRIO_OFFSET id ->
                    mmio s' a = mmio s a)
      /\ same_globals s s')
  /\
  (exists s', clic_disable_interrupt id s = Ok (tt, s')
      /\ line_enabled s' id = false
      /\ (forall j, 0 <= j < CONFIG_CPU_INTERRUPTS ->
            line_pending s' j = line_pending s j)
      /\ (forall a, a <> reg_addr CLIC_INTIE_OFFSET id -> mmio s' a = mmio s a)
      /\ same_globals s s').
Proof.
  intros Hx HN Hid. split.
  - rewrite clic_configure_interrupt_run. eexists. split; [reflexivity |].
    assert (Hattr : forall f : Z -> Z,
      u8 ((<[reg_addr CLIC_INTPRIO_OFFSET id := u8 priority]>
             (<[reg_addr CLIC_INTATTR_OFFSET id := u8 (attr_of e p)]> f))
            (reg_addr CLIC_INTATTR_OFFSET id)) = u8 (attr_of e p)).
    { intros f. rewrite fn_lookup_insert_ne by addr_ne. apply insert_same. }
    assert (Hother : forall off j,
      reg_addr CLIC_INTPRIO_OFFSET id <> reg_addr off j ->
      reg_addr CLIC_INTATTR_OFFSET id <> reg_addr off j ->
      reg (with_mmio
             (<[reg_addr CLIC_INTPRIO_OFFSET id := u8 priority]>
                (<[reg_addr CLIC_INTATTR_OFFSET id := u8 (attr_of e p)]>
                   (mmio s))) s) off j = reg s off j).
    { intros off j H1 H2. rewrite reg_with_mmio.
      rewrite !fn_lookup_insert_ne by assumption. reflexivity. }
    repeat split.
    + unfold line_priority. rewrite reg_with_mmio. apply insert_same.
    + rewrite reg_with_mmio, Hattr. destruct e, p; reflexivity.
    + apply (line_edge_attr _ _ _ e p), Hattr.
    + unfold line_enabled. rewrite Hother by addr_ne. reflexivity.
    + unfold line_pending. rewrite Hother by addr_ne. reflexivity.
    + unfold line_priority. apply Hother; addr_ne.
    + apply Hother; addr_ne.
    + unfold threshold. change (u32 (0 * 0x1000)) with 0.
      apply Hother; addr_ne.
    + intros a H1 H2. cbn [mmio with_mmio].
      rewrite !fn_lookup_insert_ne by congruence. reflexivity.
  - eexists. split; [reflexivity |]. repeat split.
    + unfold line_enabled. rewrite reg_with_mmio, insert_same. reflexivity.
    + intros j Hj. unfold line_pending. rewrite reg_with_mmio.
      rewrite fn_lookup_insert_ne by addr_ne. reflexivity.
    + intros a Ha. cbn [mmio with_mmio].
      rewrite fn_lookup_insert_ne by congruence. reflexivity.
Qed.

(** ** C7: disabling and clearing twice *)

Lemma store_same_value (s : state) (a v : Z) :
  u8 (mmio s a) = u8 v ->
  same_registers s (with_mmio (<[a := u8 v]> (mmio s)) s).
Proof.
  intros H b. cbn [mmio with_mmio].
  destruct (decide (a = b)) as [-> | Hne].
  - rewrite insert_same. symmetry. exact H.
  - rewrite fn_lookup_insert_ne by assumption. reflexivity.
Qed.

(** C7. [clic_disable_interrupt] on a line that already reads as disabled,
    and [clic_clear_pending] on a line whose pending byte already reads as
    clear, return normally and leave the whole state as it was: every byte
    of the register window reads the same, and the variables of the program
    are untouched. *)
Theorem disable_and_clear_idempotent (id : Z) (s : state) :
  (line_enabled s id = false ->
   exists s', clic_disable_interrupt id s = Ok (tt, s')
              /\ same_registers s s' /\ same_globals s s')
  /\
  (line_pending s id = false ->
   exists s', clic_clear_pending id s = Ok (tt, s')
              /\ same_registers s s' /\ same_globals s s').
Proof.
  split; intros H; eexists; (split; [reflexivity |]);
    (split; [| apply same_globals_with_mmio]);
    apply store_same_value;
    unfold line_enabled, line_pending, reg in H;
    apply negb_false_iff, Z.eqb_eq in H; rewrite H; reflexivity.
Qed.

(** ** The default handler *)

(** What a run of the handler does to each part of the state, when the
    counter of [id] exists. *)
Lemma clic_interrupt_handler_run (id priority c : Z) (s : state) :
  0 <= id ->
  clic_interrupt_count s !! Z.to_nat id = Some c ->
  exists s',
    clic_interrupt_handler id priority s = Ok (tt, s')
    /\ clic_interrupt_count s'
       = <[Z.to_nat id := u32 (c + 1)]> (clic_interrupt_count s)
    /\ clic_last_interrupt_id s' = id
    /\ clic_last_interrupt_priority s' = priority
    /\ clic_interrupt_cycles s' = u32 (clic_interrupt_cycles s + 1)
    /\ irq_ie s' = irq_ie s
    /\ mmio s'
       = (if id <? CONFIG_CPU_INTERRUPTS
          then <[reg_addr CLIC_INTIP_OFFSET id := u8 0]> (mmio s)
          else mmio s)
    /\ console s'
       = console s
         ++ ["CLIC: Interrupt " +:+ fmt_d id +:+ " handled (priority="
             +:+ fmt_d priority +:+ ", count=" +:+ fmt_d (u32 (c + 1))
             +:+ ")" +:+ nl].
Proof.
  intros Hid Hc.
  assert (Hlt : (Z.to_nat id < length (clic_interrupt_count s))%nat)
    by (eapply lookup_lt_Some; exact Hc).
  unfold clic_interrupt_handler.
  rewrite (bind_ok _ _ _ _ _ (count_get_run _ _ _ Hid Hc)).
  rewrite (bind_ok _ _ _ _ _ (count_set_run _ (c + 1) _ Hid Hlt)).
  unfold modify, when, bind at 1 2 3.
  set (s3 := with_cycles _ _).
  assert (Hc3 : clic_interrupt_count s3 !! Z.to_nat id = Some (u32 (c + 1))).
  { subst s3. cbn [clic_interrupt_count with_cycles with_last_priority
                   with_last_id with_count].
    apply list_lookup_insert_eq. exact Hlt. }
  destruct (id <? CONFIG_CPU_INTERRUPTS).
  - unfold bind at 1. unfold clic_clear_pending, clic_set_intip.
    rewrite store8_run.
    erewrite bind_ok by (apply count_get_run; [exact Hid | exact Hc3]).
    eexists. split; [reflexivity |]. repeat split.
  - unfold bind at 1, ret.
    erewrite bind_ok by (apply count_get_run; [exact Hid | exact Hc3]).
    eexists. split; [reflexivity |]. repeat split.
Qed.

(** C4. Serviced with the pair [(id, priority)], the default handler adds
    exactly one to [clic_interrupt_count[id]] (in [unsigned int] arithmetic:
    the count becomes [c + 1] for every [c] below [UINT_MAX]), changes no
    other counter, and sets [clic_last_interrupt_id] to [id] and
    [clic_last_interrupt_priority] to [priority]. *)
Theorem handler_instrumentation (id priority c : Z) (s : state) :
  0 <= id ->
  clic_interrupt_count s !! Z.to_nat id = Some c ->
  exists s',
    clic_interrupt_handler id priority s = Ok (tt, s')
    /\ clic_interrupt_count s' !! Z.to_nat id = Some (u32 (c + 1))
    /\ (0 <= c < 2 ^ 32 - 1 ->
        clic_interrupt_count s' !! Z.to_nat id = Some (c + 1))
    /\ (forall j : nat, j <> Z.to_nat id ->
        clic_interrupt_count s' !! j = clic_interrupt_count s !! j)
    /\ length (clic_interrupt_count s') = length (clic_interrupt_count s)
    /\ clic_last_interrupt_id s' = id
    /\ clic_last_interrupt_priority s' = priority.
Proof.
  intros Hid Hc.
  assert (Hlt : (Z.to_nat id < length (clic_interrupt_count s))%nat)
    by (eapply lookup_lt_Some; exact Hc).
  destruct (clic_interrupt_handler_run id priority c s Hid Hc)
    as (s' & Hrun & Hcount & Hlast & Hprio & _).
  exists s'. rewrite Hcount.
  split; [exact Hrun |].
  split; [apply list_lookup_insert_eq; exact Hlt |].
  split; [intros Hr; rewrite u32_small by lia;
          apply list_lookup_insert_eq; exact Hlt |].
  split; [intros j Hj; apply list_lookup_insert_ne; congruence |].
  split; [apply length_insert |].
  split; assumption.
Qed.

(** C9. The handler reaches [clic_interrupt_count[id]] before any test on
    [id]: with a counter at index [id] it returns normally whatever [id] is,
    and the test [id < CONFIG_CPU_INTERRUPTS] decides only whether the
    pending byte is cleared (beyond the bound the registers are not
    touched); with no counter at index [id] it is an out-of-bounds access.
    So with the array at its declared size of [CONFIG_CPU_INTERRUPTS]
    elements the access is out of bounds exactly when
    [id >= CONFIG_CPU_INTERRUPTS]. *)
Theorem handler_counter_access_unguarded (id priority : Z) (s : state) :
  0 <= id ->
  (forall c, clic_interrupt_count s !! Z.to_nat id = Some c ->
     exists s',
       clic_interrupt_handler id priority s = Ok (tt, s')
       /\ clic_interrupt_count s' !! Z.to_nat id = Some (u32 (c + 1))
       /\ (CONFIG_CPU_INTERRUPTS <= id -> mmio s' = mmio s)
       /\ (id < CONFIG_CPU_INTERRUPTS -> line_pending s' id = false))
  /\ (clic_interrupt_count s !! Z.to_nat id = None ->
      clic_interrupt_handler id priority s = Err (OutOfBounds id))
  /\ (Z.of_nat (length (clic_interrupt_count s)) = CONFIG_CPU_INTERRUPTS ->
      (clic_interrupt_handler id priority s = Err (OutOfBounds id)
       <-> CONFIG_CPU_INTERRUPTS <= id)).
Proof.
  intros Hid.
  assert (Hin : forall c, clic_interrupt_count s !! Z.to_nat id = Some c ->
     exists s',
       clic_interrupt_handler id priority s = Ok (tt, s')
       /\ clic_interrupt_count s' !! Z.to_nat id = Some (u32 (c + 1))
       /\ (CONFIG_CPU_INTERRUPTS <= id -> mmio s' = mmio s)
       /\ (id < CONFIG_CPU_INTERRUPTS -> line_pending s' id = false)).
  { intros c Hc.
    assert (Hlt : (Z.to_nat id < length (clic_interrupt_count s))%nat)
      by (eapply lookup_lt_Some; exact Hc).
    destruct (clic_interrupt_handler_run id priority c s Hid Hc)
      as (s' & Hrun & Hcount & _ & _ & _ & _ & Hmmio & _).
    exists s'. split; [exact Hrun |].
    split; [rewrite Hcount; apply list_lookup_insert_eq; exact Hlt |].
    split; intros Hb.
    - rewrite Hmmio. destruct (id <? CONFIG_CPU_INTERRUPTS) eqn:E; [lia |].
      reflexivity.
    - unfold line_pending, reg. rewrite Hmmio.
      destruct (id <? CONFIG_CPU_INTERRUPTS) eqn:E; [| lia].
      rewrite insert_same. reflexivity. }
  assert (Hout : clic_interrupt_count s !! Z.to_nat id = None ->
      clic_interrupt_handler id priority s = Err (OutOfBounds id)).
  { intros Hnone. unfold clic_interrupt_handler.
    apply bind_err, count_get_oob, Hnone. }
  split; [exact Hin |]. split; [exact Hout |].
  intros Hlen. split.
  - intros Herr.
    destruct (clic_interrupt_count s !! Z.to_nat id) as [c |] eqn:E.
    + destruct (Hin c eq_refl) as (s' & Hrun & _). congruence.
    + apply lookup_ge_None in E. lia.
  - intros Hge. apply Hout, lookup_ge_None. lia.
Qed.

(** ** C3: the state [clic_init] leaves *)

(** The first loop of [clic_init], run for [n] iterations. *)
Lemma clear_counts_run (n : nat) (s : state) :
  (n <= length (clic_interrupt_count s))%nat ->
  exists l,
    for_upto n (fun i => count_set i 0) s = Ok (tt, with_count l s)
    /\ length l = length (clic_interrupt_count s)
    /\ (forall i : nat, (i < n)%nat -> l !! i = Some 0)
    /\ (forall i : nat, (n <= i)%nat -> l !! i = clic_interrupt_count s !! i).
Proof.
  induction n as [| n IH]; intros Hn.
  - exists (clic_interrupt_count s). repeat split; try lia.
    destruct s; reflexivity.
  - destruct IH as (l & Hrun & Hlen & Hzero & Hrest); [lia |].
    exists (<[n := u32 0]> l). cbn [for_upto].
    rewrite (bind_ok _ _ _ _ _ Hrun).
    rewrite count_set_run;
      cbn [clic_interrupt_count with_count]; rewrite ?Nat2Z.id; try lia.
    split; [reflexivity |]. split; [rewrite length_insert; exact Hlen |].
    split; intros i Hi.
    + destruct (decide (i = n)) as [-> | Hne].
      * apply list_lookup_insert_eq. lia.
      * rewrite list_lookup_insert_ne by congruence. apply Hzero. lia.
    + rewrite list_lookup_insert_ne by lia. apply Hrest. lia.
Qed.

(** The second loop of [clic_init], run for [n] iterations: every byte is
    either as before or zero, the zeroed ones are enable or pending bytes of
    the lines below [n], and all of those are zero. *)
Lemma disable_all_run (n : nat) (s : state) :
  exists f : Z -> Z,
    for_upto n (fun i => clic_disable_interrupt i ;; clic_clear_pending i) s
    = Ok (tt, with_mmio f s)
    /\ (forall a, f a = mmio s a
                  \/ (f a = 0
                      /\ exists i, 0 <= i < Z.of_nat n
                           /\ (a = reg_addr CLIC_INTIE_OFFSET i
                               \/ a = reg_addr CLIC_INTIP_OFFSET i)))
    /\ (forall i, 0 <= i < Z.of_nat n ->
          f (reg_addr CLIC_INTIE_OFFSET i) = 0
          /\ f (reg_addr CLIC_INTIP_OFFSET i) = 0).
Proof.
  induction n as [| n IH].
  - exists (mmio s). split; [destruct s; reflexivity |].
    split; [intros a; left; reflexivity | intros i Hi; lia].
  - destruct IH as (f & Hrun & Hframe & Hzero).
    set (ie := reg_addr CLIC_INTIE_OFFSET (Z.of_nat n)).
    set (ip := reg_addr CLIC_INTIP_OFFSET (Z.of_nat n)).
    exists (<[ip := u8 0]> (<[ie := u8 0]> f)). cbn [for_upto].
    rewrite (bind_ok _ _ _ _ _ Hrun).
    split; [reflexivity |].
    assert (Hnew : forall a,
      (<[ip := u8 0]> (<[ie := u8 0]> f)) a
      = if decide (ip = a) then 0 else if decide (ie = a) then 0 else f a).
    { intros a. unfold insert, fn_insert.
      destruct (decide (ip = a)); [reflexivity |].
      destruct (decide (ie = a)); reflexivity. }
    split.
    + intros a. rewrite Hnew.
      destruct (decide (ip = a)) as [<- | Hip].
      { right. split; [reflexivity |]. exists (Z.of_nat n). split; [lia |].
        right. reflexivity. }
      destruct (decide (ie = a)) as [<- | Hie].
      { right. split; [reflexivity |]. exists (Z.of_nat n). split; [lia |].
        left. reflexivity. }
      destruct (Hframe a) as [Hsame | (Hz & i & Hi & Ha)]; [left; exact Hsame |].
      right. split; [exact Hz |]. exists i. split; [lia | exact Ha].
    + intros i Hi. rewrite !Hnew.
      assert (Hold : i <> Z.of_nat n ->
                f (reg_addr CLIC_INTIE_OFFSET i) = 0
                /\ f (reg_addr CLIC_INTIP_OFFSET i) = 0)
        by (intros Hne; apply Hzero; lia).
      split.
      * destruct (decide (ip = reg_addr CLIC_INTIE_OFFSET i)); [reflexivity |].
        destruct (decide (ie = reg_addr CLIC_INTIE_OFFSET i)) as [| Hne];
          [reflexivity |].
        apply Hold. intros ->. apply Hne. reflexivity.
      * destruct (decide (ip = reg_addr CLIC_INTIP_OFFSET i)) as [| Hne];
          [reflexivity |].
        destruct (decide (ie = reg_addr CLIC_INTIP_OFFSET i)); [reflexivity |].
        apply Hold. intros ->. apply Hne. reflexivity.
Qed.

(** C3, as the code has it. After [clic_init] every line below
    [CONFIG_CPU_INTERRUPTS] reads as disabled and not pending, its counter is
    zero, and the threshold of context 0 is 0 (the global interrupt enable
    is set).  [clic_init] writes no priority or attribute byte: each line
    keeps the priority and attributes it had before the call. *)
Theorem clic_init_postcondition (s : state) :
  32 <= XLEN ->
  CONFIG_CPU_INTERRUPTS <= 0x400 ->
  Z.of_nat (length (clic_interrupt_count s)) = CONFIG_CPU_INTERRUPTS ->
  exists s',
    clic_init s = Ok (tt, s')
    /\ (forall id, 0 <= id < CONFIG_CPU_INTERRUPTS ->
          line_enabled s' id = false
          /\ line_pending s' id = false
          /\ clic_interrupt_count s' !! Z.to_nat id = Some 0
          /\ line_priority s' id = line_priority s id
          /\ reg s' CLIC_INTATTR_OFFSET id = reg s CLIC_INTATTR_OFFSET id)
    /\ threshold s' 0 = 0
    /\ irq_ie s' = 1.
Proof.
  intros Hx HN Hlen. unfold clic_init.
  set (s1 := with_console (console s ++ ["Initializing CLIC..." +:+ nl]) s).
  rewrite (bind_ok (printf _) _ s s1 tt eq_refl).
  destruct (clear_counts_run (Z.to_nat CONFIG_CPU_INTERRUPTS) s1)
    as (l & Hrun1 & Hl & Hzero & _);
    [subst s1; cbn [clic_interrupt_count with_console]; lia |].
  rewrite (bind_ok _ _ _ _ _ Hrun1).
  destruct (disable_all_run (Z.to_nat CONFIG_CPU_INTERRUPTS) (with_count l s1))
    as (f & Hrun2 & Hframe & Hclear).
  rewrite (bind_ok _ _ _ _ _ Hrun2).
  set (thr := reg_addr CLIC_MITHRESHOLD_OFFSET (u32 (0 * 0x1000))).
  eexists. split; [reflexivity |].
  cbn [mmio clic_interrupt_count irq_ie with_mmio with_count with_console
       with_ie] in *.
  split; [| split; [| reflexivity]].
  - intros id Hid.
    destruct (Hclear id ltac:(lia)) as [Hie Hip].
    assert (Hkeep : forall off,
      reg_addr off id <> thr ->
      (forall i, 0 <= i < CONFIG_CPU_INTERRUPTS ->
         reg_addr off id <> reg_addr CLIC_INTIE_OFFSET i
         /\ reg_addr off id <> reg_addr CLIC_INTIP_OFFSET i) ->
      u8 ((<[thr := u8 0]> f) (reg_addr off id)) = reg s off id).
    { intros off Hthr Hoff.
      rewrite fn_lookup_insert_ne by congruence.
      destruct (Hframe (reg_addr off id)) as [-> | (_ & i & Hi & Ha)];
        [reflexivity |].
      destruct (Hoff i ltac:(lia)) as [H1 H2]. destruct Ha; contradiction. }
    assert (Hzeroed : forall a, f a = 0 -> u8 ((<[thr := u8 0]> f) a) = 0).
    { intros a Ha. unfold insert, fn_insert.
      destruct (decide (thr = a)); [| rewrite Ha]; reflexivity. }
    repeat split.
    + unfold line_enabled, reg. cbn [mmio with_mmio with_ie with_console].
      fold thr. rewrite (Hzeroed _ Hie). reflexivity.
    + unfold line_pending, reg. cbn [mmio with_mmio with_ie with_console].
      fold thr. rewrite (Hzeroed _ Hip). reflexivity.
    + apply Hzero. lia.
    + unfold line_priority at 1. unfold reg at 1.
      cbn [mmio with_mmio with_ie with_console]. fold thr.
      apply Hkeep; [subst thr; change (u32 (0 * 0x1000)) with 0; addr_ne |].
      intros i Hi. split; addr_ne.
    + unfold reg at 1. cbn [mmio with_mmio with_ie with_console]. fold thr.
      apply Hkeep; [subst thr; change (u32 (0 * 0x1000)) with 0; addr_ne |].
      intros i Hi. split; addr_ne.
  - unfold threshold, reg. cbn [mmio with_mmio with_ie with_console].
    fold thr. rewrite insert_same. reflexivity.
Qed.

(** ** The wait loop of the latency measurement *)

Lemma latency_wait_unfold (env : point -> state -> state)
    (test_irq i : Z) (fuel : nat) (cycles : Z) :
  latency_wait env test_irq i fuel cycles
  = (async (env (Poll i cycles)) ;;
     c <- count_get test_irq ;;
     if (c =? 0) && (cycles <? 10000) then
       match fuel with
       | S fuel' => latency_wait env test_irq i fuel' (u32 (cycles + 1))
       | O => fun _ => Err OutOfFuel
       end
     else ret cycles).
Proof. destruct fuel; reflexivity. Qed.

(** While the counter stays at zero the wait loop runs to the cap: it ends
    with [cycles = 10000], and fuel for the remaining iterations is enough. *)
Lemma latency_wait_unserviced (env : point -> state -> state)
    (test_irq i : Z) (n : nat) :
  0 <= test_irq ->
  (forall cycles s0,
     clic_interrupt_count (env (Poll i cycles) s0) !! Z.to_nat test_irq
     = clic_interrupt_count s0 !! Z.to_nat test_irq) ->
  forall (fuel : nat) (cycles : Z) (s : state),
    (n <= fuel)%nat ->
    0 <= cycles ->
    cycles = 10000 - Z.of_nat n ->
    clic_interrupt_count s !! Z.to_nat test_irq = Some 0 ->
    exists s',
      latency_wait env test_irq i fuel cycles s = Ok (10000, s')
      /\ clic_interrupt_count s' !! Z.to_nat test_irq = Some 0.
Proof.
  intros Hirq Henv.
  induction n as [| n IH]; intros fuel cycles s Hfuel Hge Hcycles Hzero;
    rewrite latency_wait_unfold; unfold async, modify;
    rewrite (bind_ok _ _ s (env (Poll i cycles) s) tt eq_refl);
    (assert (Hzero' : clic_interrupt_count (env (Poll i cycles) s)
                       !! Z.to_nat test_irq = Some 0)
       by (rewrite Henv; exact Hzero));
    rewrite (bind_ok _ _ _ _ _ (count_get_run _ _ _ Hirq Hzero')).
  - replace (cycles <? 10000) with false by lia.
    exists (env (Poll i cycles) s). split; [| exact Hzero'].
    cbn [Z.eqb andb]. unfold ret. replace cycles with 10000 by lia.
    reflexivity.
  - replace (cycles <? 10000) with true by lia.
    destruct fuel as [| fuel]; [lia |].
    cbn [Z.eqb andb].
    rewrite u32_small by lia.
    apply IH; [lia | lia | lia | exact Hzero'].
Qed.


(** ** The arbiter *)

Lemma line_ids_spec (x : Z) :
  In x line_ids <-> 0 <= x < CONFIG_CPU_INTERRUPTS.
Proof.
  unfold line_ids. rewrite in_map_iff. split.
  - intros (k & <- & Hk). apply in_seq in Hk. lia.
  - intros Hx. exists (Z.to_nat x). split; [lia |]. apply in_seq. lia.
Qed.

(** The winner is the winner so far or an eligible line of the list. *)
Lemma select_among_sound (s : state) (context : Z) (ids : list Z) :
  forall best x,
    select_among s context ids best = Some x ->
    best = Some x \/ (In x ids /\ eligible s context x = true).
Proof.
  induction ids as [| id rest IH]; intros best x H; cbn in H.
  - left. exact H.
  - apply IH in H. destruct H as [H | [Hin He]];
      [| right; split; [right; exact Hin | exact He]].
    destruct (eligible s context id) eqn:E; [| left; exact H].
    destruct best as [b |].
    + destruct (line_priority s id <? line_priority s b).
      * injection H as <-. right. split; [left; reflexivity | exact E].
      * left. exact H.
    + injection H as <-. right. split; [left; reflexivity | exact E].
Qed.

(** No winner means that there was none so far and no line of the list is
    eligible. *)
Lemma select_among_none (s : state) (context : Z) (ids : list Z) :
  forall best,
    select_among s context ids best = None <->
    best = None /\ (forall x, In x ids -> eligible s context x = false).
Proof.
  induction ids as [| id rest IH]; intros best; cbn [select_among].
  - split; [intros H; split; [exact H | intros x []] | intros [H _]; exact H].
  - rewrite IH. destruct (eligible s context id) eqn:E.
    + split.
      * intros [H _]. destruct best as [b |]; [| discriminate H].
        destruct (line_priority s id <? line_priority s b); discriminate H.
      * intros [_ H]. specialize (H id (or_introl eq_refl)). congruence.
    + split.
      * intros [Hb H]. split; [exact Hb |].
        intros x [<- | Hx]; [exact E | apply H; exact Hx].
      * intros [Hb H]. split; [exact Hb |].
        intros x Hx. apply H. right. exact Hx.
Qed.

Lemma select_next_none (s : state) (context : Z) :
  (forall j, 0 <= j < CONFIG_CPU_INTERRUPTS -> eligible s context j = false) ->
  select_next s context = None.
Proof.
  intros H. unfold select_next. apply select_among_none.
  split; [reflexivity |]. intros x Hx. apply H, line_ids_spec, Hx.
Qed.

(** The only eligible line is the one selected. *)
Lemma select_next_only (s : state) (context id : Z) :
  0 <= id < CONFIG_CPU_INTERRUPTS ->
  eligible s context id = true ->
  (forall j, 0 <= j < CONFIG_CPU_INTERRUPTS -> j <> id ->
     eligible s context j = false) ->
  select_next s context = Some id.
Proof.
  intros Hid He Hothers. unfold select_next.
  destruct (select_among s context line_ids None) as [y |] eqn:E.
  - apply select_among_sound in E. destruct E as [E | [Hin Hy]];
      [discriminate E |].
    apply line_ids_spec in Hin.
    destruct (decide (y = id)) as [-> | Hne]; [reflexivity |].
    rewrite (Hothers y Hin Hne) in Hy. discriminate Hy.
  - apply select_among_none in E. destruct E as [_ E].
    rewrite (E id) in He; [discriminate He | apply line_ids_spec, Hid].
Qed.

Lemma eligible_same (s s' : state) (context j : Z) :
  reg s' CLIC_INTIE_OFFSET j = reg s CLIC_INTIE_OFFSET j ->
  reg s' CLIC_INTIP_OFFSET j = reg s CLIC_INTIP_OFFSET j ->
  reg s' CLIC_INTPRIO_OFFSET j = reg s CLIC_INTPRIO_OFFSET j ->
  threshold s' context = threshold s context ->
  eligible s' context j = eligible s context j.
Proof.
  intros H1 H2 H3 H4.
  unfold eligible, line_enabled, line_pending, line_priority.
  rewrite H1, H2, H3, H4. reflexivity.
Qed.

Lemma dispatch_polls_idle (handler : Z -> Z -> M unit) (context : Z)
    (n : nat) (s : state) :
  select_next s context = None ->
  dispatch_polls handler context n s = Ok (tt, s).
Proof.
  intros H. induction n as [| n IH]; [reflexivity |].
  cbn [dispatch_polls]. unfold bind at 1, dispatch_poll. rewrite H. exact IH.
Qed.

(** ** C1: the threshold gate *)

(** What the arbiter selects is a line of the controller that is eligible. *)
Lemma select_next_sound (s : state) (context id : Z) :
  select_next s context = Some id ->
  0 <= id < CONFIG_CPU_INTERRUPTS /\ eligible s context id = true.
Proof.
  intros H. unfold select_next in H.
  apply select_among_sound in H.
  destruct H as [H | [Hin He]]; [discriminate H |].
  split; [apply line_ids_spec; exact Hin | exact He].
Qed.

(** The winner's priority is no greater than that of the winner so far, and
    than that of any eligible line of the list. *)
Lemma select_among_least (s : state) (context : Z) (ids : list Z) :
  forall best x,
    select_among s context ids best = Some x ->
    (forall b, best = Some b -> line_priority s x <= line_priority s b)
    /\ (forall j, In j ids -> eligible s context j = true ->
          line_priority s x <= line_priority s j).
Proof.
  induction ids as [| id rest IH]; intros best x H; cbn [select_among] in H.
  - split; [| intros j []].
    intros b Hb. rewrite Hb in H. injection H as ->. lia.
  - apply IH in H. destruct H as [Hbest Hrest].
    destruct (eligible s context id) eqn:E.
    + destruct best as [b |].
      * destruct (line_priority s id <? line_priority s b) eqn:Elt.
        -- specialize (Hbest id eq_refl). split.
           ++ intros b' Hb'. injection Hb' as <-. lia.
           ++ intros j [<- | Hj] Hej; [exact Hbest | apply Hrest; assumption].
        -- specialize (Hbest b eq_refl). split.
           ++ intros b' Hb'. injection Hb' as <-. exact Hbest.
           ++ intros j [<- | Hj] Hej; [lia | apply Hrest; assumption].
      * specialize (Hbest id eq_refl). split.
        -- intros b Hb. discriminate Hb.
        -- intros j [<- | Hj] Hej; [exact Hbest | apply Hrest; assumption].
    + split; [exact Hbest |].
      intros j [<- | Hj] Hej; [congruence | apply Hrest; assumption].
Qed.

(** An eligible line makes the arbiter select: that line, or one whose
    priority value is no greater. *)
Lemma select_next_complete (s : state) (context id : Z) :
  0 <= id < CONFIG_CPU_INTERRUPTS ->
  eligible s context id = true ->
  exists x,
    select_next s context = Some x
    /\ eligible s context x = true
    /\ line_priority s x <= line_priority s id.
Proof.
  intros Hid He. unfold select_next.
  destruct (select_among s context line_ids None) as [x |] eqn:E.
  - exists x. split; [reflexivity |]. split.
    + apply select_among_sound in E.
      destruct E as [E | [_ E]]; [discriminate E | exact E].
    + apply (proj2 (select_among_least _ _ _ _ _ E));
        [apply line_ids_spec; exact Hid | exact He].
  - apply select_among_none in E. destruct E as [_ E].
    rewrite E in He by (apply line_ids_spec; exact Hid). discriminate He.
Qed.

(** A poll reports the line the arbiter selected, whatever the callback. *)
Lemma dispatch_poll_result (handler : Z -> Z -> M unit) (context : Z)
    (s s' : state) (r : option Z) :
  dispatch_poll handler context s = Ok (r, s') ->
  r = select_next s context.
Proof.
  unfold dispatch_poll. destruct (select_next s context) as [id |].
  - unfold bind.
    destruct (handler id (line_priority s id) s) as [[[] s1] | e];
      [| discriminate].
    destruct (when (line_edge s1 id) (clic_clear_pending id) s1)
      as [[[] s2] | e]; [| discriminate].
    unfold ret. intros H. injection H as <- _. reflexivity.
  - intros H. injection H as <- _. reflexivity.
Qed.

(** C1. The gate blocks a priority exactly when the threshold is not 0 and
    the priority is greater than or equal to it, and a blocked line is kept
    from dispatch: the arbiter never selects it and no poll of the dispatch
    loop reports it, whatever the callback.  What the arbiter selects is
    enabled, pending and not blocked.  Conversely an enabled and pending
    line that is not blocked makes the arbiter select a line whose priority
    value is no greater, and that line itself when no other is eligible.
    With threshold 0 nothing is blocked: every line that is enabled and
    pending is eligible and gets the arbiter to select, whatever its
    priority, priority 0 included.  The verdict the threshold test of the
    demo prints for threshold 100 is the gate's. *)
Theorem threshold_gate :
  (forall priority t, blocked priority t = true <-> t <> 0 /\ t <= priority)
  /\ (forall priority, blocked priority 0 = false)
  /\ (forall s context id,
        threshold s context = 0 ->
        line_enabled s id = true ->
        line_pending s id = true ->
        eligible s context id = true)
  /\ (forall priority,
        threshold_100_allows priority = negb (blocked priority 100))
  /\ (forall s context id,
        blocked (line_priority s id) (threshold s context) = true ->
        select_next s context <> Some id
        /\ forall handler r s',
             dispatch_poll handler context s = Ok (r, s') -> r <> Some id)
  /\ (forall s context id,
        select_next s context = Some id ->
        0 <= id < CONFIG_CPU_INTERRUPTS
        /\ line_enabled s id = true
        /\ line_pending s id = true
        /\ blocked (line_priority s id) (threshold s context) = false)
  /\ (forall s context id,
        0 <= id < CONFIG_CPU_INTERRUPTS ->
        line_enabled s id = true ->
        line_pending s id = true ->
        blocked (line_priority s id) (threshold s context) = false ->
        exists x,
          select_next s context = Some x
          /\ line_priority s x <= line_priority s id
          /\ ((forall j, 0 <= j < CONFIG_CPU_INTERRUPTS -> j <> id ->
                  eligible s context j = false) ->
              x = id))
  /\ (forall s context id,
        0 <= id < CONFIG_CPU_INTERRUPTS ->
        threshold s context = 0 ->
        line_enabled s id = true ->
        line_pending s id = true ->
        exists x,
          select_next s context = Some x
          /\ line_priority s x <= line_priority s id).
Proof.
  assert (Hselected : forall s context id,
            select_next s context = Some id ->
            0 <= id < CONFIG_CPU_INTERRUPTS
            /\ line_enabled s id = true
            /\ line_pending s id = true
            /\ blocked (line_priority s id) (threshold s context) = false).
  { intros s context id H. apply select_next_sound in H.
    destruct H as [Hid He]. unfold eligible in He.
    apply andb_prop in He. destruct He as [He Hb].
    apply andb_prop in He. destruct He as [He Hp].
    apply negb_true_iff in Hb. repeat split; try assumption; lia. }
  assert (Hcomplete : forall s context id,
            0 <= id < CONFIG_CPU_INTERRUPTS ->
            line_enabled s id = true ->
            line_pending s id = true ->
            blocked (line_priority s id) (threshold s context) = false ->
            exists x,
              select_next s context = Some x
              /\ line_priority s x <= line_priority s id
              /\ ((forall j, 0 <= j < CONFIG_CPU_INTERRUPTS -> j <> id ->
                      eligible s context j = false) ->
                  x = id)).
  { intros s context id Hid He Hp Hb.
    assert (Hel : eligible s context id = true)
      by (unfold eligible; rewrite He, Hp, Hb; reflexivity).
    destruct (select_next_complete s context id Hid Hel)
      as (x & Hx & Hex & Hle).
    exists x. split; [exact Hx |]. split; [exact Hle |].
    intros Hothers. destruct (Z.eq_dec x id) as [-> | Hne]; [reflexivity |].
    apply select_next_sound in Hx. destruct Hx as [Hxr _].
    rewrite (Hothers x Hxr Hne) in Hex. discriminate Hex. }
  split; [| split; [| split; [| split; [| split; [| split; [| split]]]]]].
  - intros priority t. unfold blocked.
    destruct (t =? 0) eqn:E; [split; [discriminate | lia] |].
    rewrite Z.leb_le. split; [intros H; split; lia | intros [_ H]; exact H].
  - reflexivity.
  - intros s context id Ht He Hp. unfold eligible. rewrite He, Hp, Ht.
    reflexivity.
  - intros priority. unfold threshold_100_allows, blocked. cbn [Z.eqb].
    destruct (priority <? 100) eqn:E1, (100 <=? priority) eqn:E2;
      try reflexivity; lia.
  - intros s context id Hb.
    assert (Hnot : select_next s context <> Some id).
    { intros H. apply Hselected in H. destruct H as (_ & _ & _ & H).
      congruence. }
    split; [exact Hnot |].
    intros handler r s' Hrun. apply dispatch_poll_result in Hrun.
    rewrite Hrun. exact Hnot.
  - exact Hselected.
  - exact Hcomplete.
  - intros s context id Hid Ht He Hp.
    destruct (Hcomplete s context id Hid He Hp) as (x & Hx & Hle & _).
    + rewrite Ht. reflexivity.
    + exists x. split; [exact Hx | exact Hle].
Qed.

(** ** C10: the default handler under the dispatch loop *)

Lemma filter_length_flip {A : Type} (f f' : A -> bool) (l : list A) (j : A) :
  NoDup l ->
  In j l ->
  f j = true ->
  f' j = false ->
  (forall k, In k l -> k <> j -> f' k = f k) ->
  S (length (List.filter f' l)) = length (List.filter f l).
Proof.
  intros Hnd. induction Hnd as [| x l Hx Hnd IH]; intros Hj Hf Hf' Hsame.
  - destruct Hj.
  - cbn [List.filter]. destruct Hj as [-> | Hj].
    + rewrite Hf, Hf'. cbn [length]. f_equal. f_equal.
      apply filter_ext_in. intros k Hk. apply Hsame; [right; exact Hk |].
      intros ->. apply Hx. apply list_elem_of_In. exact Hk.
    + assert (Hne : x <> j)
        by (intros ->; apply Hx; apply list_elem_of_In; exact Hj).
      rewrite (Hsame x (or_introl eq_refl) Hne).
      assert (Hrec : S (length (List.filter f' l)) = length (List.filter f l))
        by (apply IH; [exact Hj | exact Hf | exact Hf' |];
            intros k Hk; apply Hsame; right; exact Hk).
      destruct (f x); cbn [length]; rewrite <- Hrec; reflexivity.
Qed.

Lemma line_ids_NoDup : NoDup line_ids.
Proof.
  unfold line_ids.
  generalize (NoDup_seq 0 (Z.to_nat CONFIG_CPU_INTERRUPTS)).
  generalize (seq 0 (Z.to_nat CONFIG_CPU_INTERRUPTS)).
  intros l Hnd. induction Hnd as [| x l Hx Hnd IH]; cbn [map].
  - constructor.
  - constructor; [| exact IH].
    rewrite list_elem_of_In, in_map_iff. intros (y & Hy & Hin).
    apply Nat2Z.inj in Hy. subst y. apply Hx, list_elem_of_In, Hin.
Qed.

Lemma eligible_count_zero (s : state) (context : Z) :
  eligible_count s context = 0%nat -> select_next s context = None.
Proof.
  unfold eligible_count. intros H. apply select_next_none. intros j Hj.
  destruct (eligible s context j) eqn:E; [| reflexivity].
  assert (Hin : In j (List.filter (eligible s context) line_ids))
    by (apply filter_In; split; [apply line_ids_spec, Hj | exact E]).
  destruct (List.filter (eligible s context) line_ids);
    [destruct Hin | discriminate H].
Qed.

(** A poll that selects line [j], with the default handler as the callback:
    the counter of [j] goes up by one, its pending byte reads 0 afterwards,
    and no other register byte changes, whatever the trigger mode of [j]. *)
Lemma dispatch_poll_services (s : state) (j : Z) :
  Z.of_nat (length (clic_interrupt_count s)) = CONFIG_CPU_INTERRUPTS ->
  select_next s 0 = Some j ->
  0 <= j < CONFIG_CPU_INTERRUPTS
  /\ eligible s 0 j = true
  /\ exists cj s',
       clic_interrupt_count s !! Z.to_nat j = Some cj
       /\ dispatch_poll clic_interrupt_handler 0 s = Ok (Some j, s')
       /\ clic_interrupt_count s'
          = <[Z.to_nat j := u32 (cj + 1)]> (clic_interrupt_count s)
       /\ clic_last_interrupt_id s' = j
       /\ (forall off k, reg_addr off k <> reg_addr CLIC_INTIP_OFFSET j ->
             reg s' off k = reg s off k)
       /\ reg s' CLIC_INTIP_OFFSET j = 0.
Proof.
  intros Hlen Hsel.
  pose proof Hsel as Hsound. unfold select_next in Hsound.
  apply select_among_sound in Hsound.
  destruct Hsound as [Hsound | [Hin He]]; [discriminate Hsound |].
  apply line_ids_spec in Hin.
  split; [exact Hin |]. split; [exact He |].
  destruct (clic_interrupt_count s !! Z.to_nat j) as [cj |] eqn:Hcj;
    [| apply lookup_ge_None in Hcj; lia].
  assert (HjN : (j <? CONFIG_CPU_INTERRUPTS) = true) by lia.
  set (ipa := reg_addr CLIC_INTIP_OFFSET j).
  destruct (clic_interrupt_handler_run j (line_priority s j) cj s
              ltac:(lia) Hcj)
    as (s2 & Hrun & Hcount & Hlast & _ & _ & _ & Hmmio & _).
  rewrite HjN in Hmmio. fold ipa in Hmmio.
  set (s3 := if line_edge s2 j
             then with_mmio (<[ipa := u8 0]> (mmio s2)) s2 else s2).
  assert (Hwhen : when (line_edge s2 j) (clic_clear_pending j) s2
                  = Ok (tt, s3)).
  { unfold s3, when. destruct (line_edge s2 j); reflexivity. }
  exists cj, s3. split; [reflexivity |]. split.
  { unfold dispatch_poll. rewrite Hsel.
    rewrite (bind_ok _ _ _ _ _ Hrun).
    unfold bind at 1. cbv beta. rewrite Hwhen. reflexivity. }
  assert (Hglob : clic_interrupt_count s3 = clic_interrupt_count s2
                  /\ clic_last_interrupt_id s3 = clic_last_interrupt_id s2).
  { unfold s3. destruct (line_edge s2 j); split; reflexivity. }
  destruct Hglob as [-> ->].
  split; [exact Hcount |]. split; [exact Hlast |]. split.
  - intros off k Hne. unfold s3, reg.
    destruct (line_edge s2 j); cbn [mmio with_mmio];
      rewrite Hmmio, ?fn_lookup_insert_ne by congruence; reflexivity.
  - unfold s3, reg. fold ipa. destruct (line_edge s2 j);
      cbn [mmio with_mmio]; [| rewrite Hmmio]; rewrite insert_same;
      reflexivity.
Qed.

(** Eligibility after the pending byte of line [j] alone has been cleared. *)
Lemma eligible_after_service (s s' : state) (j : Z) :
  32 <= XLEN ->
  CONFIG_CPU_INTERRUPTS <= 0x400 ->
  0 <= j < CONFIG_CPU_INTERRUPTS ->
  (forall off k, reg_addr off k <> reg_addr CLIC_INTIP_OFFSET j ->
     reg s' off k = reg s off k) ->
  reg s' CLIC_INTIP_OFFSET j = 0 ->
  eligible s' 0 j = false
  /\ (forall k, 0 <= k < CONFIG_CPU_INTERRUPTS -> k <> j ->
        eligible s' 0 k = eligible s 0 k
        /\ line_pending s' k = line_pending s k)
  /\ (forall k, 0 <= k < CONFIG_CPU_INTERRUPTS ->
        line_edge s' k = line_edge s k).
Proof.
  intros Hx HN Hj Hreg Hip.
  assert (Hthr : threshold s' 0 = threshold s 0).
  { unfold threshold. change (u32 (0 * 0x1000)) with 0. apply Hreg. addr_ne. }
  split; [| split].
  - unfold eligible, line_pending. rewrite Hip, andb_false_r. reflexivity.
  - intros k Hk Hne. split.
    + apply eligible_same; [| | | exact Hthr]; apply Hreg; addr_ne.
    + unfold line_pending. rewrite Hreg by addr_ne. reflexivity.
  - intros k Hk. unfold line_edge. rewrite Hreg by addr_ne. reflexivity.
Qed.

(** Any number of polls, with the default handler as the callback. *)
Lemma dispatch_polls_run (id c : Z) :
  32 <= XLEN ->
  CONFIG_CPU_INTERRUPTS <= 0x400 ->
  0 <= id < CONFIG_CPU_INTERRUPTS ->
  forall (n : nat) (s : state),
    Z.of_nat (length (clic_interrupt_count s)) = CONFIG_CPU_INTERRUPTS ->
    waiting_or_served_once id c s ->
    exists s',
      dispatch_polls clic_interrupt_handler 0 n s = Ok (tt, s')
      /\ waiting_or_served_once id c s'
      /\ line_edge s' id = line_edge s id
      /\ ((eligible_count s 0 <= n)%nat -> select_next s' 0 = None).
Proof.
  intros Hx HN Hid. induction n as [| n IH]; intros s Hlen Hinv.
  - exists s. split; [reflexivity |]. split; [exact Hinv |].
    split; [reflexivity |]. intros H0. apply eligible_count_zero. lia.
  - destruct (select_next s 0) as [j |] eqn:Hsel.
    + destruct (dispatch_poll_services s j Hlen Hsel)
        as (Hj & Hej & cj & s1 & Hcj & Hpoll & Hcount & _ & Hreg & Hip).
      destruct (eligible_after_service s s1 j Hx HN Hj Hreg Hip)
        as (Hgone & Hkeep & Hedge).
      assert (Hlen1 : Z.of_nat (length (clic_interrupt_count s1))
                      = CONFIG_CPU_INTERRUPTS)
        by (rewrite Hcount, length_insert; exact Hlen).
      assert (Hinv1 : waiting_or_served_once id c s1).
      { destruct (decide (j = id)) as [-> | Hne].
        - destruct Hinv as [[_ Hc] | [Hp _]].
          + right. split.
            * unfold line_pending. rewrite Hip. reflexivity.
            * rewrite Hcount. rewrite Hc in Hcj. injection Hcj as <-.
              apply list_lookup_insert_eq. eapply lookup_lt_Some. exact Hc.
          + unfold eligible in Hej. rewrite Hp in Hej.
            rewrite andb_false_r in Hej. discriminate Hej.
        - assert (Hidx : Z.to_nat j <> Z.to_nat id) by lia.
          destruct (Hkeep id Hid ltac:(congruence)) as [Hel Hpend].
          destruct Hinv as [[He Hc] | [Hp Hc]]; [left | right];
            (split; [congruence |]);
            rewrite Hcount, list_lookup_insert_ne by exact Hidx; exact Hc. }
      destruct (IH s1 Hlen1 Hinv1) as (s' & Hrun & Hinv' & Hedge' & Hdone).
      exists s'. cbn [dispatch_polls]. rewrite (bind_ok _ _ _ _ _ Hpoll).
      split; [exact Hrun |]. split; [exact Hinv' |].
      split; [rewrite Hedge'; apply Hedge; exact Hid |].
      intros Hn. apply Hdone.
      assert (Hflip : S (eligible_count s1 0) = eligible_count s 0).
      { unfold eligible_count.
        apply (filter_length_flip _ _ _ j);
          [apply line_ids_NoDup | apply line_ids_spec, Hj | exact Hej
          | exact Hgone |].
        intros k Hk Hne. apply Hkeep; [apply line_ids_spec, Hk | exact Hne]. }
      lia.
    + exists s. split; [apply dispatch_polls_idle, Hsel |].
      split; [exact Hinv |]. split; [reflexivity |]. intros _. exact Hsel.
Qed.

Lemma eligible_count_le (s : state) (context : Z) :
  (eligible_count s context <= Z.to_nat CONFIG_CPU_INTERRUPTS)%nat.
Proof.
  unfold eligible_count.
  etransitivity; [apply List.filter_length_le |].
  unfold line_ids. rewrite length_map, length_seq. reflexivity.
Qed.

(** C10. For a serviced [id] below [CONFIG_CPU_INTERRUPTS] the default
    handler clears the pending byte of the line whatever its trigger mode
    (nothing is assumed about the attribute byte, and the handler leaves it
    as it was).  Hence, under the dispatch loop of the specification with
    this handler as the callback, [clic_set_pending(id)] on an enabled,
    unblocked line, be it edge- or level-triggered and whatever the other
    lines are doing, leads to exactly one service of the line: after any
    number of polls the line either still waits with its counter unchanged
    or is no longer pending with its counter one higher, and once
    [CONFIG_CPU_INTERRUPTS] polls or more have run it is the latter, with
    nothing left to select. *)
Theorem default_handler_one_service_per_pending
    (id c : Z) (n : nat) (s : state) :
  32 <= XLEN ->
  CONFIG_CPU_INTERRUPTS <= 0x400 ->
  0 <= id < CONFIG_CPU_INTERRUPTS ->
  Z.of_nat (length (clic_interrupt_count s)) = CONFIG_CPU_INTERRUPTS ->
  clic_interrupt_count s !! Z.to_nat id = Some c ->
  line_enabled s id = true ->
  blocked (line_priority s id) (threshold s 0) = false ->
  (forall priority,
     exists s', clic_interrupt_handler id priority s = Ok (tt, s')
                /\ line_pending s' id = false
                /\ line_edge s' id = line_edge s id)
  /\
  (exists s',
     (clic_set_pending id ;;
      dispatch_polls clic_interrupt_handler 0 n) s = Ok (tt, s')
     /\ line_edge s' id = line_edge s id
     /\ ((line_pending s' id = true
          /\ clic_interrupt_count s' !! Z.to_nat id = Some c)
         \/ (line_pending s' id = false
             /\ clic_interrupt_count s' !! Z.to_nat id = Some (u32 (c + 1))))
     /\ ((Z.to_nat CONFIG_CPU_INTERRUPTS <= n)%nat ->
         line_pending s' id = false
         /\ clic_interrupt_count s' !! Z.to_nat id = Some (u32 (c + 1))
         /\ select_next s' 0 = None)).
Proof.
  intros Hx HN Hid Hlen Hc Hen Hblk.
  assert (HidN : (id <? CONFIG_CPU_INTERRUPTS) = true) by lia.
  set (ipa := reg_addr CLIC_INTIP_OFFSET id).
  split.
  - intros priority.
    destruct (clic_interrupt_handler_run id priority c s ltac:(lia) Hc)
      as (s' & Hrun & _ & _ & _ & _ & _ & Hmmio & _).
    rewrite HidN in Hmmio. exists s'. split; [exact Hrun |].
    unfold line_pending, line_edge, reg. rewrite Hmmio. split.
    + rewrite insert_same. reflexivity.
    + rewrite fn_lookup_insert_ne by addr_ne. reflexivity.
  - set (s1 := with_mmio (<[ipa := u8 1]> (mmio s)) s).
    assert (Hreg1 : forall off j, reg_addr off j <> ipa ->
              reg s1 off j = reg s off j).
    { intros off j Hne. unfold reg, s1. cbn [mmio with_mmio].
      rewrite fn_lookup_insert_ne by congruence. reflexivity. }
    assert (Hel1 : eligible s1 0 id = true).
    { unfold eligible, line_enabled, line_pending, line_priority, threshold.
      change (u32 (0 * 0x1000)) with 0.
      rewrite (Hreg1 CLIC_INTIE_OFFSET id) by (subst ipa; addr_ne).
      rewrite (Hreg1 CLIC_INTPRIO_OFFSET id) by (subst ipa; addr_ne).
      rewrite (Hreg1 CLIC_MITHRESHOLD_OFFSET 0) by (subst ipa; addr_ne).
      unfold line_enabled in Hen. rewrite Hen.
      unfold line_priority, threshold in Hblk.
      change (u32 (0 * 0x1000)) with 0 in Hblk. rewrite Hblk.
      unfold reg, s1. cbn [mmio with_mmio]. fold ipa. rewrite insert_same.
      reflexivity. }
    destruct (dispatch_polls_run id c Hx HN Hid n s1 Hlen
                (or_introl (conj Hel1 Hc)))
      as (s' & Hrun & Hinv & Hedge & Hdone).
    exists s'.
    split; [rewrite (bind_ok (clic_set_pending id) _ s s1 tt eq_refl);
            exact Hrun |].
    split.
    { rewrite Hedge. unfold line_edge.
      rewrite Hreg1 by (subst ipa; addr_ne). reflexivity. }
    split.
    + destruct Hinv as [[He Hcount] | [Hp Hcount]]; [left | right];
        (split; [| exact Hcount]); [| exact Hp].
      unfold eligible in He.
      destruct (line_pending s' id); [reflexivity |].
      rewrite andb_false_r in He. discriminate He.
    + intros Hn.
      assert (Hnone : select_next s' 0 = None)
        by (apply Hdone; pose proof (eligible_count_le s1 0); lia).
      destruct Hinv as [[He _] | [Hp Hcount]].
      * unfold select_next in Hnone. apply select_among_none in Hnone.
        destruct Hnone as [_ Hnone].
        rewrite (Hnone id (proj2 (line_ids_spec id) Hid)) in He.
        discriminate He.
      * split; [exact Hp |]. split; [exact Hcount | exact Hnone].
Qed.

(** * Further properties of clic.h *)

Ltac thr_addr_ne :=
  rewrite ?u32_small by lia;
  apply reg_addr_ne; [assumption | |];
  unfold CLIC_INTIP_OFFSET, CLIC_INTIE_OFFSET, CLIC_INTATTR_OFFSET,
         CLIC_INTPRIO_OFFSET, CLIC_MITHRESHOLD_OFFSET; lia.

(** X1. [clic_enable_interrupt] on a valid line makes that line read as
    enabled and changes nothing else: the enable bits of the other lines,
    every pending bit, priority and attribute byte, the threshold and the
    variables of the program are as before. *)
Theorem enable_frame (id : Z) (s : state) :
  32 <= XLEN ->
  CONFIG_CPU_INTERRUPTS <= 0x400 ->
  0 <= id < CONFIG_CPU_INTERRUPTS ->
  exists s',
    clic_enable_interrupt id s = Ok (tt, s')
    /\ line_enabled s' id = true
    /\ (forall j, 0 <= j < CONFIG_CPU_INTERRUPTS -> j <> id ->
          line_enabled s' j = line_enabled s j)
    /\ (forall j, 0 <= j < CONFIG_CPU_INTERRUPTS ->
          line_pending s' j = line_pending s j
          /\ line_priority s' j = line_priority s j
          /\ reg s' CLIC_INTATTR_OFFSET j = reg s CLIC_INTATTR_OFFSET j)
    /\ threshold s' 0 = threshold s 0
    /\ same_globals s s'.
Proof.
  intros Hx HN Hid. eexists. split; [reflexivity |].
  assert (Hother : forall off j,
    reg_addr CLIC_INTIE_OFFSET id <> reg_addr off j ->
    reg (with_mmio (<[reg_addr CLIC_INTIE_OFFSET id := u8 1]> (mmio s)) s) off j
    = reg s off j).
  { intros off j Hne. rewrite reg_with_mmio.
    rewrite fn_lookup_insert_ne by assumption. reflexivity. }
  split; [unfold line_enabled; rewrite reg_with_mmio, insert_same;
          reflexivity |].
  split; [intros j Hj Hne; unfold line_enabled; rewrite Hother by addr_ne;
          reflexivity |].
  split.
  { intros j Hj. unfold line_pending, line_priority.
    rewrite !Hother by addr_ne. repeat split. }
  split; [| apply same_globals_with_mmio].
  unfold threshold. change (u32 (0 * 0x1000)) with 0. apply Hother. addr_ne.
Qed.

(** X2. The threshold of a hart reads back as written (converted to
    [uint8_t]); writing it changes neither the threshold of any other hart
    nor any register of a line, nor a variable of the program.  (Harts below
    [2^20 - 1], whose threshold byte lies within [2^32] of the base; lines
    below [0x400].) *)
Theorem threshold_write_read (hart value : Z) (s : state) :
  32 <= XLEN ->
  0 <= hart < 2 ^ 20 - 1 ->
  exists s',
    clic_set_mithreshold hart value s = Ok (tt, s')
    /\ clic_get_mithreshold hart s' = Ok (u8 value, s')
    /\ (forall h, 0 <= h < 2 ^ 20 - 1 -> h <> hart ->
          threshold s' h = threshold s h)
    /\ (forall j, 0 <= j < 0x400 ->
          line_enabled s' j = line_enabled s j
          /\ line_pending s' j = line_pending s j
          /\ line_priority s' j = line_priority s j
          /\ reg s' CLIC_INTATTR_OFFSET j = reg s CLIC_INTATTR_OFFSET j)
    /\ same_globals s s'.
Proof.
  intros Hx Hh. eexists. split; [reflexivity |].
  set (ta := reg_addr CLIC_MITHRESHOLD_OFFSET (u32 (hart * 0x1000))).
  assert (Hother : forall off j,
    ta <> reg_addr off j ->
    reg (with_mmio (<[ta := u8 value]> (mmio s)) s) off j = reg s off j).
  { intros off j Hne. rewrite reg_with_mmio.
    rewrite fn_lookup_insert_ne by assumption. reflexivity. }
  split.
  { unfold clic_get_mithreshold, load8. cbn [mmio with_mmio]. fold ta.
    rewrite insert_same. reflexivity. }
  split.
  { intros h Hh' Hne. unfold threshold. apply Hother. subst ta. thr_addr_ne. }
  split; [| apply same_globals_with_mmio].
  intros j Hj. unfold line_enabled, line_pending, line_priority.
  rewrite !Hother by (subst ta; thr_addr_ne). repeat split.
Qed.

(** X3. The register banks lie [0x400] bytes apart and nothing checks the
    id, so an operation on line [id + 0x400] is an operation on another
    register of line [id]: setting or clearing its pending bit enables or
    disables line [id], and enabling or disabling it writes the attribute
    byte of line [id].  The argument is an [unsigned int]: this holds when
    [id + 0x400] does not wrap around in 32 bits, and with 32-bit pointers
    also when it does. *)
Theorem banks_alias_beyond_0x400 (id : Z) (s : state) :
  0 <= id < 2 ^ 32 ->
  id + 0x400 < 2 ^ 32 \/ XLEN = 32 ->
  clic_set_pending (u32 (id + 0x400)) s = clic_enable_interrupt id s
  /\ clic_clear_pending (u32 (id + 0x400)) s = clic_disable_interrupt id s
  /\ clic_enable_interrupt (u32 (id + 0x400)) s = clic_set_intattr id 1 s
  /\ clic_disable_interrupt (u32 (id + 0x400)) s = clic_set_intattr id 0 s
  /\ (exists s', clic_set_pending (u32 (id + 0x400)) s = Ok (tt, s')
                 /\ line_enabled s' id = true).
Proof.
  intros Hid Hwrap.
  assert (Hshift : forall offset,
            reg_addr offset (u32 (id + 0x400))
            = reg_addr (offset + 0x400) id).
  { intros offset. unfold reg_addr. destruct Hwrap as [Hsmall | ->].
    - rewrite u32_small by lia. f_equal. lia.
    - unfold u32. rewrite Zplus_mod_idemp_r. f_equal. lia. }
  assert (H1 : reg_addr CLIC_INTIP_OFFSET (u32 (id + 0x400))
               = reg_addr CLIC_INTIE_OFFSET id) by apply Hshift.
  assert (H2 : reg_addr CLIC_INTIE_OFFSET (u32 (id + 0x400))
               = reg_addr CLIC_INTATTR_OFFSET id) by apply Hshift.
  unfold clic_set_pending, clic_clear_pending, clic_enable_interrupt,
    clic_disable_interrupt, clic_set_intip, clic_set_intie, clic_set_intattr.
  rewrite H1, H2. repeat split.
  eexists. split; [reflexivity |].
  unfold line_enabled. rewrite reg_with_mmio, insert_same. reflexivity.
Qed.

(** X4. Configuring a line twice leaves the registers as the second call
    alone would: priority, trigger mode and polarity are overwritten, not
    merged with what the line held before. *)
Theorem configure_last_wins
    (id p1 p2 : Z) (e1 q1 e2 q2 : bool) (s : state) :
  exists s12 s2,
    (clic_configure_interrupt id p1 e1 q1 ;;
     clic_configure_interrupt id p2 e2 q2) s = Ok (tt, s12)
    /\ clic_configure_interrupt id p2 e2 q2 s = Ok (tt, s2)
    /\ same_registers s2 s12
    /\ same_globals s2 s12.
Proof.
  eexists. eexists.
  split; [rewrite (bind_ok _ _ _ _ _ (clic_configure_interrupt_run _ _ _ _ _));
          apply clic_configure_interrupt_run |].
  split; [apply clic_configure_interrupt_run |].
  split; [| repeat split].
  intros a. cbn [mmio with_mmio]. unfold insert, fn_insert.
  repeat (destruct (decide _)); reflexivity.
Qed.

(** X5. Operations on two different lines (both below [0x400]) commute:
    whichever of configure, enable, disable, set-pending and clear-pending is
    applied to one line and whichever to the other, both orders leave every
    register byte and every variable of the program the same. *)
Theorem distinct_lines_commute (o1 o2 : line_op) (i j : Z) (s : state) :
  32 <= XLEN ->
  0 <= i < 0x400 ->
  0 <= j < 0x400 ->
  i <> j ->
  exists s1 s2,
    (run_op o1 i ;; run_op o2 j) s = Ok (tt, s1)
    /\ (run_op o2 j ;; run_op o1 i) s = Ok (tt, s2)
    /\ same_registers s1 s2
    /\ same_globals s1 s2.
Proof.
  intros Hx Hi Hj Hne.
  assert (Hd : forall o o',
    In o [CLIC_INTIP_OFFSET; CLIC_INTIE_OFFSET; CLIC_INTATTR_OFFSET;
          CLIC_INTPRIO_OFFSET] ->
    In o' [CLIC_INTIP_OFFSET; CLIC_INTIE_OFFSET; CLIC_INTATTR_OFFSET;
           CLIC_INTPRIO_OFFSET] ->
    reg_addr o i <> reg_addr o' j).
  { intros o o' Ho Ho'. cbn [In] in Ho, Ho'.
    destruct Ho as [<- | [<- | [<- | [<- | []]]]];
      destruct Ho' as [<- | [<- | [<- | [<- | []]]]]; addr_ne. }
  assert (Hpp := Hd CLIC_INTIP_OFFSET CLIC_INTIP_OFFSET ltac:(cbn; tauto) ltac:(cbn; tauto)).
  assert (Hpe := Hd CLIC_INTIP_OFFSET CLIC_INTIE_OFFSET ltac:(cbn; tauto) ltac:(cbn; tauto)).
  assert (Hpa := Hd CLIC_INTIP_OFFSET CLIC_INTATTR_OFFSET ltac:(cbn; tauto) ltac:(cbn; tauto)).
  assert (Hpr := Hd CLIC_INTIP_OFFSET CLIC_INTPRIO_OFFSET ltac:(cbn; tauto) ltac:(cbn; tauto)).
  assert (Hep := Hd CLIC_INTIE_OFFSET CLIC_INTIP_OFFSET ltac:(cbn; tauto) ltac:(cbn; tauto)).
  assert (Hee := Hd CLIC_INTIE_OFFSET CLIC_INTIE_OFFSET ltac:(cbn; tauto) ltac:(cbn; tauto)).
  assert (Hea := Hd CLIC_INTIE_OFFSET CLIC_INTATTR_OFFSET ltac:(cbn; tauto) ltac:(cbn; tauto)).
  assert (Her := Hd CLIC_INTIE_OFFSET CLIC_INTPRIO_OFFSET ltac:(cbn; tauto) ltac:(cbn; tauto)).
  assert (Hap := Hd CLIC_INTATTR_OFFSET CLIC_INTIP_OFFSET ltac:(cbn; tauto) ltac:(cbn; tauto)).
  assert (Hae := Hd CLIC_INTATTR_OFFSET CLIC_INTIE_OFFSET ltac:(cbn; tauto) ltac:(cbn; tauto)).
  assert (Haa := Hd CLIC_INTATTR_OFFSET CLIC_INTATTR_OFFSET ltac:(cbn; tauto) ltac:(cbn; tauto)).
  assert (Har := Hd CLIC_INTATTR_OFFSET CLIC_INTPRIO_OFFSET ltac:(cbn; tauto) ltac:(cbn; tauto)).
  assert (Hrp := Hd CLIC_INTPRIO_OFFSET CLIC_INTIP_OFFSET ltac:(cbn; tauto) ltac:(cbn; tauto)).
  assert (Hre := Hd CLIC_INTPRIO_OFFSET CLIC_INTIE_OFFSET ltac:(cbn; tauto) ltac:(cbn; tauto)).
  assert (Hra := Hd CLIC_INTPRIO_OFFSET CLIC_INTATTR_OFFSET ltac:(cbn; tauto) ltac:(cbn; tauto)).
  assert (Hrr := Hd CLIC_INTPRIO_OFFSET CLIC_INTPRIO_OFFSET ltac:(cbn; tauto) ltac:(cbn; tauto)).
  clear Hd.
  destruct o1 as [p1 [] [] | | | |], o2 as [p2 [] [] | | | |];
    (eexists; eexists; split; [reflexivity |]; split; [reflexivity |];
     split; [| repeat split]);
    intros a; cbn [mmio with_mmio]; unfold insert, fn_insert;
    repeat (destruct (decide _)); try reflexivity; congruence.
Qed.

(** * Further properties of clic_demo.c *)

(** X6. The default handler writes no configuration: servicing [id] leaves
    the enable bit, priority and attribute byte of every line, the pending
    bit of every other line, every threshold and the global interrupt enable
    as they were; it only counts (one more handled interrupt in
    [clic_interrupt_cycles]) and clears the pending bit of [id]. *)
Theorem handler_leaves_configuration (id priority c : Z) (s : state) :
  32 <= XLEN ->
  CONFIG_CPU_INTERRUPTS <= 0x400 ->
  0 <= id ->
  clic_interrupt_count s !! Z.to_nat id = Some c ->
  exists s',
    clic_interrupt_handler id priority s = Ok (tt, s')
    /\ (forall j, 0 <= j < 0x400 ->
          line_enabled s' j = line_enabled s j
          /\ line_priority s' j = line_priority s j
          /\ reg s' CLIC_INTATTR_OFFSET j = reg s CLIC_INTATTR_OFFSET j)
    /\ (forall j, 0 <= j < 0x400 -> j <> id ->
          line_pending s' j = line_pending s j)
    /\ (forall h, 0 <= h < 2 ^ 20 - 1 -> threshold s' h = threshold s h)
    /\ irq_ie s' = irq_ie s
    /\ clic_interrupt_cycles s' = u32 (clic_interrupt_cycles s + 1)
    /\ length (clic_interrupt_count s') = length (clic_interrupt_count s).
Proof.
  intros Hx HN Hid Hc.
  destruct (clic_interrupt_handler_run id priority c s Hid Hc)
    as (s' & Hrun & Hcount & _ & _ & Hcycles & Hie & Hmmio & _).
  exists s'. split; [exact Hrun |].
  assert (Hother : forall off j,
    (id < CONFIG_CPU_INTERRUPTS ->
     reg_addr CLIC_INTIP_OFFSET id <> reg_addr off j) ->
    reg s' off j = reg s off j).
  { intros off j Hne. unfold reg. rewrite Hmmio.
    destruct (id <? CONFIG_CPU_INTERRUPTS) eqn:E; [| reflexivity].
    rewrite fn_lookup_insert_ne by (apply Hne; lia). reflexivity. }
  split.
  { intros j Hj. unfold line_enabled, line_priority.
    rewrite !Hother by (intros Hlt; addr_ne). repeat split. }
  split.
  { intros j Hj Hne. unfold line_pending.
    rewrite Hother by (intros Hlt; addr_ne). reflexivity. }
  split.
  { intros h Hh. unfold threshold.
    apply Hother. intros Hlt. thr_addr_ne. }
  split; [exact Hie |]. split; [exact Hcycles |].
  rewrite Hcount. apply length_insert.
Qed.

Lemma u32_range (v : Z) : 0 <= u32 v < 2 ^ 32.
Proof. unfold u32. apply Z.mod_pos_bound. lia. Qed.

Lemma u32_add_l (a b : Z) : u32 (u32 a + b) = u32 (a + b).
Proof. unfold u32. apply Zplus_mod_idemp_l. Qed.

Lemma services_of_cons (j id priority : Z) (l : list (Z * Z)) :
  services_of j ((id, priority) :: l)
  = (if id =? j then 1 else 0) + services_of j l.
Proof.
  unfold services_of. cbn [List.filter fst].
  destruct (id =? j); cbn [length]; lia.
Qed.

(** X7. The counters count services.  After the default handler has run for
    each entry of a list of valid lines, the counter of every line has gone
    up by the number of times that line was serviced and
    [clic_interrupt_cycles] by the length of the list (both in
    [unsigned int] arithmetic), every serviced line reads as not pending, and
    no byte of the register window has changed except to zero. *)
Theorem service_counters_accumulate (l : list (Z * Z)) (s : state) :
  Z.of_nat (length (clic_interrupt_count s)) = CONFIG_CPU_INTERRUPTS ->
  (forall (j : nat) c, clic_interrupt_count s !! j = Some c ->
     0 <= c < 2 ^ 32) ->
  (forall x, In x l -> 0 <= fst x < CONFIG_CPU_INTERRUPTS) ->
  exists s',
    service_all l s = Ok (tt, s')
    /\ (forall j c, 0 <= j ->
          clic_interrupt_count s !! Z.to_nat j = Some c ->
          clic_interrupt_count s' !! Z.to_nat j
          = Some (u32 (c + services_of j l)))
    /\ clic_interrupt_cycles s'
       = (if decide (l = []) then clic_interrupt_cycles s
          else u32 (clic_interrupt_cycles s + Z.of_nat (length l)))
    /\ (forall x, In x l -> line_pending s' (fst x) = false)
    /\ (forall a, u8 (mmio s' a) = u8 (mmio s a) \/ u8 (mmio s' a) = 0).
Proof.
  revert s. induction l as [| [id priority] l IH]; intros s Hlen Hwf Hvalid.
  - exists s. split; [reflexivity |]. split.
    { intros j c Hj Hc. rewrite Hc. f_equal.
      unfold services_of. cbn. rewrite Z.add_0_r.
      symmetry. apply u32_small. eapply Hwf. exact Hc. }
    split; [reflexivity |]. split; [intros x [] |].
    intros a. left. reflexivity.
  - assert (Hid : 0 <= id < CONFIG_CPU_INTERRUPTS)
      by (apply (Hvalid (id, priority)); left; reflexivity).
    destruct (clic_interrupt_count s !! Z.to_nat id) as [c0 |] eqn:Hc0;
      [| apply lookup_ge_None in Hc0; lia].
    destruct (clic_interrupt_handler_run id priority c0 s ltac:(lia) Hc0)
      as (s1 & Hrun & Hcount & _ & _ & Hcycles & _ & Hmmio & _).
    assert (HidN : (id <? CONFIG_CPU_INTERRUPTS) = true) by lia.
    rewrite HidN in Hmmio.
    assert (Hlt : (Z.to_nat id < length (clic_interrupt_count s))%nat)
      by (eapply lookup_lt_Some; exact Hc0).
    destruct (IH s1) as (s' & Hrest & Hcounts & Hcyc & Hpend & Hbytes).
    { rewrite Hcount, length_insert. exact Hlen. }
    { intros j c Hc. rewrite Hcount in Hc.
      destruct (decide (j = Z.to_nat id)) as [-> | Hne].
      - rewrite list_lookup_insert_eq in Hc by exact Hlt.
        injection Hc as <-. apply u32_range.
      - rewrite list_lookup_insert_ne in Hc by congruence.
        eapply Hwf. exact Hc. }
    { intros x Hx. apply Hvalid. right. exact Hx. }
    exists s'. cbn [service_all]. rewrite (bind_ok _ _ _ _ _ Hrun).
    split; [exact Hrest |]. split.
    { intros j c Hj Hc. rewrite services_of_cons.
      destruct (decide (j = id)) as [-> | Hne].
      - rewrite Hc0 in Hc. injection Hc as <-.
        rewrite (Hcounts id (u32 (c0 + 1)) Hj)
          by (rewrite Hcount; apply list_lookup_insert_eq; exact Hlt).
        rewrite Z.eqb_refl, u32_add_l. f_equal. f_equal. lia.
      - rewrite (Hcounts j c Hj)
          by (rewrite Hcount, list_lookup_insert_ne by lia; exact Hc).
        destruct (id =? j) eqn:E; [lia |]. reflexivity. }
    split.
    { destruct (decide ((id, priority) :: l = [])) as [Hnil | _];
        [discriminate Hnil |].
      rewrite Hcyc, Hcycles. destruct (decide (l = [])) as [-> | _].
      - reflexivity.
      - rewrite u32_add_l. f_equal. cbn [length]. lia. }
    assert (Hzero : u8 (mmio s1 (reg_addr CLIC_INTIP_OFFSET id)) = 0)
      by (rewrite Hmmio, insert_same; reflexivity).
    split.
    { intros x [<- | Hx]; [| apply Hpend; exact Hx].
      cbn [fst]. unfold line_pending, reg.
      destruct (Hbytes (reg_addr CLIC_INTIP_OFFSET id)) as [-> | ->];
        [rewrite Hzero |]; reflexivity. }
    intros a. destruct (Hbytes a) as [Ha | Ha]; [| right; exact Ha].
    rewrite Ha, Hmmio. unfold insert, fn_insert.
    destruct (decide (reg_addr CLIC_INTIP_OFFSET id = a));
      [right; reflexivity | left; reflexivity].
Qed.

(** X8. What [clic_init] does not reset.  It returns, with the counter array
    still [CONFIG_CPU_INTERRUPTS] long, after printing exactly its two
    lines; [clic_last_interrupt_id], [clic_last_interrupt_priority] and
    [clic_interrupt_cycles] keep their values; lines from
    [CONFIG_CPU_INTERRUPTS] up (below [0x400]) keep their enable and pending
    bits, and the thresholds of the harts other than 0 are untouched. *)
Theorem clic_init_frame (s : state) :
  32 <= XLEN ->
  CONFIG_CPU_INTERRUPTS <= 0x400 ->
  Z.of_nat (length (clic_interrupt_count s)) = CONFIG_CPU_INTERRUPTS ->
  exists s',
    clic_init s = Ok (tt, s')
    /\ console s'
       = console s ++ ["Initializing CLIC..." +:+ nl; "CLIC initialized" +:+ nl]
    /\ clic_last_interrupt_id s' = clic_last_interrupt_id s
    /\ clic_last_interrupt_priority s' = clic_last_interrupt_priority s
    /\ clic_interrupt_cycles s' = clic_interrupt_cycles s
    /\ length (clic_interrupt_count s') = length (clic_interrupt_count s)
    /\ (forall j, CONFIG_CPU_INTERRUPTS <= j < 0x400 ->
          line_enabled s' j = line_enabled s j
          /\ line_pending s' j = line_pending s j)
    /\ (forall h, 0 < h < 2 ^ 20 - 1 -> threshold s' h = threshold s h).
Proof.
  intros Hx HN Hlen. unfold clic_init.
  set (s1 := with_console (console s ++ ["Initializing CLIC..." +:+ nl]) s).
  rewrite (bind_ok (printf _) _ s s1 tt eq_refl).
  destruct (clear_counts_run (Z.to_nat CONFIG_CPU_INTERRUPTS) s1)
    as (l & Hrun1 & Hl & _ & _);
    [subst s1; cbn [clic_interrupt_count with_console]; lia |].
  rewrite (bind_ok _ _ _ _ _ Hrun1).
  destruct (disable_all_run (Z.to_nat CONFIG_CPU_INTERRUPTS) (with_count l s1))
    as (f & Hrun2 & Hframe & _).
  rewrite (bind_ok _ _ _ _ _ Hrun2).
  set (thr := reg_addr CLIC_MITHRESHOLD_OFFSET (u32 (0 * 0x1000))).
  eexists. split; [reflexivity |].
  cbn [mmio clic_interrupt_count clic_last_interrupt_id
       clic_last_interrupt_priority clic_interrupt_cycles console
       with_mmio with_count with_console with_ie].
  fold thr.
  split; [subst s1; cbn [console with_console]; rewrite <- app_assoc;
          reflexivity |].
  split; [reflexivity |]. split; [reflexivity |]. split; [reflexivity |].
  split; [exact Hl |].
  assert (Hkeep : forall a,
    a <> thr ->
    (forall i, 0 <= i < CONFIG_CPU_INTERRUPTS ->
       a <> reg_addr CLIC_INTIE_OFFSET i /\ a <> reg_addr CLIC_INTIP_OFFSET i) ->
    u8 ((<[thr := u8 0]> f) a) = u8 (mmio s a)).
  { intros a Hthr Hoff.
    rewrite fn_lookup_insert_ne by congruence.
    destruct (Hframe a) as [-> | (_ & i & Hi & Ha)]; [reflexivity |].
    destruct (Hoff i ltac:(lia)) as [H1 H2]. destruct Ha; contradiction. }
  split.
  - intros j Hj. unfold line_enabled, line_pending, reg.
    cbn [mmio with_mmio with_ie with_console]. fold thr.
    rewrite !Hkeep; [repeat split | | | |];
      try (subst thr; change (u32 (0 * 0x1000)) with 0; addr_ne);
      intros i Hi; split; addr_ne.
  - intros h Hh. unfold threshold, reg.
    cbn [mmio with_mmio with_ie with_console]. fold thr.
    apply Hkeep.
    + subst thr. change (u32 (0 * 0x1000)) with 0. thr_addr_ne.
    + intros i Hi. split; thr_addr_ne.
Qed.

(** ** The latency measurement, serviced trials and whole runs *)

(** While the counter stays at zero below poll [k], the wait loop reaches
    poll [k]; if the counter is raised there, the loop ends with
    [cycles = k]. *)
Lemma latency_wait_raised (env : point -> state -> state)
    (test_irq i k : Z) :
  0 <= test_irq ->
  0 <= k <= 10000 ->
  (forall cycles s0, 0 <= cycles < k ->
     clic_interrupt_count (env (Poll i cycles) s0) !! Z.to_nat test_irq
     = clic_interrupt_count s0 !! Z.to_nat test_irq) ->
  (forall s0,
     clic_interrupt_count s0 !! Z.to_nat test_irq = Some 0 ->
     exists c, clic_interrupt_count (env (Poll i k) s0) !! Z.to_nat test_irq
               = Some c /\ 0 < c) ->
  forall (n fuel : nat) (cycles : Z) (s : state),
    (n <= fuel)%nat ->
    0 <= cycles ->
    cycles + Z.of_nat n = k ->
    clic_interrupt_count s !! Z.to_nat test_irq = Some 0 ->
    exists s' c,
      latency_wait env test_irq i fuel cycles s = Ok (k, s')
      /\ clic_interrupt_count s' !! Z.to_nat test_irq = Some c
      /\ 0 < c.
Proof.
  intros Hirq Hk Hquiet Hraise.
  induction n as [| n IH]; intros fuel cycles s Hfuel Hge Hcycles Hzero;
    rewrite latency_wait_unfold; unfold async, modify;
    rewrite (bind_ok _ _ s (env (Poll i cycles) s) tt eq_refl).
  - replace cycles with k in * by lia.
    destruct (Hraise s Hzero) as (c & Hc & Hpos).
    rewrite (bind_ok _ _ _ _ _ (count_get_run _ _ _ Hirq Hc)).
    destruct (c =? 0) eqn:E; [lia |]. cbn [andb].
    exists (env (Poll i k) s), c. repeat split; assumption.
  - assert (Hzero' : clic_interrupt_count (env (Poll i cycles) s)
                       !! Z.to_nat test_irq = Some 0)
      by (rewrite Hquiet by lia; exact Hzero).
    rewrite (bind_ok _ _ _ _ _ (count_get_run _ _ _ Hirq Hzero')).
    destruct (cycles <? 10000) eqn:E; [| lia].
    destruct fuel as [| fuel]; [lia |].
    cbn [Z.eqb andb]. rewrite u32_small by lia.
    apply IH; [lia | lia | lia | exact Hzero'].
Qed.

(** X9. A trial whose counter is first seen raised at poll [k] of the wait
    loop, for any [k] from 0 to the cap of 10000, is a success with latency
    [k]: it prints the line with [k] cycles and adds [k] to [total_latency]
    (in [unsigned int] arithmetic).  So a service seen at the very first
    poll adds nothing to the total, and one seen at poll 10000, when the
    loop gives up, still counts as a success. *)
Theorem latency_serviced_is_recorded (env : point -> state -> state)
    (test_irq i k total_latency : Z) (s : state) :
  0 <= test_irq ->
  (Z.to_nat test_irq < length (clic_interrupt_count s))%nat ->
  0 <= k <= 10000 ->
  (forall cycles s0, 0 <= cycles < k ->
     clic_interrupt_count (env (Poll i cycles) s0) !! Z.to_nat test_irq
     = clic_interrupt_count s0 !! Z.to_nat test_irq) ->
  (forall s0,
     clic_interrupt_count s0 !! Z.to_nat test_irq = Some 0 ->
     exists c, clic_interrupt_count (env (Poll i k) s0) !! Z.to_nat test_irq
               = Some c /\ 0 < c) ->
  (forall s0,
     clic_interrupt_count (env (Check i) s0) !! Z.to_nat test_irq
     = clic_interrupt_count s0 !! Z.to_nat test_irq) ->
  exists s1,
    latency_iteration env test_irq i total_latency s
    = Ok (u32 (total_latency + k),
          env (Delay i)
            (with_console (console s1 ++ [iteration_cycles_line i k]) s1)).
Proof.
  intros Hirq Hlt Hk Hquiet Hraise Hcheck.
  unfold latency_iteration.
  rewrite (bind_ok _ _ _ _ _ (count_set_run _ 0 _ Hirq Hlt)).
  unfold clic_set_pending, clic_set_intip.
  rewrite (bind_ok _ _ _ _ _ (store8_run _ _ _)).
  match goal with
  | |- context [bind (latency_wait _ _ _ _ _) _ ?s0] =>
      destruct (latency_wait_raised env test_irq i k Hirq Hk Hquiet Hraise
                  (Z.to_nat k) (Z.to_nat 10000) 0 s0)
        as (s2 & c & Hwait & Hc & Hpos)
  end; [lia | lia | lia | |].
  { cbn [clic_interrupt_count with_mmio with_count].
    apply list_lookup_insert_eq. exact Hlt. }
  rewrite (bind_ok _ _ _ _ _ Hwait).
  unfold async, modify.
  rewrite (bind_ok _ _ s2 (env (Check i) s2) tt eq_refl).
  assert (Hc' : clic_interrupt_count (env (Check i) s2)
                  !! Z.to_nat test_irq = Some c)
    by (rewrite Hcheck; exact Hc).
  rewrite (bind_ok _ _ _ _ _ (count_get_run _ _ _ Hirq Hc')).
  destruct (c >? 0) eqn:E; [| lia].
  exists (env (Check i) s2). reflexivity.
Qed.

(** What [deliver_at] does at each point. *)
Lemma deliver_at_elsewhere (irq priority i k : Z) (pt : point) (s : state) :
  (forall c, pt = Poll i c -> c <> k) ->
  deliver_at irq priority i k pt s = s.
Proof.
  intros H. destruct pt as [i' c | i' | i']; cbn [deliver_at]; try reflexivity.
  destruct (i' =? i) eqn:Ei; [| reflexivity].
  destruct (c =? k) eqn:Ec; [| reflexivity].
  exfalso. apply (H c); [f_equal |]; lia.
Qed.

Lemma deliver_at_there (irq priority i k : Z) (s : state) :
  deliver_at irq priority i k (Poll i k) s
  = after (clic_interrupt_handler irq priority) s.
Proof. cbn [deliver_at]. rewrite !Z.eqb_refl. reflexivity. Qed.

Lemma deliver_at_raises (irq priority i k : Z) (s : state) :
  0 <= irq ->
  clic_interrupt_count s !! Z.to_nat irq = Some 0 ->
  exists c,
    clic_interrupt_count (deliver_at irq priority i k (Poll i k) s)
      !! Z.to_nat irq = Some c /\ 0 < c.
Proof.
  intros Hirq Hzero. rewrite deliver_at_there.
  destruct (clic_interrupt_handler_run irq priority 0 s Hirq Hzero)
    as (s' & Hrun & Hcount & _).
  unfold after. rewrite Hrun, Hcount. exists 1. split; [| lia].
  apply list_lookup_insert_eq. eapply lookup_lt_Some. exact Hzero.
Qed.

(** With nothing running below poll [k], the wait loop gets to poll [k]
    with the state as it was. *)
Lemma latency_wait_quiet_until (env : point -> state -> state)
    (test_irq i k : Z) :
  0 <= test_irq ->
  k <= 10000 ->
  (forall cycles s0, 0 <= cycles < k -> env (Poll i cycles) s0 = s0) ->
  forall (n fuel : nat) (cycles : Z) (s : state),
    (n <= fuel)%nat ->
    0 <= cycles ->
    cycles + Z.of_nat n = k ->
    clic_interrupt_count s !! Z.to_nat test_irq = Some 0 ->
    latency_wait env test_irq i fuel cycles s
    = latency_wait env test_irq i (fuel - n) k s.
Proof.
  intros Hirq Hk Hquiet.
  induction n as [| n IH]; intros fuel cycles s Hfuel Hge Hcycles Hzero.
  - replace cycles with k by lia. rewrite Nat.sub_0_r. reflexivity.
  - rewrite latency_wait_unfold. unfold async, modify.
    rewrite (bind_ok _ _ s (env (Poll i cycles) s) tt eq_refl).
    rewrite Hquiet by lia.
    rewrite (bind_ok _ _ _ _ _ (count_get_run _ _ _ Hirq Hzero)).
    destruct (cycles <? 10000) eqn:E; [| lia].
    destruct fuel as [| fuel]; [lia |].
    cbn [Z.eqb andb]. rewrite u32_small by lia.
    rewrite (IH fuel (cycles + 1) s); [| lia | lia | lia | exact Hzero].
    reflexivity.
Qed.

(** One trial under a schedule. *)
Lemma latency_iteration_deliver_by (irq priority : Z)
    (sched : Z -> option Z) (i total_latency : Z) (s : state) :
  0 <= irq ->
  (Z.to_nat irq < length (clic_interrupt_count s))%nat ->
  (forall k, sched i = Some k -> 0 <= k <= 10000) ->
  exists s',
    latency_iteration (deliver_by irq priority sched) irq i total_latency s
    = Ok (match sched i with
          | Some k => u32 (total_latency + k)
          | None => total_latency
          end, s')
    /\ console s' = console s ++ trial_lines irq priority sched i
    /\ length (clic_interrupt_count s') = length (clic_interrupt_count s).
Proof.
  intros Hirq Hlt Hrange.
  unfold latency_iteration.
  rewrite (bind_ok _ _ _ _ _ (count_set_run _ 0 _ Hirq Hlt)).
  unfold clic_set_pending, clic_set_intip.
  rewrite (bind_ok _ _ _ _ _ (store8_run _ _ _)).
  set (s0 := with_mmio _ _).
  assert (Hzero : clic_interrupt_count s0 !! Z.to_nat irq = Some 0).
  { subst s0. cbn [clic_interrupt_count with_mmio with_count].
    apply list_lookup_insert_eq. exact Hlt. }
  assert (Hlen0 : length (clic_interrupt_count s0)
                  = length (clic_interrupt_count s))
    by (subst s0; cbn [clic_interrupt_count with_mmio with_count];
        apply length_insert).
  assert (Hcon0 : console s0 = console s) by reflexivity.
  unfold trial_lines. destruct (sched i) as [k |] eqn:Hs.
  - specialize (Hrange k eq_refl).
    assert (Hskip :
      latency_wait (deliver_by irq priority sched) irq i (Z.to_nat 10000) 0 s0
      = latency_wait (deliver_by irq priority sched) irq i
          (Z.to_nat 10000 - Z.to_nat k) k s0).
    { apply (latency_wait_quiet_until _ irq i k Hirq ltac:(lia));
        [| lia | lia | lia | exact Hzero].
      intros c st Hc. cbn [deliver_by]. rewrite Hs.
      destruct (c =? k) eqn:E; [lia | reflexivity]. }
    destruct (clic_interrupt_handler_run irq priority 0 s0 Hirq Hzero)
      as (sh & Hrun & Hcount & _ & _ & _ & _ & _ & Hcon).
    assert (Hc1 : clic_interrupt_count sh !! Z.to_nat irq = Some 1).
    { rewrite Hcount. apply list_lookup_insert_eq.
      eapply lookup_lt_Some. exact Hzero. }
    assert (Henv : deliver_by irq priority sched (Poll i k) s0 = sh).
    { cbn [deliver_by]. rewrite Hs, Z.eqb_refl. unfold after.
      rewrite Hrun. reflexivity. }
    assert (Hwait : forall fuel,
      latency_wait (deliver_by irq priority sched) irq i fuel k s0
      = Ok (k, sh)).
    { intros fuel. rewrite latency_wait_unfold. unfold async, modify.
      rewrite (bind_ok _ _ s0 (deliver_by irq priority sched (Poll i k) s0)
                 tt eq_refl).
      rewrite Henv.
      rewrite (bind_ok _ _ _ _ _ (count_get_run _ _ _ Hirq Hc1)).
      reflexivity. }
    rewrite Hwait in Hskip. rewrite (bind_ok _ _ _ _ _ Hskip).
    unfold async, modify.
    rewrite (bind_ok _ _ sh (deliver_by irq priority sched (Check i) sh)
               tt eq_refl).
    cbn [deliver_by].
    rewrite (bind_ok _ _ _ _ _ (count_get_run _ _ _ Hirq Hc1)).
    eexists. split; [reflexivity |].
    cbn [deliver_by console clic_interrupt_count with_console].
    split.
    + rewrite Hcon, Hcon0, <- app_assoc. reflexivity.
    + rewrite Hcount, length_insert. exact Hlen0.
  - assert (Hskip :
      latency_wait (deliver_by irq priority sched) irq i (Z.to_nat 10000) 0 s0
      = latency_wait (deliver_by irq priority sched) irq i
          (Z.to_nat 10000 - Z.to_nat 10000) 10000 s0).
    { apply (latency_wait_quiet_until _ irq i 10000 Hirq ltac:(lia));
        [| lia | lia | lia | exact Hzero].
      intros c st Hc. cbn [deliver_by]. rewrite Hs. reflexivity. }
    assert (Hwait : forall fuel,
      latency_wait (deliver_by irq priority sched) irq i fuel 10000 s0
      = Ok (10000, s0)).
    { intros fuel. rewrite latency_wait_unfold. unfold async, modify.
      rewrite (bind_ok _ _ s0 (deliver_by irq priority sched (Poll i 10000) s0)
                 tt eq_refl).
      cbn [deliver_by]. rewrite Hs.
      rewrite (bind_ok _ _ _ _ _ (count_get_run _ _ _ Hirq Hzero)).
      reflexivity. }
    rewrite Hwait in Hskip. rewrite (bind_ok _ _ _ _ _ Hskip).
    unfold async, modify.
    rewrite (bind_ok _ _ s0 (deliver_by irq priority sched (Check i) s0)
               tt eq_refl).
    cbn [deliver_by].
    rewrite (bind_ok _ _ _ _ _ (count_get_run _ _ _ Hirq Hzero)).
    eexists. split; [reflexivity |].
    cbn [deliver_by console clic_interrupt_count with_console].
    split; [rewrite Hcon0; reflexivity | exact Hlen0].
Qed.

Lemma total_upto_range (sched : Z -> option Z) (n : nat) :
  (forall i k, sched i = Some k -> 0 <= k <= 10000) ->
  0 <= total_upto sched n <= 10000 * Z.of_nat n.
Proof.
  intros Hrange. induction n as [| n IH]; cbn [total_upto]; [lia |].
  assert (0 <= trial_latency sched (Z.of_nat n) <= 10000).
  { unfold trial_latency. destruct (sched (Z.of_nat n)) eqn:E; [| lia].
    eapply Hrange. exact E. }
  lia.
Qed.

(** The trials of the measurement, under a schedule. *)
Lemma latency_trials_deliver_by (irq priority : Z)
    (sched : Z -> option Z) (n : nat) (s : state) :
  0 <= irq ->
  (Z.to_nat irq < length (clic_interrupt_count s))%nat ->
  (forall i k, sched i = Some k -> 0 <= k <= 10000) ->
  (n <= 10)%nat ->
  exists s',
    for_fold n (latency_iteration (deliver_by irq priority sched) irq) 0 s
    = Ok (total_upto sched n, s')
    /\ console s' = console s ++ lines_upto irq priority sched n
    /\ length (clic_interrupt_count s') = length (clic_interrupt_count s).
Proof.
  intros Hirq Hlt Hrange. induction n as [| n IH]; intros Hn.
  - exists s. split; [reflexivity |]. split; [| reflexivity].
    cbn [lines_upto]. rewrite app_nil_r. reflexivity.
  - destruct IH as (s1 & Hrun & Hcon & Hlen); [lia |].
    destruct (latency_iteration_deliver_by irq priority sched (Z.of_nat n)
                (total_upto sched n) s1 Hirq)
      as (s' & Hstep & Hcon' & Hlen');
      [rewrite Hlen; exact Hlt | intros k; apply Hrange |].
    exists s'. cbn [for_fold]. rewrite (bind_ok _ _ _ _ _ Hrun).
    split.
    + rewrite Hstep. f_equal. f_equal. cbn [total_upto]. unfold trial_latency.
      pose proof (total_upto_range sched n Hrange).
      destruct (sched (Z.of_nat n)) as [k |] eqn:E; [| lia].
      pose proof (Hrange _ _ E). apply u32_small. lia.
    + split; [| rewrite Hlen'; exact Hlen].
      rewrite Hcon', Hcon. cbn [lines_upto]. rewrite app_assoc. reflexivity.
Qed.

(** ** C8: a trial that is never serviced *)






(** X10. The report of a whole latency measurement.  Under any schedule of
    services (each trial serviced at some poll from 0 to 10000, or never)
    the run returns and the console shows the two heading lines, then for
    each of the ten trials either the handler's line and the trial's
    latency or its TIMEOUT line, and then the average: the sum of the
    measured latencies divided by 10, the number of all trials, timed-out
    ones included, and printed only if that sum is above zero.  The measured
    line is left disabled. *)
Theorem latency_run_report (priority : Z) (sched : Z -> option Z)
    (s : state) :
  (20 < length (clic_interrupt_count s))%nat ->
  (forall i k, sched i = Some k -> 0 <= k <= 10000) ->
  exists s',
    test_interrupt_latency (deliver_by 20 priority sched) s = Ok (tt, s')
    /\ console s'
       = console s
         ++ [nl +:+ "=== Interrupt Latency Measurement ===" +:+ nl;
             "Measuring interrupt latency over 10 iterations..." +:+ nl]
         ++ lines_upto 20 priority sched 10
         ++ (if total_upto sched 10 >? 0
             then [nl +:+ "Average interrupt latency: ~"
                   +:+ fmt_u (total_upto sched 10 / 10) +:+ " cycles" +:+ nl]
             else [])
    /\ line_enabled s' 20 = false.
Proof.
  intros Hlt Hrange. unfold test_interrupt_latency.
  set (s1 := with_console
               (console s
                ++ [nl +:+ "=== Interrupt Latency Measurement ===" +:+ nl]) s).
  rewrite (bind_ok (printf _) _ s s1 tt eq_refl).
  rewrite (bind_ok _ _ _ _ _ (clic_configure_interrupt_run _ _ _ _ _)).
  set (s2 := with_mmio _ s1).
  set (s3 := with_mmio (<[reg_addr CLIC_INTIE_OFFSET 20 := u8 1]> (mmio s2)) s2).
  rewrite (bind_ok (clic_enable_interrupt 20) _ s2 s3 tt eq_refl).
  set (s4 := with_console
               (console s3
                ++ ["Measuring interrupt latency over " +:+ fmt_d 10
                    +:+ " iterations..." +:+ nl]) s3).
  rewrite (bind_ok (printf _) _ s3 s4 tt eq_refl).
  destruct (latency_trials_deliver_by 20 priority sched 10 s4)
    as (s5 & Hrun & Hcon & Hlen); [lia | exact Hlt | exact Hrange | lia |].
  change (Z.to_nat 10) with 10%nat.
  rewrite (bind_ok _ _ _ _ _ Hrun).
  assert (Hcon4 : console s4
                  = console s
                    ++ [nl +:+ "=== Interrupt Latency Measurement ===" +:+ nl;
                        "Measuring interrupt latency over 10 iterations..."
                        +:+ nl]).
  { subst s4 s3 s2 s1. cbn [console with_console with_mmio].
    rewrite <- app_assoc. reflexivity. }
  destruct (total_upto sched 10 >? 0) eqn:E.
  - eexists. split; [reflexivity |]. split.
    + cbn [console with_console with_mmio]. rewrite Hcon, Hcon4.
      rewrite <- !app_assoc. reflexivity.
    + unfold line_enabled. rewrite reg_with_mmio, insert_same. reflexivity.
  - eexists. split; [reflexivity |]. split.
    + cbn [console with_console with_mmio]. rewrite Hcon, Hcon4.
      rewrite app_nil_r. rewrite <- !app_assoc. reflexivity.
    + unfold line_enabled. rewrite reg_with_mmio, insert_same. reflexivity.
Qed.

(** ** The test scenarios *)

Lemma bind_assoc {A B C} (c : M A) (f : A -> M B) (g : B -> M C) (s : state) :
  bind (bind c f) g s = bind c (fun x => bind (f x) g) s.
Proof. unfold bind. destruct (c s) as [[a s'] | e]; reflexivity. Qed.

Lemma bind_ret {A B} (a : A) (k : A -> M B) (s : state) :
  bind (ret a) k s = k a s.
Proof. reflexivity. Qed.

Lemma bind_printf {B} (line : string) (k : unit -> M B) (s : state) :
  bind (printf line) k s = k tt (with_console (console s ++ [line]) s).
Proof. reflexivity. Qed.

Lemma bind_store8 {B} (a v : Z) (k : unit -> M B) (s : state) :
  bind (store8 a v) k s = k tt (with_mmio (<[a := u8 v]> (mmio s)) s).
Proof. reflexivity. Qed.

Lemma bind_read {A B} (f : state -> A) (k : A -> M B) (s : state) :
  bind (read f) k s = k (f s) s.
Proof. reflexivity. Qed.

Lemma bind_modify {B} (f : state -> state) (k : unit -> M B) (s : state) :
  bind (modify f) k s = k tt (f s).
Proof. reflexivity. Qed.

Lemma bind_count_set {B} (i v : Z) (k : unit -> M B) (s : state) :
  0 <= i ->
  (Z.to_nat i < length (clic_interrupt_count s))%nat ->
  bind (count_set i v) k s
  = k tt (with_count (<[Z.to_nat i := u32 v]> (clic_interrupt_count s)) s).
Proof. intros Hi Hlt. apply bind_ok, count_set_run; assumption. Qed.

Lemma bind_count_get {B} (i c : Z) (k : Z -> M B) (s : state) :
  0 <= i ->
  clic_interrupt_count s !! Z.to_nat i = Some c ->
  bind (count_get i) k s = k c s.
Proof. intros Hi Hc. apply bind_ok, count_get_run; assumption. Qed.

Lemma bind_configure {B} (irq priority : Z) (e p : bool)
    (k : unit -> M B) (s : state) :
  bind (clic_configure_interrupt irq priority e p) k s
  = k tt (with_mmio
            (<[reg_addr CLIC_INTPRIO_OFFSET irq := u8 priority]>
               (<[reg_addr CLIC_INTATTR_OFFSET irq := u8 (attr_of e p)]>
                  (mmio s))) s).
Proof. apply bind_ok, clic_configure_interrupt_run. Qed.

(** Straight-line code: run every step that cannot fail, keeping the state
    as one record over the fields of the states named in the context. *)
Ltac state_norm :=
  unfold with_mmio, with_count, with_last_id, with_last_priority,
    with_cycles, with_ie, with_console;
  cbn [mmio clic_interrupt_count clic_last_interrupt_id
       clic_last_interrupt_priority clic_interrupt_cycles irq_ie console].

Ltac mrun :=
  unfold delay_ms, async, clic_enable_interrupt, clic_disable_interrupt,
    clic_set_pending, clic_clear_pending, clic_set_mithreshold,
    clic_set_intip, clic_set_intie, clic_set_intattr, clic_set_intprio,
    irq_setie, when;
  repeat first
    [ rewrite bind_assoc
    | rewrite bind_ret
    | rewrite bind_printf; state_norm
    | rewrite bind_store8; state_norm
    | rewrite bind_configure; state_norm
    | rewrite bind_read; state_norm
    | progress cbv beta ].

(** A byte that reads 0 still reads 0 after a store of 0 anywhere. *)
Lemma store_zero_keeps_zero (f : Z -> Z) (a x : Z) :
  x = a \/ u8 (f x) = 0 -> u8 ((<[a := u8 0]> f) x) = 0.
Proof.
  intros H. unfold insert, fn_insert.
  destruct (decide (a = x)) as [_ | Hne]; [reflexivity |].
  destruct H as [-> | H]; [contradiction | exact H].
Qed.

(** Read a register byte out of a chain of stores to other addresses. *)
Ltac reg_read :=
  unfold threshold, line_enabled, line_pending, line_priority, line_edge, reg;
  state_norm; change (u32 (0 * 0x1000)) with 0;
  repeat first
    [ rewrite fn_lookup_insert
    | rewrite fn_lookup_insert_ne by addr_ne ].

(** A byte that one of the stores of a chain of stores of 0 hits. *)
Ltac zero_read :=
  repeat first
    [ apply store_zero_keeps_zero; left; reflexivity
    | apply store_zero_keeps_zero; right ].

(** Evaluate the reads of the local arrays at the unrolled loop indices. *)
Ltac eval_array_get :=
  repeat match goal with
    | |- context [array_get ?l (Z.of_nat ?n)] =>
        let v := eval vm_compute in (array_get l (Z.of_nat n)) in
        change (array_get l (Z.of_nat n)) with v
    end.

(** X11. [test_interrupt_threshold], whatever the interrupt handlers do
    during its delay (as long as the counter array keeps its size).  The
    test returns.  What it hands to the hardware is threshold 100 with lines
    10, 11 and 12 enabled, pending, at priorities 50, 128 and 200, their
    counters at zero.  The verdict it prints beside each count comes from
    the priority alone: line 10 is reported as allowed and lines 11 and 12
    as blocked whatever their counters hold.  At the end the threshold is
    back at 0 and the three lines are neither pending nor enabled. *)
Theorem threshold_test_report (activity : state -> state) (s : state) :
  32 <= XLEN ->
  (12 < length (clic_interrupt_count s))%nat ->
  (forall s0, length (clic_interrupt_count (activity s0))
              = length (clic_interrupt_count s0)) ->
  exists armed c10 c11 c12 s',
    test_interrupt_threshold activity s = Ok (tt, s')
    /\ (threshold armed 0 = 100
        /\ forall irq priority, In (irq, priority) [(10, 50); (11, 128); (12, 200)] ->
             line_enabled armed irq = true
             /\ line_pending armed irq = true
             /\ line_priority armed irq = priority
             /\ clic_interrupt_count armed !! Z.to_nat irq = Some 0)
    /\ clic_interrupt_count (activity armed) !! 10%nat = Some c10
    /\ clic_interrupt_count (activity armed) !! 11%nat = Some c11
    /\ clic_interrupt_count (activity armed) !! 12%nat = Some c12
    /\ console s'
       = console (activity armed)
         ++ ["Results with threshold=100:" +:+ nl;
             threshold_result_line 10 50 c10 "✓ (allowed)";
             threshold_result_line 11 128 c11 "✗ (blocked)";
             threshold_result_line 12 200 c12 "✗ (blocked)"]
    /\ threshold s' 0 = 0
    /\ (forall irq, In irq [10; 11; 12] ->
          line_pending s' irq = false /\ line_enabled s' irq = false).
Proof.
  intros Hx Hlen Hact. unfold test_interrupt_threshold.
  cbn [for_upto]. eval_array_get.
  mrun.
  rewrite bind_count_set; state_norm; [| lia | lia]. mrun.
  rewrite bind_count_set; state_norm; [| lia | rewrite ?length_insert; lia].
  mrun.
  rewrite bind_count_set; state_norm; [| lia | rewrite ?length_insert; lia].
  mrun.
  match goal with
  | |- context [bind (modify activity) _ ?st] => set (armed := st)
  end.
  exists armed. rewrite bind_modify.
  assert (Hlen2 : length (clic_interrupt_count (activity armed))
                  = length (clic_interrupt_count s))
    by (rewrite Hact; subst armed; state_norm; rewrite !length_insert;
        reflexivity).
  set (s2 := activity armed) in *.
  destruct (lookup_lt_is_Some_2 (clic_interrupt_count s2) 10) as [c10 Hc10];
    [lia |].
  destruct (lookup_lt_is_Some_2 (clic_interrupt_count s2) 11) as [c11 Hc11];
    [lia |].
  destruct (lookup_lt_is_Some_2 (clic_interrupt_count s2) 12) as [c12 Hc12];
    [lia |].
  exists c10, c11, c12. mrun.
  rewrite (bind_count_get 10 c10) by first [lia | exact Hc10]. mrun.
  rewrite (bind_count_get 11 c11) by first [lia | exact Hc11]. mrun.
  rewrite (bind_count_get 12 c12) by first [lia | exact Hc12]. mrun.
  eexists. split; [apply store8_run |]. state_norm.
  split.
  { split; [subst armed; reg_read; reflexivity |].
    intros irq priority Hin. cbn [In] in Hin.
    destruct Hin as [Hin | [Hin | [Hin | []]]]; injection Hin as <- <-;
      (split; [subst armed; reg_read; reflexivity |]);
      (split; [subst armed; reg_read; reflexivity |]);
      (split; [subst armed; reg_read; reflexivity |]);
      subst armed; state_norm;
      rewrite ?list_lookup_insert_ne by lia;
      apply list_lookup_insert_eq; rewrite ?length_insert; lia. }
  split; [exact Hc10 |]. split; [exact Hc11 |]. split; [exact Hc12 |].
  split.
  { rewrite <- !app_assoc. reflexivity. }
  split.
  { unfold threshold, reg. state_norm. zero_read. }
  intros irq Hin. cbn [In] in Hin.
  destruct Hin as [<- | [<- | [<- | []]]];
    unfold line_pending, line_enabled, reg; state_norm;
    (split; [assert (H0 : forall v, v = 0 -> negb (v =? 0) = false)
               by (intros v ->; reflexivity); apply H0; zero_read ..]).
Qed.

(** ** Which counters the demo reaches *)

Lemma within_weaken {A} (n : nat) (m m' : Z) (c : M A) :
  within n m c -> m <= m' -> within n m' c.
Proof.
  intros H Hm s Hs. destruct (H s Hs) as [Hok | (i & Hi & Hr)];
    [left; exact Hok | right; exists i; split; [exact Hi | lia]].
Qed.

Lemma within_bind {A B} (n : nat) (m : Z) (c : M A) (k : A -> M B) :
  within n m c -> (forall a, within n m (k a)) -> within n m (bind c k).
Proof.
  intros Hc Hk s Hs. unfold bind.
  destruct (Hc s Hs) as [(a & s' & -> & Hs') | (i & -> & Hi)].
  - apply Hk. exact Hs'.
  - right. exists i. split; [reflexivity | exact Hi].
Qed.

Lemma within_total {A} (n : nat) (m : Z) (c : M A)
    (f : state -> A) (g : state -> state) :
  (forall s, c s = Ok (f s, g s)) ->
  (forall s, length (clic_interrupt_count (g s))
             = length (clic_interrupt_count s)) ->
  within n m c.
Proof.
  intros Hc Hg s Hs. left. exists (f s), (g s).
  split; [apply Hc | rewrite Hg; exact Hs].
Qed.

Lemma within_ret {A} (n : nat) (m : Z) (a : A) : within n m (ret a).
Proof. apply (within_total n m _ (fun _ => a) (fun s => s)); reflexivity. Qed.

Lemma within_printf (n : nat) (m : Z) (line : string) :
  within n m (printf line).
Proof.
  apply (within_total n m _ (fun _ => tt)
           (fun s => with_console (console s ++ [line]) s)); reflexivity.
Qed.

Lemma within_store8 (n : nat) (m a v : Z) : within n m (store8 a v).
Proof.
  apply (within_total n m _ (fun _ => tt)
           (fun s => with_mmio (<[a := u8 v]> (mmio s)) s)); reflexivity.
Qed.

Lemma within_read {A} (n : nat) (m : Z) (f : state -> A) :
  within n m (read f).
Proof. apply (within_total n m _ f (fun s => s)); reflexivity. Qed.

Lemma within_modify (n : nat) (m : Z) (f : state -> state) :
  keeps_length f -> within n m (modify f).
Proof.
  intros Hf. apply (within_total n m _ (fun _ => tt) f);
    [reflexivity | exact Hf].
Qed.

Lemma within_irq_setie (n : nat) (m ie : Z) : within n m (irq_setie ie).
Proof. apply within_modify. intros s. reflexivity. Qed.

Lemma within_configure (n : nat) (m irq priority : Z) (e p : bool) :
  within n m (clic_configure_interrupt irq priority e p).
Proof.
  unfold clic_configure_interrupt, clic_set_intattr, clic_set_intprio.
  apply within_bind; [| intros _]; apply within_store8.
Qed.

Lemma within_count_set (n : nat) (m i v : Z) :
  0 <= i -> i < Z.of_nat n \/ i <= m -> within n m (count_set i v).
Proof.
  intros Hi Hm s Hs. unfold count_set. rewrite Hs.
  destruct (0 <=? i) eqn:E1; [| lia]. cbn [andb].
  destruct (i <? Z.of_nat n) eqn:E2.
  - left. eexists. eexists. split; [reflexivity |].
    cbn [clic_interrupt_count with_count]. rewrite length_insert. exact Hs.
  - right. exists i. split; [reflexivity | lia].
Qed.

Lemma within_count_get (n : nat) (m i : Z) :
  0 <= i -> i < Z.of_nat n \/ i <= m -> within n m (count_get i).
Proof.
  intros Hi Hm s Hs. unfold count_get.
  destruct (i <? 0) eqn:E1; [lia |].
  destruct (clic_interrupt_count s !! Z.to_nat i) as [c |] eqn:E2.
  - left. exists c, s. split; [reflexivity | exact Hs].
  - right. exists i. split; [reflexivity |].
    apply lookup_ge_None in E2. lia.
Qed.

Lemma within_for_upto (n : nat) (m : Z) (k : nat) (body : Z -> M unit) :
  (forall i, 0 <= i < Z.of_nat k -> within n m (body i)) ->
  within n m (for_upto k body).
Proof.
  induction k as [| k IH]; intros Hbody; cbn [for_upto].
  - apply within_ret.
  - apply within_bind; [apply IH; intros i Hi; apply Hbody; lia |].
    intros _. apply Hbody. lia.
Qed.

Lemma within_for_fold (n : nat) (m : Z) (k : nat) (body : Z -> Z -> M Z)
    (acc : Z) :
  (forall i a, 0 <= i < Z.of_nat k -> within n m (body i a)) ->
  within n m (for_fold k body acc).
Proof.
  induction k as [| k IH]; intros Hbody; cbn [for_fold].
  - apply within_ret.
  - apply within_bind; [apply IH; intros i a Hi; apply Hbody; lia |].
    intros a. apply Hbody. lia.
Qed.

Lemma within_returns {A} (n : nat) (m : Z) (c : M A) (s : state) :
  within n m c ->
  m < Z.of_nat n ->
  length (clic_interrupt_count s) = n ->
  exists a s', c s = Ok (a, s') /\ length (clic_interrupt_count s') = n.
Proof.
  intros H Hm Hs. destruct (H s Hs) as [Hok | (i & _ & Hi)];
    [exact Hok | lia].
Qed.

Lemma overruns_bind_l {A B} (n : nat) (m : Z) (c : M A) (k : A -> M B) :
  overruns n m c -> overruns n m (bind c k).
Proof.
  intros Hc s Hs. destruct (Hc s Hs) as (i & Hi & Hr).
  exists i. split; [apply bind_err; exact Hi | exact Hr].
Qed.

Lemma overruns_bind_r {A B} (n : nat) (m : Z) (c : M A) (k : A -> M B) :
  within n m c -> (forall a, overruns n m (k a)) -> overruns n m (bind c k).
Proof.
  intros Hc Hk s Hs. unfold bind.
  destruct (Hc s Hs) as [(a & s' & -> & Hs') | (i & -> & Hi)].
  - apply Hk. exact Hs'.
  - exists i. split; [reflexivity | exact Hi].
Qed.

Lemma overruns_count_set (n : nat) (m i v : Z) :
  Z.of_nat n <= i <= m -> overruns n m (count_set i v).
Proof.
  intros Hi s Hs. unfold count_set. rewrite Hs.
  destruct (i <? Z.of_nat n) eqn:E; [lia |].
  rewrite andb_false_r. exists i. split; [reflexivity | exact Hi].
Qed.

(** The wait loop of the latency measurement returns, or stops at the
    counter it polls; it never runs out of the iterations its model
    allows. *)
Lemma within_latency_wait (n : nat) (m : Z) (env : point -> state -> state)
    (test_irq i : Z) :
  (forall pt, keeps_length (env pt)) ->
  0 <= test_irq ->
  test_irq < Z.of_nat n \/ test_irq <= m ->
  forall (fuel : nat) (cycles : Z),
    0 <= cycles <= 10000 ->
    10000 - cycles <= Z.of_nat fuel ->
    within n m (latency_wait env test_irq i fuel cycles).
Proof.
  intros Henv Hirq Hm. induction fuel as [| fuel IH]; intros cycles Hc Hf;
    rewrite latency_wait_unfold;
    (apply within_bind; [apply within_modify, Henv | intros _]);
    (apply within_bind; [apply within_count_get; assumption | intros c]);
    destruct ((c =? 0) && (cycles <? 10000)) eqn:E; try apply within_ret.
  - apply andb_true_iff in E. lia.
  - apply andb_true_iff in E. rewrite u32_small by lia. apply IH; lia.
Qed.

Ltac within_step :=
  first
    [ apply within_bind; [| intros ?]
    | apply within_ret
    | apply within_printf
    | apply within_store8
    | apply within_read
    | apply within_configure
    | apply within_irq_setie
    | apply within_modify; solve [auto]
    | apply within_count_set; lia
    | apply within_count_get; lia
    | match goal with
      | |- within _ _ (if ?b then _ else _) => destruct b
      end ].

Ltac within_run :=
  unfold delay_ms, async, clic_enable_interrupt, clic_disable_interrupt,
    clic_set_pending, clic_clear_pending, clic_set_mithreshold,
    clic_set_intip, clic_set_intie, when;
  repeat within_step.

Lemma within_clic_init (n : nat) (m : Z) :
  Z.of_nat n = CONFIG_CPU_INTERRUPTS -> within n m clic_init.
Proof.
  intros Hn. unfold clic_init.
  apply within_bind; [apply within_printf | intros _].
  apply within_bind;
    [apply within_for_upto; intros i Hi; apply within_count_set; lia
    | intros _].
  apply within_bind;
    [apply within_for_upto; intros i Hi; within_run | intros _].
  within_run.
Qed.

Lemma within_test_basic_interrupts (n : nat) (m : Z)
    (activity : Z -> state -> state) :
  (forall i, keeps_length (activity i)) ->
  9 <= m ->
  within n m (test_basic_interrupts activity).
Proof.
  intros Hact Hm. unfold test_basic_interrupts, test_basic_interrupts_body.
  change (Z.to_nat 5) with 5%nat. cbn [for_upto]. eval_array_get.
  within_run.
Qed.

Lemma within_test_priority_preemption (n : nat) (m : Z)
    (activity : state -> state) :
  keeps_length activity ->
  4 <= m ->
  within n m (test_priority_preemption activity).
Proof.
  intros Hact Hm. unfold test_priority_preemption. within_run.
Qed.

Lemma within_test_interrupt_threshold (n : nat) (m : Z)
    (activity : state -> state) :
  keeps_length activity ->
  12 <= m ->
  within n m (test_interrupt_threshold activity).
Proof.
  intros Hact Hm. unfold test_interrupt_threshold.
  cbn [for_upto]. eval_array_get. within_run.
Qed.

Lemma within_test_trigger_modes (n : nat) (m : Z)
    (activity : Z -> state -> state) :
  (forall i, keeps_length (activity i)) ->
  16 <= m ->
  within n m (test_trigger_modes activity).
Proof.
  intros Hact Hm. unfold test_trigger_modes. within_run.
Qed.

Lemma within_test_interrupt_latency (n : nat) (m : Z)
    (env : point -> state -> state) :
  (forall pt, keeps_length (env pt)) ->
  20 <= m ->
  within n m (test_interrupt_latency env).
Proof.
  intros Henv Hm. unfold test_interrupt_latency.
  apply within_bind; [apply within_printf | intros _].
  apply within_bind; [apply within_configure | intros _].
  apply within_bind; [within_run | intros _].
  apply within_bind; [apply within_printf | intros _].
  apply within_bind; [| intros total; within_run].
  apply within_for_fold. intros i a Hi. unfold latency_iteration.
  apply within_bind; [apply within_count_set; lia | intros _].
  apply within_bind; [within_run | intros _].
  apply within_bind;
    [apply within_latency_wait; [exact Henv | lia | lia | lia | lia]
    | intros cycles].
  within_run.
Qed.

Ltac eval_multiple :=
  repeat match goal with
    | |- context [multiple_irq (Z.of_nat ?k)] =>
        let v := eval vm_compute in (multiple_irq (Z.of_nat k)) in
        change (multiple_irq (Z.of_nat k)) with v
    | |- context [multiple_priority (Z.of_nat ?k)] =>
        let v := eval vm_compute in (multiple_priority (Z.of_nat k)) in
        change (multiple_priority (Z.of_nat k)) with v
    end.

Lemma within_test_multiple_interrupts (n : nat) (m : Z)
    (activity : state -> state) :
  keeps_length activity ->
  29 <= m ->
  within n m (test_multiple_interrupts activity).
Proof.
  intros Hact Hm. unfold test_multiple_interrupts.
  change (Z.to_nat 5) with 5%nat. cbn [for_upto]. cbv zeta. eval_multiple.
  within_run.
Qed.

(** With fewer than 30 counters [test_multiple_interrupts] is sure to write
    outside the array: at the latest when it resets the counter of line
    29. *)
Lemma overruns_test_multiple_interrupts (n : nat)
    (activity : state -> state) :
  (n < 30)%nat ->
  overruns n 29 (test_multiple_interrupts activity).
Proof.
  intros Hn. unfold test_multiple_interrupts.
  change (Z.to_nat 5) with 5%nat. cbn [for_upto]. cbv zeta. eval_multiple.
  apply overruns_bind_r; [apply within_printf | intros _].
  apply overruns_bind_l.
  apply overruns_bind_r; [within_run | intros _].
  apply overruns_bind_r; [apply within_configure | intros _].
  apply overruns_bind_r; [within_run | intros _].
  apply overruns_bind_l. apply overruns_count_set. lia.
Qed.

(** X12. The demo addresses the counter array with the line numbers written
    into its scenarios, the highest being 29, whatever
    [CONFIG_CPU_INTERRUPTS] is.  With an array of [CONFIG_CPU_INTERRUPTS]
    elements, and handlers that leave the array's size alone, [clic_demo]
    runs to its end if [CONFIG_CPU_INTERRUPTS] is at least 30; with fewer it
    is sure to stop at an access to [clic_interrupt_count] outside its
    bounds, at an index from [CONFIG_CPU_INTERRUPTS] to 29. *)
Theorem clic_demo_counter_bounds (env : demo_env) (s : state) :
  Z.of_nat (length (clic_interrupt_count s)) = CONFIG_CPU_INTERRUPTS ->
  (forall i, keeps_length (during_basic env i)) ->
  keeps_length (during_preemption env) ->
  keeps_length (during_threshold env) ->
  (forall i, keeps_length (during_trigger_modes env i)) ->
  (forall pt, keeps_length (during_latency env pt)) ->
  keeps_length (during_multiple env) ->
  (30 <= CONFIG_CPU_INTERRUPTS ->
   exists s', clic_demo env s = Ok (tt, s')
              /\ length (clic_interrupt_count s')
                 = length (clic_interrupt_count s))
  /\ (CONFIG_CPU_INTERRUPTS < 30 ->
      exists i, clic_demo env s = Err (OutOfBounds i)
                /\ CONFIG_CPU_INTERRUPTS <= i <= 29).
Proof.
  intros Hlen Hb Hp Ht Hg Hl Hm.
  set (n := length (clic_interrupt_count s)) in *.
  assert (Hinit : within n 29 clic_init) by (apply within_clic_init, Hlen).
  assert (H1 := within_test_basic_interrupts n 29 _ Hb ltac:(lia)).
  assert (H2 := within_test_priority_preemption n 29 _ Hp ltac:(lia)).
  assert (H3 := within_test_interrupt_threshold n 29 _ Ht ltac:(lia)).
  assert (H4 := within_test_trigger_modes n 29 _ Hg ltac:(lia)).
  assert (H5 := within_test_interrupt_latency n 29 _ Hl ltac:(lia)).
  assert (H6 := within_test_multiple_interrupts n 29 _ Hm ltac:(lia)).
  split.
  - intros HN.
    assert (Hall : within n 29 (clic_demo env)).
    { unfold clic_demo.
      repeat (apply within_bind; [first [assumption | apply within_printf]
                                 | intros _]).
      apply within_printf. }
    destruct (within_returns n 29 _ s Hall ltac:(lia) eq_refl)
      as ([] & s' & Hrun & Hs').
    exists s'. split; [exact Hrun | exact Hs'].
  - intros HN.
    assert (Hall : overruns n 29 (clic_demo env)).
    { unfold clic_demo.
      do 7 (apply overruns_bind_r;
            [first [assumption | apply within_printf] | intros _]).
      apply overruns_bind_l, overruns_test_multiple_interrupts. lia. }
    destruct (Hall s eq_refl) as (i & Hi & Hr).
    exists i. split; [exact Hi | lia].
Qed.

(** X13. One round of [test_basic_interrupts], whatever the line's counter,
    pending bit and configuration were before.  The round hands the line to
    the hardware enabled, pending, edge-triggered at priority 128 and with
    its counter at zero, so that the verdict depends only on what happens
    during the delay: the success line with the count if the counter is
    above zero afterwards, the failure line otherwise.  The line is disabled
    at the end. *)
Theorem basic_test_round (activity : state -> state) (irq : Z) (s : state) :
  32 <= XLEN ->
  0 <= irq < 0x400 ->
  (Z.to_nat irq < length (clic_interrupt_count s))%nat ->
  keeps_length activity ->
  exists armed c s',
    test_basic_interrupts_body activity irq s = Ok (tt, s')
    /\ line_enabled armed irq = true
    /\ line_pending armed irq = true
    /\ line_priority armed irq = 128
    /\ line_edge armed irq = true
    /\ clic_interrupt_count armed !! Z.to_nat irq = Some 0
    /\ clic_interrupt_count (activity armed) !! Z.to_nat irq = Some c
    /\ console s'
       = console (activity armed)
         ++ [if c >? 0
             then "✓ IRQ " +:+ fmt_d irq +:+ " handled successfully (count="
                  +:+ fmt_d c +:+ ")" +:+ nl
             else "✗ IRQ " +:+ fmt_d irq +:+ " was not handled!" +:+ nl]
    /\ line_enabled s' irq = false.
Proof.
  intros Hx Hirq Hlt Hact. unfold test_basic_interrupts_body. cbv zeta.
  mrun.
  rewrite bind_count_set; state_norm; [| lia | exact Hlt]. mrun.
  match goal with
  | |- context [bind (modify activity) _ ?st] => set (armed := st)
  end.
  exists armed. rewrite bind_modify.
  assert (Hlen2 : length (clic_interrupt_count (activity armed))
                  = length (clic_interrupt_count s))
    by (rewrite Hact; subst armed; state_norm; rewrite !length_insert;
        reflexivity).
  set (s2 := activity armed) in *.
  destruct (lookup_lt_is_Some_2 (clic_interrupt_count s2) (Z.to_nat irq))
    as [c Hc]; [lia |].
  exists c.
  rewrite (bind_count_get irq c) by first [lia | exact Hc].
  assert (Harmed :
    line_enabled armed irq = true
    /\ line_pending armed irq = true
    /\ line_priority armed irq = 128
    /\ line_edge armed irq = true
    /\ clic_interrupt_count armed !! Z.to_nat irq = Some 0).
  { repeat split; try (subst armed; reg_read; reflexivity).
    subst armed. state_norm. apply list_lookup_insert_eq. exact Hlt. }
  destruct Harmed as (H1 & H2 & H3 & H4 & H5).
  destruct (c >? 0) eqn:E; mrun;
    rewrite ?(bind_count_get irq c) by first [lia | exact Hc]; mrun;
    (eexists; split; [apply store8_run |]); state_norm;
    (split; [exact H1 |]); (split; [exact H2 |]); (split; [exact H3 |]);
    (split; [exact H4 |]); (split; [exact H5 |]); (split; [exact Hc |]);
    (split; [reflexivity |]);
    unfold line_enabled, reg; state_norm; rewrite insert_same; reflexivity.
Qed.

(** X14. [test_priority_preemption] hands lines 2 (priority 200) and 4
    (priority 50) to the hardware enabled and pending together, counters at
    zero, and prints both counters afterwards.  Its "Last handled" line is
    read off [clic_last_interrupt_id], which the test does not reset: it
    names line 2 or line 4 when that variable holds 2 or 4 after the delay,
    also when neither line was serviced during the test, and is missing
    otherwise.  At the end both lines are disabled, their pending bits left
    as the delay left them. *)
Theorem preemption_test_report (activity : state -> state) (s : state) :
  32 <= XLEN ->
  (4 < length (clic_interrupt_count s))%nat ->
  keeps_length activity ->
  exists armed c2 c4 s',
    test_priority_preemption activity s = Ok (tt, s')
    /\ (forall irq priority, In (irq, priority) [(2, 200); (4, 50)] ->
          line_enabled armed irq = true
          /\ line_pending armed irq = true
          /\ line_priority armed irq = priority
          /\ clic_interrupt_count armed !! Z.to_nat irq = Some 0)
    /\ clic_interrupt_count (activity armed) !! 2%nat = Some c2
    /\ clic_interrupt_count (activity armed) !! 4%nat = Some c4
    /\ console s'
       = console (activity armed)
         ++ ["Results:" +:+ nl;
             "  Low priority IRQ 2: count=" +:+ fmt_d c2 +:+ nl;
             "  High priority IRQ 4: count=" +:+ fmt_d c4 +:+ nl]
         ++ (if clic_last_interrupt_id (activity armed) =? 2
             then ["  Last handled: Low priority (IRQ 2)" +:+ nl]
             else if clic_last_interrupt_id (activity armed) =? 4
                  then ["  Last handled: High priority (IRQ 4)" +:+ nl]
                  else [])
    /\ (forall irq, In irq [2; 4] ->
          line_enabled s' irq = false
          /\ line_pending s' irq = line_pending (activity armed) irq).
Proof.
  intros Hx Hlen Hact. unfold test_priority_preemption. cbv zeta.
  mrun.
  rewrite bind_count_set; state_norm; [| lia | lia]. mrun.
  rewrite bind_count_set; state_norm; [| lia | rewrite ?length_insert; lia].
  mrun.
  match goal with
  | |- context [bind (modify activity) _ ?st] => set (armed := st)
  end.
  exists armed. rewrite bind_modify.
  assert (Hlen2 : length (clic_interrupt_count (activity armed))
                  = length (clic_interrupt_count s))
    by (rewrite Hact; subst armed; state_norm; rewrite !length_insert;
        reflexivity).
  assert (Harmed :
    forall irq priority, In (irq, priority) [(2, 200); (4, 50)] ->
      line_enabled armed irq = true
      /\ line_pending armed irq = true
      /\ line_priority armed irq = priority
      /\ clic_interrupt_count armed !! Z.to_nat irq = Some 0).
  { intros irq priority Hin. cbn [In] in Hin.
    destruct Hin as [Hin | [Hin | []]]; injection Hin as <- <-;
      (split; [subst armed; reg_read; reflexivity |]);
      (split; [subst armed; reg_read; reflexivity |]);
      (split; [subst armed; reg_read; reflexivity |]);
      subst armed; state_norm;
      rewrite ?list_lookup_insert_ne by lia;
      apply list_lookup_insert_eq; rewrite ?length_insert; lia. }
  set (s2 := activity armed) in *.
  destruct (lookup_lt_is_Some_2 (clic_interrupt_count s2) 2) as [c2 Hc2];
    [lia |].
  destruct (lookup_lt_is_Some_2 (clic_interrupt_count s2) 4) as [c4 Hc4];
    [lia |].
  exists c2, c4. mrun.
  rewrite (bind_count_get 2 c2) by first [lia | exact Hc2]. mrun.
  rewrite (bind_count_get 4 c4) by first [lia | exact Hc4]. mrun.
  assert (Hend : forall st irq,
    In irq [2; 4] ->
    mmio st
    = <[reg_addr CLIC_INTIE_OFFSET 4 := u8 0]>
        (<[reg_addr CLIC_INTIE_OFFSET 2 := u8 0]> (mmio s2)) ->
    line_enabled st irq = false
    /\ line_pending st irq = line_pending s2 irq).
  { intros st irq Hin Hst. cbn [In] in Hin.
    unfold line_enabled, line_pending, reg. rewrite Hst.
    destruct Hin as [<- | [<- | []]]; split;
      try (rewrite !fn_lookup_insert_ne by addr_ne; reflexivity).
    - assert (H0 : forall v, v = 0 -> negb (v =? 0) = false)
        by (intros v ->; reflexivity).
      apply H0. zero_read.
    - rewrite insert_same. reflexivity. }
  destruct (clic_last_interrupt_id s2 =? 2) eqn:E2.
  - mrun. eexists. split; [apply store8_run |]. state_norm.
    split; [exact Harmed |]. split; [exact Hc2 |]. split; [exact Hc4 |].
    split; [rewrite <- !app_assoc; reflexivity |].
    intros irq Hin. apply Hend; [exact Hin | reflexivity].
  - mrun. destruct (clic_last_interrupt_id s2 =? 4) eqn:E4.
    + mrun. eexists. split; [apply store8_run |]. state_norm.
      split; [exact Harmed |]. split; [exact Hc2 |]. split; [exact Hc4 |].
      split; [rewrite <- !app_assoc; reflexivity |].
      intros irq Hin. apply Hend; [exact Hin | reflexivity].
    + mrun. eexists. split; [apply store8_run |]. state_norm.
      split; [exact Harmed |]. split; [exact Hc2 |]. split; [exact Hc4 |].
      split; [rewrite app_nil_r, <- !app_assoc; reflexivity |].
      intros irq Hin. apply Hend; [exact Hin | reflexivity].
Qed.

(** X15. [test_trigger_modes] arms two lines at priority 128: line 15
    edge-triggered and line 16 level-triggered, both enabled with their
    counters at zero.  During its first delay line 15 is pending, and line
    16 has whatever pending bit it had before the test, which the test does
    not clear; line 16 is made pending for the second delay.  The counters
    printed are those the delays leave, and both lines are disabled at the
    end. *)
Theorem trigger_modes_test_report (activity : Z -> state -> state)
    (s : state) :
  32 <= XLEN ->
  (16 < length (clic_interrupt_count s))%nat ->
  (forall i, keeps_length (activity i)) ->
  exists first second ce cv s',
    test_trigger_modes activity s = Ok (tt, s')
    /\ (line_enabled first 15 = true /\ line_edge first 15 = true
        /\ line_priority first 15 = 128 /\ line_pending first 15 = true
        /\ clic_interrupt_count first !! 15%nat = Some 0)
    /\ (line_enabled first 16 = true /\ line_edge first 16 = false
        /\ line_priority first 16 = 128
        /\ line_pending first 16 = line_pending s 16
        /\ clic_interrupt_count first !! 16%nat = Some 0)
    /\ clic_interrupt_count (activity 0 first) !! 15%nat = Some ce
    /\ line_pending second 16 = true
    /\ mmio second
       = <[reg_addr CLIC_INTIP_OFFSET 16 := u8 1]> (mmio (activity 0 first))
    /\ clic_interrupt_count (activity 1 second) !! 16%nat = Some cv
    /\ console s'
       = console (activity 1 second)
         ++ ["  Level IRQ 16: count=" +:+ fmt_d cv +:+ nl]
    /\ console second
       = console (activity 0 first)
         ++ ["  Edge IRQ 15: count=" +:+ fmt_d ce +:+ " (should be 1)" +:+ nl;
             nl +:+ "Testing level-triggered interrupt..." +:+ nl]
    /\ line_enabled s' 15 = false
    /\ line_enabled s' 16 = false.
Proof.
  intros Hx Hlen Hact. unfold test_trigger_modes. cbv zeta.
  mrun.
  rewrite bind_count_set; state_norm; [| lia | lia]. mrun.
  rewrite bind_count_set; state_norm; [| lia | rewrite ?length_insert; lia].
  mrun.
  match goal with
  | |- context [bind (modify (activity 0)) _ ?st] => set (first := st)
  end.
  exists first. rewrite bind_modify.
  assert (Hlen1 : length (clic_interrupt_count (activity 0 first))
                  = length (clic_interrupt_count s))
    by (rewrite Hact; subst first; state_norm; rewrite !length_insert;
        reflexivity).
  assert (Hfirst15 :
    line_enabled first 15 = true /\ line_edge first 15 = true
    /\ line_priority first 15 = 128 /\ line_pending first 15 = true
    /\ clic_interrupt_count first !! 15%nat = Some 0).
  { repeat split; try (subst first; reg_read; reflexivity).
    subst first. state_norm.
    rewrite list_lookup_insert_ne by lia.
    apply list_lookup_insert_eq. lia. }
  assert (Hfirst16 :
    line_enabled first 16 = true /\ line_edge first 16 = false
    /\ line_priority first 16 = 128
    /\ line_pending first 16 = line_pending s 16
    /\ clic_interrupt_count first !! 16%nat = Some 0).
  { repeat split; try (subst first; reg_read; reflexivity).
    subst first. state_norm.
    apply list_lookup_insert_eq. rewrite length_insert. lia. }
  set (s1 := activity 0 first) in *.
  destruct (lookup_lt_is_Some_2 (clic_interrupt_count s1) 15) as [ce Hce];
    [lia |].
  rewrite (bind_count_get 15 ce) by first [lia | exact Hce]. mrun.
  match goal with
  | |- context [bind (modify (activity 1)) _ ?st] => set (second := st)
  end.
  exists second, ce. rewrite bind_modify.
  assert (Hlen2 : length (clic_interrupt_count (activity 1 second))
                  = length (clic_interrupt_count s))
    by (rewrite Hact; subst second; state_norm; exact Hlen1).
  set (s2 := activity 1 second) in *.
  destruct (lookup_lt_is_Some_2 (clic_interrupt_count s2) 16) as [cv Hcv];
    [lia |].
  exists cv.
  rewrite (bind_count_get 16 cv) by first [lia | exact Hcv]. mrun.
  eexists. split; [apply store8_run |]. state_norm.
  split; [exact Hfirst15 |]. split; [exact Hfirst16 |].
  split; [exact Hce |].
  split; [subst second; reg_read; reflexivity |].
  split; [reflexivity |]. split; [exact Hcv |].
  split; [reflexivity |].
  split; [subst second; state_norm; rewrite <- !app_assoc; reflexivity |].
  assert (H0 : forall v, v = 0 -> negb (v =? 0) = false)
    by (intros v ->; reflexivity).
  split; unfold line_enabled, reg; state_norm; apply H0; zero_read.
Qed.

(** X16. [test_multiple_interrupts] arms lines 25 to 29 together: each is
    enabled, pending and edge-triggered with its counter at zero, at
    priorities 50, 80, 110, 140 and 170, all below 256, so that none is cut
    down by the conversion to [uint8_t] and the lower line always has the
    more urgent priority.  After the delay it prints the five counters as
    the delay left them and disables the five lines. *)
Theorem multiple_test_report (activity : state -> state) (s : state) :
  32 <= XLEN ->
  (29 < length (clic_interrupt_count s))%nat ->
  keeps_length activity ->
  exists armed c25 c26 c27 c28 c29 s',
    test_multiple_interrupts activity s = Ok (tt, s')
    /\ (forall i, 0 <= i < 5 ->
          line_enabled armed (25 + i) = true
          /\ line_pending armed (25 + i) = true
          /\ line_edge armed (25 + i) = true
          /\ line_priority armed (25 + i) = 50 + 30 * i
          /\ clic_interrupt_count armed !! Z.to_nat (25 + i) = Some 0)
    /\ clic_interrupt_count (activity armed) !! 25%nat = Some c25
    /\ clic_interrupt_count (activity armed) !! 26%nat = Some c26
    /\ clic_interrupt_count (activity armed) !! 27%nat = Some c27
    /\ clic_interrupt_count (activity armed) !! 28%nat = Some c28
    /\ clic_interrupt_count (activity armed) !! 29%nat = Some c29
    /\ console s'
       = console (activity armed)
         ++ [nl +:+ "Results:" +:+ nl;
             "  IRQ 25: handled " +:+ fmt_d c25 +:+ " times" +:+ nl;
             "  IRQ 26: handled " +:+ fmt_d c26 +:+ " times" +:+ nl;
             "  IRQ 27: handled " +:+ fmt_d c27 +:+ " times" +:+ nl;
             "  IRQ 28: handled " +:+ fmt_d c28 +:+ " times" +:+ nl;
             "  IRQ 29: handled " +:+ fmt_d c29 +:+ " times" +:+ nl]
    /\ (forall i, 0 <= i < 5 -> line_enabled s' (25 + i) = false).
Proof.
  intros Hx Hlen Hact. unfold test_multiple_interrupts.
  change (Z.to_nat 5) with 5%nat. cbn [for_upto]. cbv zeta. eval_multiple.
  mrun.
  do 5 (rewrite bind_count_set; state_norm;
        [| lia | rewrite ?length_insert; lia]; mrun).
  match goal with
  | |- context [bind (modify activity) _ ?st] => set (armed := st)
  end.
  exists armed. rewrite bind_modify.
  assert (Hlen2 : length (clic_interrupt_count (activity armed))
                  = length (clic_interrupt_count s))
    by (rewrite Hact; subst armed; state_norm; rewrite !length_insert;
        reflexivity).
  assert (Harmed : forall i, 0 <= i < 5 ->
          line_enabled armed (25 + i) = true
          /\ line_pending armed (25 + i) = true
          /\ line_edge armed (25 + i) = true
          /\ line_priority armed (25 + i) = 50 + 30 * i
          /\ clic_interrupt_count armed !! Z.to_nat (25 + i) = Some 0).
  { intros i Hi.
    assert (Hcases : i = 0 \/ i = 1 \/ i = 2 \/ i = 3 \/ i = 4) by lia.
    destruct Hcases as [-> | [-> | [-> | [-> | ->]]]];
      cbn [Z.add Z.mul Pos.add Pos.mul Pos.succ Pos.add_carry];
      (split; [subst armed; reg_read; reflexivity |]);
      (split; [subst armed; reg_read; reflexivity |]);
      (split; [subst armed; reg_read; reflexivity |]);
      (split; [subst armed; reg_read; reflexivity |]);
      subst armed; state_norm;
      rewrite ?list_lookup_insert_ne by lia;
      apply list_lookup_insert_eq; rewrite ?length_insert; lia. }
  set (s2 := activity armed) in *.
  destruct (lookup_lt_is_Some_2 (clic_interrupt_count s2) 25) as [c25 H25];
    [lia |].
  destruct (lookup_lt_is_Some_2 (clic_interrupt_count s2) 26) as [c26 H26];
    [lia |].
  destruct (lookup_lt_is_Some_2 (clic_interrupt_count s2) 27) as [c27 H27];
    [lia |].
  destruct (lookup_lt_is_Some_2 (clic_interrupt_count s2) 28) as [c28 H28];
    [lia |].
  destruct (lookup_lt_is_Some_2 (clic_interrupt_count s2) 29) as [c29 H29];
    [lia |].
  exists c25, c26, c27, c28, c29. mrun.
  rewrite (bind_count_get 25 c25) by first [lia | exact H25]. mrun.
  rewrite (bind_count_get 26 c26) by first [lia | exact H26]. mrun.
  rewrite (bind_count_get 27 c27) by first [lia | exact H27]. mrun.
  rewrite (bind_count_get 28 c28) by first [lia | exact H28]. mrun.
  rewrite (bind_count_get 29 c29) by first [lia | exact H29]. mrun.
  eexists. split; [apply store8_run |]. state_norm.
  split; [exact Harmed |].
  split; [exact H25 |]. split; [exact H26 |]. split; [exact H27 |].
  split; [exact H28 |]. split; [exact H29 |].
  split; [rewrite <- !app_assoc; reflexivity |].
  intros i Hi.
  assert (H0 : forall v, v = 0 -> negb (v =? 0) = false)
    by (intros v ->; reflexivity).
  assert (Hcases : i = 0 \/ i = 1 \/ i = 2 \/ i = 3 \/ i = 4) by lia.
  destruct Hcases as [-> | [-> | [-> | [-> | ->]]]];
    cbn [Z.add Pos.add Pos.succ Pos.add_carry];
    unfold line_enabled, reg; state_norm; apply H0; zero_read.
Qed.

End Clic.

(** * Properties of processor.c *)

Section ProcessorProperties.

Variable PROCESSOR_MODE_COUNT : Z.
Variable PROCESSOR_MODE_DESCLEN : Z.
Variable CLKGEN_STATUS_BUSY : Z.
Variable CLKGEN_STATUS_PROGDONE : Z.
Variable CLKGEN_STATUS_LOCKED : Z.
Variable DVISAMPLER0_EDID_MEM_BASE : Z.
Variable DVISAMPLER1_EDID_MEM_BASE : Z.
Variable generate_edid :
  string -> string -> Z -> string -> video_timing -> list Z.

(** ** Strings in a buffer *)

Lemma c_string_lookup (chars l : list Ascii.ascii) :
  (forall j, (j < length chars)%nat -> l !! j = chars !! j) ->
  l !! length chars = Some NUL ->
  Forall (fun c => c <> NUL) chars ->
  c_string l = String.string_of_list_ascii chars.
Proof.
  revert l. induction chars as [| c chars IH]; intros l Hl Hend Hnn.
  - destruct l as [| x l]; [discriminate Hend |].
    cbn in Hend. injection Hend as ->. reflexivity.
  - destruct l as [| x l]; [discriminate Hend |].
    pose proof (Hl 0%nat ltac:(cbn; lia)) as H0. cbn in H0.
    injection H0 as ->.
    inversion Hnn as [| ? ? Hc Hnn']; subst.
    cbn [c_string String.string_of_list_ascii].
    destruct (Ascii.eqb_spec c NUL) as [-> | _]; [contradiction |].
    f_equal. apply IH; [| exact Hend | exact Hnn'].
    intros j Hj. apply (Hl (S j)). cbn. lia.
Qed.

Lemma string_at_lookup (buf : list Ascii.ascii) (off : Z) (text : string) :
  0 <= off ->
  (forall j, (j < String.length text)%nat ->
     buf !! (Z.to_nat off + j)%nat = String.list_ascii_of_string text !! j) ->
  buf !! (Z.to_nat off + String.length text)%nat = Some NUL ->
  Forall (fun c => c <> NUL) (String.list_ascii_of_string text) ->
  string_at buf off = text.
Proof.
  intros Hoff Hl Hend Hnn. unfold string_at.
  rewrite <- (String.string_of_list_ascii_of_string text).
  assert (Hlen : length (String.list_ascii_of_string text)
                 = String.length text).
  { clear. induction text as [| c t IH]; [reflexivity |].
    cbn. f_equal. exact IH. }
  apply c_string_lookup; [| | exact Hnn].
  - intros j Hj. rewrite lookup_drop. apply Hl. lia.
  - rewrite lookup_drop, Hlen. exact Hend.
Qed.

Lemma sprintf_at_run (buf : list Ascii.ascii) (off : Z) (text : string) :
  0 <= off ->
  off + Z.of_nat (String.length text) + 1 <= Z.of_nat (length buf) ->
  exists buf',
    sprintf_at buf off text = Done buf'
    /\ length buf' = length buf
    /\ (forall j, (j < String.length text)%nat ->
          buf' !! (Z.to_nat off + j)%nat
          = String.list_ascii_of_string text !! j)
    /\ buf' !! (Z.to_nat off + String.length text)%nat = Some NUL
    /\ (forall k : nat,
          (k < Z.to_nat off \/ Z.to_nat off + String.length text < k)%nat ->
          buf' !! k = buf !! k).
Proof.
  intros Hoff Hfit.
  assert (Hlen : length (String.list_ascii_of_string text)
                 = String.length text).
  { clear. induction text as [| c t IH]; [reflexivity |].
    cbn. f_equal. exact IH. }
  unfold sprintf_at. cbv zeta.
  rewrite length_app, Hlen. cbn [length].
  replace ((0 <=? off)
           && (off + Z.of_nat (String.length text + 1)
               <=? Z.of_nat (length buf))) with true
    by (symmetry; apply andb_true_intro; split; apply Z.leb_le; lia).
  eexists. split; [reflexivity |].
  assert (Htake : length (take (Z.to_nat off) buf) = Z.to_nat off)
    by (rewrite length_take; lia).
  split; [| split; [| split]].
  - rewrite !length_app, length_take, length_drop, Hlen. cbn [length]. lia.
  - intros j Hj.
    rewrite lookup_app_r by lia. rewrite Htake.
    replace (Z.to_nat off + j - Z.to_nat off)%nat with j by lia.
    rewrite <- app_assoc. rewrite lookup_app_l by lia. reflexivity.
  - rewrite lookup_app_r by lia. rewrite Htake.
    replace (Z.to_nat off + String.length text - Z.to_nat off)%nat
      with (length (String.list_ascii_of_string text)) by lia.
    rewrite <- app_assoc. apply (list_lookup_middle _ _ NUL). reflexivity.
  - intros k [Hk | Hk].
    + rewrite lookup_app_l by lia. apply lookup_take_lt. lia.
    + rewrite lookup_app_r by lia. rewrite Htake.
      rewrite lookup_app_r by (rewrite length_app, Hlen; cbn [length]; lia).
      rewrite length_app, Hlen. cbn [length].
      rewrite lookup_drop. f_equal. lia.
Qed.

Lemma sprintf_at_overrun (buf : list Ascii.ascii) (off : Z) (text : string) :
  Z.of_nat (length buf) < off + Z.of_nat (String.length text) + 1 ->
  sprintf_at buf off text = Fault BufferOverrun.
Proof.
  intros Hfit.
  assert (Hlen : length (String.list_ascii_of_string text)
                 = String.length text).
  { clear. induction text as [| c t IH]; [reflexivity |].
    cbn. f_equal. exact IH. }
  unfold sprintf_at. cbv zeta.
  rewrite length_app, Hlen. cbn [length].
  replace (off + Z.of_nat (String.length text + 1)
           <=? Z.of_nat (length buf)) with false
    by (symmetry; apply Z.leb_gt; lia).
  rewrite andb_false_r. reflexivity.
Qed.

Lemma list_modes_two (buf : list Ascii.ascii) :
  processor_list_modes 2 PROCESSOR_MODE_DESCLEN buf
  = match sprintf_at buf (PROCESSOR_MODE_DESCLEN * 0) "1024x768 @60Hz" with
    | Done buf1 =>
        sprintf_at buf1 (PROCESSOR_MODE_DESCLEN * 1) "1280x720 @60Hz"
    | Fault f => Fault f
    end.
Proof.
  reflexivity.
Qed.

Lemma substring_take (n : nat) (text : string) :
  String.list_ascii_of_string (String.substring 0 n text)
  = take n (String.list_ascii_of_string text).
Proof.
  revert n. induction text as [| c t IH]; intros [| n]; cbn; try reflexivity.
  f_equal. apply IH.
Qed.

Lemma list_ascii_app (a b : string) :
  String.list_ascii_of_string (a +:+ b)
  = String.list_ascii_of_string a ++ String.list_ascii_of_string b.
Proof.
  induction a as [| c a IH]; [reflexivity |].
  change (c :: String.list_ascii_of_string (a +:+ b)
          = c :: String.list_ascii_of_string a
              ++ String.list_ascii_of_string b).
  f_equal. exact IH.
Qed.

Lemma list_ascii_length (text : string) :
  length (String.list_ascii_of_string text) = String.length text.
Proof.
  induction text as [| c t IH]; [reflexivity |].
  cbn. f_equal. exact IH.
Qed.

(** X17: [processor_list_modes] with the two built-in modes stores
    "1024x768 @60Hz" at offset 0 and "1280x720 @60Hz" at offset
    [PROCESSOR_MODE_DESCLEN], 15 bytes each with the terminator.  It returns
    exactly when the buffer holds [PROCESSOR_MODE_DESCLEN + 15] bytes, and
    overruns the buffer otherwise.  The second descriptor always reads back
    whole; the first one does when [PROCESSOR_MODE_DESCLEN] is at least 15,
    and below that it reads as its first [PROCESSOR_MODE_DESCLEN] characters
    followed by the second descriptor.  Bytes outside the two descriptors
    are left alone. *)
Theorem list_modes_descriptors (buf : list Ascii.ascii) :
  PROCESSOR_MODE_COUNT = 2 ->
  0 <= PROCESSOR_MODE_DESCLEN ->
  (PROCESSOR_MODE_DESCLEN + 15 <= Z.of_nat (length buf) ->
   exists buf',
     processor_list_modes PROCESSOR_MODE_COUNT PROCESSOR_MODE_DESCLEN buf
     = Done buf'
     /\ length buf' = length buf
     /\ string_at buf' PROCESSOR_MODE_DESCLEN = "1280x720 @60Hz"
     /\ (15 <= PROCESSOR_MODE_DESCLEN ->
         string_at buf' 0 = "1024x768 @60Hz")
     /\ (PROCESSOR_MODE_DESCLEN < 15 ->
         string_at buf' 0
         = String.substring 0 (Z.to_nat PROCESSOR_MODE_DESCLEN)
             "1024x768 @60Hz" +:+ "1280x720 @60Hz")
     /\ (forall k : nat,
           15 <= Z.of_nat k ->
           ~ (PROCESSOR_MODE_DESCLEN <= Z.of_nat k
              < PROCESSOR_MODE_DESCLEN + 15) ->
           buf' !! k = buf !! k))
  /\ (Z.of_nat (length buf) < PROCESSOR_MODE_DESCLEN + 15 ->
      processor_list_modes PROCESSOR_MODE_COUNT PROCESSOR_MODE_DESCLEN buf
      = Fault BufferOverrun).
Proof.
  intros -> Hlen0. rewrite list_modes_two.
  rewrite Z.mul_0_r, Z.mul_1_r.
  set (D := PROCESSOR_MODE_DESCLEN) in *.
  assert (Hnn0 : Forall (fun c => c <> NUL)
                   (String.list_ascii_of_string "1024x768 @60Hz"))
    by (repeat (constructor; [discriminate |]); constructor).
  assert (Hnn1 : Forall (fun c => c <> NUL)
                   (String.list_ascii_of_string "1280x720 @60Hz"))
    by (repeat (constructor; [discriminate |]); constructor).
  split.
  - intros Hfit.
    destruct (sprintf_at_run buf 0 "1024x768 @60Hz")
      as (buf1 & -> & Hlen1 & Hchars1 & Hend1 & Hframe1);
      [lia | cbn; lia |].
    destruct (sprintf_at_run buf1 D "1280x720 @60Hz")
      as (buf2 & -> & Hlen2 & Hchars2 & Hend2 & Hframe2);
      [lia | rewrite Hlen1; cbn; lia |].
    change (String.length "1024x768 @60Hz") with 14%nat in *.
    change (String.length "1280x720 @60Hz") with 14%nat in *.
    change (Z.to_nat 0) with 0%nat in *.
    exists buf2. split; [reflexivity |].
    split; [congruence |].
    split; [| split; [| split]].
    + apply string_at_lookup; [lia | exact Hchars2 | exact Hend2 | exact Hnn1].
    + intros Hwide. apply string_at_lookup; [lia | | | exact Hnn0];
        change (String.length "1024x768 @60Hz") with 14%nat;
        change (Z.to_nat 0) with 0%nat.
      * intros j Hj. rewrite Hframe2 by lia. apply Hchars1. exact Hj.
      * rewrite Hframe2 by lia. exact Hend1.
    + intros Hnarrow.
      assert (Hsub : String.length
                       (String.substring 0 (Z.to_nat D) "1024x768 @60Hz"
                        +:+ "1280x720 @60Hz") = (Z.to_nat D + 14)%nat).
      { rewrite <- list_ascii_length, list_ascii_app, length_app,
          substring_take, length_take, !list_ascii_length.
        cbn [String.length]. lia. }
      apply string_at_lookup; [lia | | |].
      * rewrite Hsub. change (Z.to_nat 0) with 0%nat. intros j Hj.
        rewrite list_ascii_app, substring_take.
        destruct (decide (j < Z.to_nat D)%nat) as [Hlt | Hge].
        -- rewrite Hframe2 by lia.
           rewrite lookup_app_l
             by (rewrite length_take, list_ascii_length; cbn; lia).
           rewrite lookup_take_lt by lia. apply Hchars1. lia.
        -- rewrite lookup_app_r
             by (rewrite length_take, list_ascii_length; cbn; lia).
           rewrite length_take, list_ascii_length.
           cbn [String.length].
           replace (j - Z.to_nat D `min` 14)%nat with (j - Z.to_nat D)%nat
             by lia.
           rewrite <- (Hchars2 (j - Z.to_nat D)%nat) by lia.
           f_equal. lia.
      * rewrite Hsub. exact Hend2.
      * rewrite list_ascii_app, substring_take.
        apply Forall_app. split; [apply Forall_take; exact Hnn0 | exact Hnn1].
    + intros k Hk Hout.
      rewrite Hframe2 by lia. apply Hframe1. lia.
  - intros Hshort.
    destruct (Z.lt_ge_cases (Z.of_nat (length buf)) 15) as [Htiny | Hsome].
    + rewrite sprintf_at_overrun by (cbn; lia). reflexivity.
    + destruct (sprintf_at_run buf 0 "1024x768 @60Hz")
        as (buf1 & -> & Hlen1 & _); [lia | cbn; lia |].
      apply sprintf_at_overrun. rewrite Hlen1. cbn. lia.
Qed.

(** ** Busy-waits *)

Lemma wait_status_ends (spin : Z -> bool) (waiting : list Z) (v : Z)
    (rest : list Z) :
  Forall (fun a => spin a = true) waiting ->
  spin v = false ->
  wait_status spin (waiting ++ v :: rest) = Some rest.
Proof.
  intros Hwaiting Hv.
  induction Hwaiting as [| a waiting Ha _ IH]; cbn [app wait_status].
  - rewrite Hv. reflexivity.
  - rewrite Ha. exact IH.
Qed.

Lemma wait_status_spins (spin : Z -> bool) (l : list Z) :
  Forall (fun a => spin a = true) l ->
  wait_status spin l = None.
Proof.
  intros Hl. induction Hl as [| a l Ha _ IH]; [reflexivity |].
  cbn [wait_status]. rewrite Ha. exact IH.
Qed.

Lemma vbind_emit {B} (e : event) (k : unit -> V B) (s : hw) :
  vbind (emit e) k s = k tt (mkHw (trace s ++ [e]) (answers s) (shown s)).
Proof.
  reflexivity.
Qed.

Lemma vbind_vprintf {B} (line : string) (k : unit -> V B) (s : hw) :
  vbind (vprintf line) k s
  = k tt (mkHw (trace s) (answers s) (shown s ++ [line])).
Proof.
  reflexivity.
Qed.

Lemma vbind_assoc {A B C} (c : V A) (k : A -> V B) (h : B -> V C) (s : hw) :
  vbind (vbind c k) h s = vbind c (fun a => vbind (k a) h) s.
Proof.
  unfold vbind. destruct (c s) as [[a s'] | f]; reflexivity.
Qed.

Lemma vbind_spin {B} (spin : Z -> bool) (k : unit -> V B) (s : hw) :
  vbind (spin_while spin) k s
  = match wait_status spin (answers s) with
    | Some rest => k tt (mkHw (trace s) rest (shown s))
    | None => Fault Spinning
    end.
Proof.
  unfold vbind, spin_while.
  destruct (wait_status spin (answers s)); reflexivity.
Qed.

Lemma clkgen_word (cmd data : Z) :
  0 <= cmd < 4 ->
  0 <= data ->
  Z.land (Z.lor (Z.shiftl data 2) cmd) 3 = cmd
  /\ Z.shiftr (Z.lor (Z.shiftl data 2) cmd) 2 = data.
Proof.
  intros Hcmd Hdata. split.
  - rewrite Z.land_lor_distr_l.
    change 3 with (Z.ones 2). rewrite !Z.land_ones by lia.
    rewrite Z.shiftl_mul_pow2 by lia.
    rewrite Z.mod_mul by lia. rewrite Z.mod_small by lia. reflexivity.
  - rewrite Z.shiftr_lor. rewrite Z.shiftr_shiftl_l by lia.
    rewrite Z.sub_diag, Z.shiftl_0_r.
    rewrite (Z.shiftr_div_pow2 cmd) by lia.
    rewrite (Z.div_small cmd) by lia. apply Z.lor_0_r.
Qed.

(** X18: [fb_clkgen_write(cmd, data)], for a command of two bits and data
    that [data << 2] does not overflow, hands the clock generator one word
    from which both are read back ([word & 3] and [word >> 2]), strobes
    [send_cmd_data], and then reads the status until BUSY is clear: it
    returns at the first such answer, having consumed the answers up to it,
    and never returns if BUSY stays set. *)
Theorem clkgen_write_handshake (cmd data : Z) (s : hw) :
  0 <= cmd < 4 ->
  0 <= data < 2 ^ 29 ->
  (forall waiting v rest,
     answers s = waiting ++ v :: rest ->
     Forall (fun a => Z.land a CLKGEN_STATUS_BUSY <> 0) waiting ->
     Z.land v CLKGEN_STATUS_BUSY = 0 ->
     exists word,
       fb_clkgen_write CLKGEN_STATUS_BUSY cmd data s
       = Done (tt, mkHw (trace s
                         ++ [CsrWrite fb_driver_clocking_cmd_data word;
                             CsrWrite fb_driver_clocking_send_cmd_data 1])
                     rest (shown s))
       /\ Z.land word 3 = cmd
       /\ Z.shiftr word 2 = data)
  /\ (Forall (fun a => Z.land a CLKGEN_STATUS_BUSY <> 0) (answers s) ->
      fb_clkgen_write CLKGEN_STATUS_BUSY cmd data s = Fault Spinning).
Proof.
  intros Hcmd Hdata. split.
  - intros waiting v rest Hanswers Hwaiting Hv.
    exists (Z.lor (Z.shiftl data 2) cmd).
    split; [| apply clkgen_word; lia].
    unfold fb_clkgen_write, csr_write. cbv zeta.
    rewrite !vbind_emit. unfold spin_while. cbn [trace answers shown].
    rewrite Hanswers, wait_status_ends.
    + rewrite <- app_assoc. reflexivity.
    + eapply Forall_impl; [| exact Hwaiting].
      intros a Ha. cbv beta. apply negb_true_iff, Z.eqb_neq. exact Ha.
    + apply negb_false_iff, Z.eqb_eq. exact Hv.
  - intros Hbusy.
    unfold fb_clkgen_write, csr_write. cbv zeta.
    rewrite !vbind_emit. unfold spin_while. cbn [trace answers shown].
    rewrite wait_status_spins; [reflexivity |].
    eapply Forall_impl; [| exact Hbusy].
    intros a Ha. cbv beta. apply negb_true_iff, Z.eqb_neq. exact Ha.
Qed.

(** ** Programming a mode *)

Lemma fb_set_mode_run (mode : video_timing) (s : hw) :
  fb_set_mode CLKGEN_STATUS_BUSY CLKGEN_STATUS_PROGDONE CLKGEN_STATUS_LOCKED
    mode s
  = match
      clock_waits CLKGEN_STATUS_BUSY CLKGEN_STATUS_PROGDONE
        CLKGEN_STATUS_LOCKED (answers s)
    with
    | Some rest =>
        Done (tt,
              mkHw
                (trace s
                 ++ [CsrWrite fb_fi_hres (h_active mode);
                     CsrWrite fb_fi_hsync_start
                       (u32 (h_active mode + h_sync_offset mode));
                     CsrWrite fb_fi_hsync_end
                       (u32 (h_active mode + h_sync_offset mode
                             + h_sync_width mode));
                     CsrWrite fb_fi_hscan
                       (u32 (h_active mode + h_blanking mode));
                     CsrWrite fb_fi_vres (v_active mode);
                     CsrWrite fb_fi_vsync_start
                       (u32 (v_active mode + v_sync_offset mode));
                     CsrWrite fb_fi_vsync_end
                       (u32 (v_active mode + v_sync_offset mode
                             + v_sync_width mode));
                     CsrWrite fb_fi_vscan
                       (u32 (v_active mode + v_blanking mode));
                     CsrWrite fb_dma0_length
                       (u32 (h_active mode * v_active mode * 4));
                     CsrWrite fb_dma1_length
                       (u32 (h_active mode * v_active mode * 4));
                     CsrWrite fb_driver_clocking_cmd_data 37;
                     CsrWrite fb_driver_clocking_send_cmd_data 1;
                     CsrWrite fb_driver_clocking_cmd_data 51;
                     CsrWrite fb_driver_clocking_send_cmd_data 1;
                     CsrWrite fb_driver_clocking_send_go 1])
                rest
                (shown s
                 ++ ["waiting for PROGDONE..."; "ok" +:+ nl;
                     "waiting for LOCKED..."; "ok" +:+ nl;
                     "Video mode set to " +:+ fmt_d (h_active mode) +:+ "x"
                     +:+ fmt_d (v_active mode) +:+ nl]))
    | None => Fault Spinning
    end.
Proof.
  destruct s as [t a sh].
  unfold fb_set_mode, fb_get_clock_md, fb_clkgen_write, csr_write, clock_waits.
  cbv zeta beta iota.
  change (Z.lor (Z.shiftl (u32 (10 - 1)) 2) 1) with 37.
  change (Z.lor (Z.shiftl (u32 (13 - 1)) 2) 3) with 51.
  cbv [vbind emit vprintf spin_while trace answers shown].
  destruct (wait_status _ a) as [r1 |]; [| reflexivity].
  destruct (wait_status _ r1) as [r2 |]; [| reflexivity].
  destruct (wait_status _ r2) as [r3 |]; [| reflexivity].
  destruct (wait_status _ r3) as [r4 |]; [| reflexivity].
  rewrite <- !app_assoc. reflexivity.
Qed.

(** X19: [fb_set_mode] returns exactly when its four busy-waits end (BUSY
    clear after each of the two commands, then PROGDONE, then LOCKED) and
    spins for ever otherwise.  Whatever the mode and its [pixel_clock], the
    clock generator gets the same five writes: word 37 (divider 10 - 1 with
    command 1), word 51 (multiplier 13 - 1 with command 3), each followed by
    the [send_cmd_data] strobe, then [send_go]; the last line shown names
    the resolution. *)
Theorem set_mode_clock_ignores_pixel_clock (mode : video_timing) (s : hw) :
  (forall rest,
     clock_waits CLKGEN_STATUS_BUSY CLKGEN_STATUS_PROGDONE
       CLKGEN_STATUS_LOCKED (answers s) = Some rest ->
     exists s',
       fb_set_mode CLKGEN_STATUS_BUSY CLKGEN_STATUS_PROGDONE
         CLKGEN_STATUS_LOCKED mode s = Done (tt, s')
       /\ answers s' = rest
       /\ List.filter is_clocking (trace s')
          = List.filter is_clocking (trace s)
            ++ [CsrWrite fb_driver_clocking_cmd_data 37;
                CsrWrite fb_driver_clocking_send_cmd_data 1;
                CsrWrite fb_driver_clocking_cmd_data 51;
                CsrWrite fb_driver_clocking_send_cmd_data 1;
                CsrWrite fb_driver_clocking_send_go 1]
       /\ Z.land 37 3 = 1 /\ Z.shiftr 37 2 = 10 - 1
       /\ Z.land 51 3 = 3 /\ Z.shiftr 51 2 = 13 - 1
       /\ List.last (shown s') EmptyString
          = "Video mode set to " +:+ fmt_d (h_active mode) +:+ "x"
            +:+ fmt_d (v_active mode) +:+ nl)
  /\ (clock_waits CLKGEN_STATUS_BUSY CLKGEN_STATUS_PROGDONE
        CLKGEN_STATUS_LOCKED (answers s) = None ->
      fb_set_mode CLKGEN_STATUS_BUSY CLKGEN_STATUS_PROGDONE
        CLKGEN_STATUS_LOCKED mode s = Fault Spinning).
Proof.
  rewrite fb_set_mode_run. split.
  - intros rest ->. eexists. split; [reflexivity |].
    cbn [trace answers shown].
    split; [reflexivity |].
    split; [rewrite List.filter_app; reflexivity |].
    do 4 (split; [reflexivity |]).
    exact (eq_trans (f_equal (fun l => List.last l EmptyString)
                       (app_assoc _ [_; _; _; _] [_]))
                    (last_last _ _ _)).
  - intros ->. reflexivity.
Qed.

(** X21: for each of the two built-in modes, [fb_set_mode] writes every
    timing register once, and the values fit together: horizontally and
    vertically the sync pulse starts after the active area and ends before
    the end of the scan, and both DMA lengths are the frame's size at four
    bytes a pixel, with no wrap-around in [unsigned int]. *)
Theorem built_in_modes_timing (m : video_timing) (s : hw) (rest : list Z) :
  PROCESSOR_MODE_COUNT = 2 ->
  In m (video_modes PROCESSOR_MODE_COUNT) ->
  clock_waits CLKGEN_STATUS_BUSY CLKGEN_STATUS_PROGDONE
    CLKGEN_STATUS_LOCKED (answers s) = Some rest ->
  exists s' mid hsync_start hsync_end hscan vsync_start vsync_end vscan,
    fb_set_mode CLKGEN_STATUS_BUSY CLKGEN_STATUS_PROGDONE
      CLKGEN_STATUS_LOCKED m s = Done (tt, s')
    /\ trace s' = trace s ++ mid
    /\ written fb_fi_hres mid = [h_active m]
    /\ written fb_fi_hsync_start mid = [hsync_start]
    /\ written fb_fi_hsync_end mid = [hsync_end]
    /\ written fb_fi_hscan mid = [hscan]
    /\ written fb_fi_vres mid = [v_active m]
    /\ written fb_fi_vsync_start mid = [vsync_start]
    /\ written fb_fi_vsync_end mid = [vsync_end]
    /\ written fb_fi_vscan mid = [vscan]
    /\ written fb_dma0_length mid = [4 * h_active m * v_active m]
    /\ written fb_dma1_length mid = [4 * h_active m * v_active m]
    /\ 0 < h_active m < hsync_start
    /\ hsync_start < hsync_end < hscan
    /\ 0 < v_active m < vsync_start
    /\ vsync_start < vsync_end < vscan.
Proof.
  intros -> Hm Hwaits.
  rewrite fb_set_mode_run, Hwaits.
  change (video_modes 2)
    with [mkTiming 6500 1024 320 24 136 768 38 3 6;
          mkTiming 7425 1280 370 220 40 720 30 20 5] in Hm.
  cbn [In] in Hm. destruct Hm as [<- | [<- | []]];
    cbn [h_active h_blanking h_sync_offset h_sync_width
         v_active v_blanking v_sync_offset v_sync_width];
    (eexists; eexists; do 6 eexists;
     split; [reflexivity |];
     cbn [trace];
     split; [reflexivity |];
     do 10 (split; [vm_compute; reflexivity |]);
     lia).
Qed.

(** ** Starting the processor *)

Lemma vfor_upto_emit (n : nat) (f : Z -> event) (s : hw) :
  vfor_upto n (fun i => emit (f i)) s
  = Done (tt, mkHw (trace s ++ map f (map Z.of_nat (seq 0 n)))
                (answers s) (shown s)).
Proof.
  induction n as [| n IH].
  - cbn [vfor_upto seq map]. rewrite app_nil_r. destruct s; reflexivity.
  - cbn [vfor_upto]. unfold vbind. rewrite IH.
    unfold emit. cbn [trace answers shown].
    rewrite seq_S, !map_app, app_assoc. reflexivity.
Qed.

Lemma edid_upload_run (base : Z) (edid : list Z) (s : hw) :
  edid_upload base edid s
  = Done (tt,
          mkHw (trace s
                ++ map (fun i => MemWrite (base + 4 * i)
                                   (u8 (nth (Z.to_nat i) edid 0)))
                     (map Z.of_nat (seq 0 128)))
            (answers s) (shown s)).
Proof.
  unfold edid_upload. apply vfor_upto_emit.
Qed.

Lemma mem_writes_no_enable (f g : Z -> Z) (l : list Z) :
  List.filter is_enable (map (fun i => MemWrite (f i) (g i)) l) = [].
Proof.
  induction l as [| i l IH]; [reflexivity | exact IH].
Qed.

Lemma video_modes_two :
  video_modes 2
  = [mkTiming 6500 1024 320 24 136 768 38 3 6;
     mkTiming 7425 1280 370 220 40 720 30 20 5].
Proof.
  reflexivity.
Qed.

(** X20: [processor_start(mode)] does not check [mode]: an index outside the
    two built-in modes reads past [video_modes].  For a built-in mode it
    returns exactly when the four busy-waits of [fb_set_mode] end, and then
    everything it does lies between switching the frame buffer and both
    hot-plug lines off and switching them on again: the three registers are
    first written 0, no write in between touches them, both samplers are
    initialised with the mode's resolution, and the last three writes set
    them to 1. *)
Theorem processor_start_protocol (mode : Z) (s : hw) :
  PROCESSOR_MODE_COUNT = 2 ->
  (0 <= mode < 2 ->
   forall rest,
     clock_waits CLKGEN_STATUS_BUSY CLKGEN_STATUS_PROGDONE
       CLKGEN_STATUS_LOCKED (answers s) = Some rest ->
     exists m mid s',
       processor_start PROCESSOR_MODE_COUNT CLKGEN_STATUS_BUSY
         CLKGEN_STATUS_PROGDONE CLKGEN_STATUS_LOCKED
         DVISAMPLER0_EDID_MEM_BASE DVISAMPLER1_EDID_MEM_BASE generate_edid
         mode s = Done (tt, s')
       /\ video_modes PROCESSOR_MODE_COUNT !! Z.to_nat mode = Some m
       /\ trace s'
          = trace s
            ++ [CsrWrite fb_enable 0;
                CsrWrite dvisampler0_edid_hpd_en 0;
                CsrWrite dvisampler1_edid_hpd_en 0]
            ++ mid
            ++ [Call dvisampler0_init_video [h_active m; v_active m];
                Call dvisampler1_init_video [h_active m; v_active m];
                CsrWrite fb_enable 1;
                CsrWrite dvisampler0_edid_hpd_en 1;
                CsrWrite dvisampler1_edid_hpd_en 1]
       /\ List.filter is_enable mid = []
       /\ answers s' = rest)
  /\ (0 <= mode < 2 ->
      clock_waits CLKGEN_STATUS_BUSY CLKGEN_STATUS_PROGDONE
        CLKGEN_STATUS_LOCKED (answers s) = None ->
      processor_start PROCESSOR_MODE_COUNT CLKGEN_STATUS_BUSY
        CLKGEN_STATUS_PROGDONE CLKGEN_STATUS_LOCKED
        DVISAMPLER0_EDID_MEM_BASE DVISAMPLER1_EDID_MEM_BASE generate_edid
        mode s = Fault Spinning)
  /\ (mode < 0 \/ 2 <= mode ->
      processor_start PROCESSOR_MODE_COUNT CLKGEN_STATUS_BUSY
        CLKGEN_STATUS_PROGDONE CLKGEN_STATUS_LOCKED
        DVISAMPLER0_EDID_MEM_BASE DVISAMPLER1_EDID_MEM_BASE generate_edid
        mode s = Fault (ModeOutOfRange mode)).
Proof.
  intros ->. unfold processor_start. rewrite video_modes_two.
  split; [| split].
  - intros Hmode rest Hwaits.
    replace (mode <? 0) with false by (symmetry; apply Z.ltb_ge; lia).
    assert (Hm : exists m,
               [mkTiming 6500 1024 320 24 136 768 38 3 6;
                mkTiming 7425 1280 370 220 40 720 30 20 5] !! Z.to_nat mode
               = Some m).
    { apply lookup_lt_is_Some_2. cbn [length]. lia. }
    destruct Hm as [m Hm]. rewrite Hm. exists m.
    exists
      ([CsrWrite fb_fi_hres (h_active m);
        CsrWrite fb_fi_hsync_start (u32 (h_active m + h_sync_offset m));
        CsrWrite fb_fi_hsync_end
          (u32 (h_active m + h_sync_offset m + h_sync_width m));
        CsrWrite fb_fi_hscan (u32 (h_active m + h_blanking m));
        CsrWrite fb_fi_vres (v_active m);
        CsrWrite fb_fi_vsync_start (u32 (v_active m + v_sync_offset m));
        CsrWrite fb_fi_vsync_end
          (u32 (v_active m + v_sync_offset m + v_sync_width m));
        CsrWrite fb_fi_vscan (u32 (v_active m + v_blanking m));
        CsrWrite fb_dma0_length (u32 (h_active m * v_active m * 4));
        CsrWrite fb_dma1_length (u32 (h_active m * v_active m * 4));
        CsrWrite fb_driver_clocking_cmd_data 37;
        CsrWrite fb_driver_clocking_send_cmd_data 1;
        CsrWrite fb_driver_clocking_cmd_data 51;
        CsrWrite fb_driver_clocking_send_cmd_data 1;
        CsrWrite fb_driver_clocking_send_go 1]
       ++ map (fun i => MemWrite (DVISAMPLER0_EDID_MEM_BASE + 4 * i)
                          (u8 (nth (Z.to_nat i)
                                 (generate_edid "OHW" "MX" 2013
                                    "Mixxeo ch.A" m) 0)))
            (map Z.of_nat (seq 0 128))
       ++ map (fun i => MemWrite (DVISAMPLER1_EDID_MEM_BASE + 4 * i)
                          (u8 (nth (Z.to_nat i)
                                 (generate_edid "OHW" "MX" 2013
                                    "Mixxeo ch.B" m) 0)))
            (map Z.of_nat (seq 0 128))).
    unfold csr_write, edid_set_mode.
    do 3 rewrite vbind_emit. cbn [trace answers shown].
    unfold vbind at 1. rewrite fb_set_mode_run. cbn [trace answers shown].
    rewrite Hwaits.
    unfold vbind at 1. unfold vbind at 1.
    rewrite edid_upload_run. cbn [trace answers shown].
    rewrite edid_upload_run. cbn [trace answers shown].
    do 4 rewrite vbind_emit. unfold emit. cbn [trace answers shown].
    eexists. split; [reflexivity |].
    split; [reflexivity |]. cbn [trace answers].
    split; [| split; [| reflexivity]].
    + rewrite <- !app_assoc. reflexivity.
    + rewrite !List.filter_app, !mem_writes_no_enable. reflexivity.
  - intros Hmode Hwaits.
    replace (mode <? 0) with false by (symmetry; apply Z.ltb_ge; lia).
    assert (Hm : exists m,
               [mkTiming 6500 1024 320 24 136 768 38 3 6;
                mkTiming 7425 1280 370 220 40 720 30 20 5] !! Z.to_nat mode
               = Some m).
    { apply lookup_lt_is_Some_2. cbn [length]. lia. }
    destruct Hm as [m ->].
    unfold csr_write. do 3 rewrite vbind_emit. cbn [trace answers shown].
    unfold vbind at 1. rewrite fb_set_mode_run. cbn [trace answers shown].
    rewrite Hwaits. reflexivity.
  - intros [Hneg | Hbig].
    + replace (mode <? 0) with true by (symmetry; apply Z.ltb_lt; lia).
      reflexivity.
    + replace (mode <? 0) with false by (symmetry; apply Z.ltb_ge; lia).
      rewrite (proj2 (lookup_ge_None _ _)) by (cbn [length]; lia).
      reflexivity.
Qed.

End ProcessorProperties.

(** * Concrete runs *)

(** With 32 lines it is not so that every id from 32 on makes
    [clic_set_pending] and [clic_configure_interrupt] return [InvalidLine]:
    for id 32 both return normally. *)
Lemma invalid_line_is_not_reported :
  ~ (forall id s,
       32 <= id ->
       clic_set_pending 32 0xF0C00000 id s = Err InvalidLine
       /\ forall priority e p,
            clic_configure_interrupt 32 0xF0C00000 id priority e p s
            = Err InvalidLine).
Proof.
  intros H. destruct (H 32 (zero_state 32) ltac:(lia)) as [Hset _].
  discriminate Hset.
Qed.

(** What the calls do instead: line 32 reads as pending after
    [clic_set_pending(32)], and [clic_set_pending(0x400)] lands on the enable
    byte of line 0. *)
Lemma out_of_range_set_pending_writes :
  line_pending 32 0xF0C00000
    (after (clic_set_pending 32 0xF0C00000 32) (zero_state 32)) 32 = true
  /\ line_enabled 32 0xF0C00000 (zero_state 32) 0 = false
  /\ line_enabled 32 0xF0C00000
       (after (clic_set_pending 32 0xF0C00000 0x400) (zero_state 32)) 0 = true.
Proof. vm_compute. auto. Qed.

(** [clic_init] run on the state [test_priority_preemption] leaves line 2 in
    (priority 200, 32 lines): the call returns, and line 2 has priority 200
    afterwards, not 0. *)
Lemma clic_init_keeps_priority :
  match
    (clic_configure_interrupt 32 0xF0C00000 2 200 true true ;;
     clic_init 32 0xF0C00000 32) (zero_state 32)
  with
  | Ok (_, s') =>
      line_priority 32 0xF0C00000 s' 2 = 200
      /\ line_priority 32 0xF0C00000 s' 2 <> 0
      /\ line_enabled 32 0xF0C00000 s' 2 = false
  | Err _ => False
  end.
Proof. vm_compute. split; [reflexivity | split; [discriminate | reflexivity]]. Qed.

(** A trial serviced at its fourth poll is reported with 3 cycles, which are
    added to [total_latency]. *)
Example latency_serviced_at_fourth_poll :
  match
    latency_iteration 32 0xF0C00000
      (deliver_at 32 0xF0C00000 32 20 64 0 3) 20 0 100 (zero_state 32)
  with
  | Ok (total_latency, s') =>
      total_latency = 103
      /\ List.last (console s') "" = iteration_cycles_line 0 3
  | Err _ => False
  end.
Proof. vm_compute. split; reflexivity. Qed.

(** The preemption scenario of the demo under the dispatch loop: lines 2
    and 4 with priorities 200 and 50 pending together; line 4 is selected
    first, both are serviced once, and line 2 is the last one serviced. *)
Example dispatch_priority_order :
  let s := after (clic_configure_interrupt 32 0xF0C00000 2 200 true true ;;
                  clic_enable_interrupt 32 0xF0C00000 2 ;;
                  clic_configure_interrupt 32 0xF0C00000 4 50 true true ;;
                  clic_enable_interrupt 32 0xF0C00000 4 ;;
                  clic_set_pending 32 0xF0C00000 2 ;;
                  clic_set_pending 32 0xF0C00000 4) (zero_state 32) in
  let s' := after (dispatch_polls 32 0xF0C00000 32
                     (clic_interrupt_handler 32 0xF0C00000 32) 0 3) s in
  select_next 32 0xF0C00000 32 s 0 = Some 4
  /\ clic_interrupt_count s' !! 2%nat = Some 1
  /\ clic_interrupt_count s' !! 4%nat = Some 1
  /\ clic_last_interrupt_id s' = 2.
Proof. vm_compute. repeat split. Qed.

(** The threshold scenario of the demo: lines 10, 11, 12 with priorities 50,
    128, 200 pending under threshold 100; only line 10 is serviced. *)
Example dispatch_threshold_100 :
  let s := after (clic_configure_interrupt 32 0xF0C00000 10 50 true true ;;
                  clic_enable_interrupt 32 0xF0C00000 10 ;;
                  clic_configure_interrupt 32 0xF0C00000 11 128 true true ;;
                  clic_enable_interrupt 32 0xF0C00000 11 ;;
                  clic_configure_interrupt 32 0xF0C00000 12 200 true true ;;
                  clic_enable_interrupt 32 0xF0C00000 12 ;;
                  clic_set_mithreshold 32 0xF0C00000 0 100 ;;
                  clic_set_pending 32 0xF0C00000 10 ;;
                  clic_set_pending 32 0xF0C00000 11 ;;
                  clic_set_pending 32 0xF0C00000 12) (zero_state 32) in
  let s' := after (dispatch_polls 32 0xF0C00000 32
                     (clic_interrupt_handler 32 0xF0C00000 32) 0 5) s in
  clic_interrupt_count s' !! 10%nat = Some 1
  /\ clic_interrupt_count s' !! 11%nat = Some 0
  /\ clic_interrupt_count s' !! 12%nat = Some 0.
Proof. vm_compute. repeat split. Qed.

(** With descriptors 8 bytes apart the second one runs over the first:
    read as a C string, descriptor 0 is the first 8 characters of its text
    followed by the whole of descriptor 1. *)
Lemma descriptors_eight_apart_overlap :
  match processor_list_modes 2 8 (replicate 40 NUL) with
  | Done buf' => string_at buf' 0 = "1024x7681280x720 @60Hz"
  | Fault _ => False
  end.
Proof.
  vm_compute. reflexivity.
Qed.


(** * Instances

    A system with 32-bit pointers, the CLIC window at [0xF0C00000] and 32
    lines. *)

Lemma threshold_gate_witness :
  eligible 32 0xF0C00000
    (after (clic_enable_interrupt 32 0xF0C00000 5 ;;
            clic_set_pending 32 0xF0C00000 5) (zero_state 32)) 0 5 = true
  /\ exists x,
       select_next 32 0xF0C00000 32
         (after (clic_enable_interrupt 32 0xF0C00000 5 ;;
                 clic_set_pending 32 0xF0C00000 5) (zero_state 32)) 0
       = Some x
       /\ line_priority 32 0xF0C00000
            (after (clic_enable_interrupt 32 0xF0C00000 5 ;;
                    clic_set_pending 32 0xF0C00000 5) (zero_state 32)) x
          <= line_priority 32 0xF0C00000
               (after (clic_enable_interrupt 32 0xF0C00000 5 ;;
                       clic_set_pending 32 0xF0C00000 5) (zero_state 32)) 5.
Proof.
  split.
  - apply (proj1 (proj2 (proj2 (threshold_gate 32 0xF0C00000 32))));
      vm_compute; reflexivity.
  - apply (proj2 (proj2 (proj2 (proj2 (proj2 (proj2 (proj2
             (threshold_gate 32 0xF0C00000 32))))))));
      [lia | vm_compute; reflexivity | vm_compute; reflexivity
       | vm_compute; reflexivity].
Defined.

Lemma clic_init_postcondition_witness :
  exists s',
    clic_init 32 0xF0C00000 32
      (after (clic_configure_interrupt 32 0xF0C00000 2 200 true true)
             (zero_state 32)) = Ok (tt, s')
    /\ line_enabled 32 0xF0C00000 s' 2 = false
    /\ threshold 32 0xF0C00000 s' 0 = 0.
Proof.
  destruct (clic_init_postcondition 32 0xF0C00000 32
              (after (clic_configure_interrupt 32 0xF0C00000 2 200 true true)
                     (zero_state 32)))
    as (s' & Hrun & Hlines & Hthr & _); [lia | lia | reflexivity |].
  exists s'. split; [exact Hrun |]. split; [| exact Hthr].
  apply (Hlines 2). lia.
Defined.

Lemma handler_instrumentation_witness :
  exists s',
    clic_interrupt_handler 32 0xF0C00000 32 3 128 (zero_state 32) = Ok (tt, s')
    /\ clic_interrupt_count s' !! 3%nat = Some 1
    /\ clic_last_interrupt_id s' = 3
    /\ clic_last_interrupt_priority s' = 128.
Proof.
  destruct (handler_instrumentation 32 0xF0C00000 32 3 128 0 (zero_state 32))
    as (s' & Hrun & Hcount & _ & _ & _ & Hid & Hprio); [lia | reflexivity |].
  exists s'. repeat split; assumption.
Defined.

Lemma configure_and_disable_frame_witness :
  exists s',
    clic_configure_interrupt 32 0xF0C00000 4 50 true true
      (after (clic_enable_interrupt 32 0xF0C00000 4) (zero_state 32))
    = Ok (tt, s')
    /\ line_priority 32 0xF0C00000 s' 4 = u8 50
    /\ line_enabled 32 0xF0C00000 s' 4 = true.
Proof.
  destruct (configure_and_disable_frame 32 0xF0C00000 32 4 50 true true
              (after (clic_enable_interrupt 32 0xF0C00000 4) (zero_state 32)))
    as [(s' & Hrun & Hprio & _ & _ & Hbits & _) _]; [lia | lia | lia |].
  exists s'. split; [exact Hrun |]. split; [exact Hprio |].
  rewrite (proj1 (Hbits 4 ltac:(lia))). reflexivity.
Defined.

Lemma disable_and_clear_idempotent_witness :
  exists s',
    clic_disable_interrupt 32 0xF0C00000 7 (zero_state 32) = Ok (tt, s')
    /\ same_registers (zero_state 32) s'
    /\ same_globals (zero_state 32) s'.
Proof.
  apply (proj1 (disable_and_clear_idempotent 32 0xF0C00000 7 (zero_state 32))).
  reflexivity.
Defined.


Lemma handler_counter_access_unguarded_witness :
  clic_interrupt_handler 32 0xF0C00000 32 32 128 (zero_state 32)
  = Err (OutOfBounds 32).
Proof.
  apply (proj2 (proj2 (proj2 (handler_counter_access_unguarded
                                32 0xF0C00000 32 32 128 (zero_state 32)
                                ltac:(lia))) eq_refl)).
  lia.
Defined.

(** Line 16 configured as in [test_trigger_modes], level-triggered, while
    line 15 (edge-triggered) is pending too. *)
Lemma default_handler_one_service_per_pending_witness :
  exists s',
    (clic_set_pending 32 0xF0C00000 16 ;;
     dispatch_polls 32 0xF0C00000 32
       (clic_interrupt_handler 32 0xF0C00000 32) 0 32)
      (after (clic_configure_interrupt 32 0xF0C00000 15 128 true true ;;
              clic_enable_interrupt 32 0xF0C00000 15 ;;
              clic_configure_interrupt 32 0xF0C00000 16 128 false true ;;
              clic_enable_interrupt 32 0xF0C00000 16 ;;
              clic_set_pending 32 0xF0C00000 15) (zero_state 32))
    = Ok (tt, s')
    /\ line_edge 32 0xF0C00000 s' 16 = false
    /\ line_pending 32 0xF0C00000 s' 16 = false
    /\ clic_interrupt_count s' !! 16%nat = Some 1.
Proof.
  destruct (default_handler_one_service_per_pending 32 0xF0C00000 32 16 0 32
              (after (clic_configure_interrupt 32 0xF0C00000 15 128 true true ;;
                      clic_enable_interrupt 32 0xF0C00000 15 ;;
                      clic_configure_interrupt 32 0xF0C00000 16 128 false true ;;
                      clic_enable_interrupt 32 0xF0C00000 16 ;;
                      clic_set_pending 32 0xF0C00000 15) (zero_state 32)))
    as [_ (s' & Hrun & Hedge & _ & Hdone)];
    [lia | lia | lia | reflexivity | reflexivity | vm_compute; reflexivity
    | vm_compute; reflexivity |].
  destruct (Hdone ltac:(lia)) as (Hpend & Hcount & _).
  exists s'. split; [exact Hrun |]. rewrite Hedge.
  split; [vm_compute; reflexivity |]. split; [exact Hpend | exact Hcount].
Defined.

(** * Instances for the further properties *)

Lemma enable_frame_witness :
  exists s',
    clic_enable_interrupt 32 0xF0C00000 5 (zero_state 32) = Ok (tt, s')
    /\ line_enabled 32 0xF0C00000 s' 5 = true
    /\ line_enabled 32 0xF0C00000 s' 6 = false.
Proof.
  destruct (enable_frame 32 0xF0C00000 32 5 (zero_state 32))
    as (s' & Hrun & Hen & Hothers & _); [lia | lia | lia |].
  exists s'. split; [exact Hrun |]. split; [exact Hen |].
  rewrite (Hothers 6) by lia. reflexivity.
Defined.

Lemma banks_alias_beyond_0x400_witness :
  exists s',
    clic_set_pending 64 0xF0C00000 (u32 (5 + 0x400)) (zero_state 32)
    = Ok (tt, s')
    /\ line_enabled 64 0xF0C00000 s' 5 = true.
Proof.
  apply (banks_alias_beyond_0x400 64 0xF0C00000 5 (zero_state 32));
    [lia | left; lia].
Defined.

Lemma threshold_write_read_witness :
  exists s',
    clic_set_mithreshold 32 0xF0C00000 1 100 (zero_state 32) = Ok (tt, s')
    /\ clic_get_mithreshold 32 0xF0C00000 1 s' = Ok (100, s')
    /\ threshold 32 0xF0C00000 s' 0 = 0.
Proof.
  destruct (threshold_write_read 32 0xF0C00000 1 100 (zero_state 32))
    as (s' & Hrun & Hget & Hothers & _); [lia | lia |].
  exists s'. split; [exact Hrun |]. split; [exact Hget |].
  rewrite (Hothers 0) by lia. reflexivity.
Defined.

Lemma distinct_lines_commute_witness :
  exists s1 s2,
    (clic_configure_interrupt 32 0xF0C00000 2 200 true true ;;
     clic_set_pending 32 0xF0C00000 4) (zero_state 32) = Ok (tt, s1)
    /\ (clic_set_pending 32 0xF0C00000 4 ;;
        clic_configure_interrupt 32 0xF0C00000 2 200 true true)
         (zero_state 32) = Ok (tt, s2)
    /\ same_registers s1 s2.
Proof.
  destruct (distinct_lines_commute 32 0xF0C00000 (OpConfigure 200 true true)
              OpSetPending 2 4 (zero_state 32))
    as (s1 & s2 & H1 & H2 & Hreg & _); [lia | lia | lia | lia |].
  exists s1, s2. split; [exact H1 |]. split; [exact H2 | exact Hreg].
Defined.

Lemma handler_leaves_configuration_witness :
  exists s',
    clic_interrupt_handler 32 0xF0C00000 32 3 128
      (after (clic_enable_interrupt 32 0xF0C00000 3) (zero_state 32))
    = Ok (tt, s')
    /\ line_enabled 32 0xF0C00000 s' 3 = true.
Proof.
  destruct (handler_leaves_configuration 32 0xF0C00000 32 3 128 0
              (after (clic_enable_interrupt 32 0xF0C00000 3) (zero_state 32)))
    as (s' & Hrun & Hlines & _); [lia | lia | lia | reflexivity |].
  exists s'. split; [exact Hrun |].
  rewrite (proj1 (Hlines 3 ltac:(lia))). vm_compute. reflexivity.
Defined.

Lemma service_counters_accumulate_witness :
  exists s',
    service_all 32 0xF0C00000 32 [(3, 128); (5, 50); (3, 128)] (zero_state 32)
    = Ok (tt, s')
    /\ clic_interrupt_count s' !! 3%nat = Some 2
    /\ clic_interrupt_count s' !! 5%nat = Some 1
    /\ clic_interrupt_cycles s' = 3.
Proof.
  destruct (service_counters_accumulate 32 0xF0C00000 32
              [(3, 128); (5, 50); (3, 128)] (zero_state 32))
    as (s' & Hrun & Hcounts & Hcycles & _).
  - reflexivity.
  - intros j c Hc. apply lookup_replicate in Hc. lia.
  - intros x Hx. cbn [In] in Hx.
    destruct Hx as [<- | [<- | [<- | []]]]; cbn [fst]; lia.
  - exists s'. split; [exact Hrun |].
    split; [apply (Hcounts 3 0); [lia | reflexivity] |].
    split; [apply (Hcounts 5 0); [lia | reflexivity] | exact Hcycles].
Defined.

Lemma clic_init_frame_witness :
  exists s',
    clic_init 32 0xF0C00000 32
      (after (clic_interrupt_handler 32 0xF0C00000 32 3 128) (zero_state 32))
    = Ok (tt, s')
    /\ clic_last_interrupt_id s' = 3
    /\ clic_interrupt_cycles s' = 1.
Proof.
  destruct (clic_init_frame 32 0xF0C00000 32
              (after (clic_interrupt_handler 32 0xF0C00000 32 3 128)
                     (zero_state 32)))
    as (s' & Hrun & _ & Hid & _ & Hcycles & _); [lia | lia | reflexivity |].
  exists s'. split; [exact Hrun |]. split; [exact Hid | exact Hcycles].
Defined.

Lemma latency_serviced_is_recorded_witness :
  exists s1,
    latency_iteration 32 0xF0C00000
      (deliver_at 32 0xF0C00000 32 20 64 0 3) 20 0 100 (zero_state 32)
    = Ok (103, with_console (console s1 ++ [iteration_cycles_line 0 3]) s1).
Proof.
  apply (latency_serviced_is_recorded 32 0xF0C00000
           (deliver_at 32 0xF0C00000 32 20 64 0 3) 20 0 3 100 (zero_state 32));
    [lia | cbn; lia | lia | | | ].
  - intros cycles s0 Hc. rewrite deliver_at_elsewhere; [reflexivity |].
    intros c Heq. injection Heq as <-. lia.
  - intros s0 Hzero. apply deliver_at_raises; [lia | exact Hzero].
  - intros s0. rewrite deliver_at_elsewhere; [reflexivity |].
    intros c Heq. discriminate Heq.
Defined.

(** One trial serviced after 3 polls and nine timed out: the average shown
    is 3 / 10, that is 0. *)
Lemma latency_run_report_witness :
  exists s',
    test_interrupt_latency 32 0xF0C00000
      (deliver_by 32 0xF0C00000 32 20 64
         (fun i => if i =? 0 then Some 3 else None)) (zero_state 32)
    = Ok (tt, s')
    /\ List.last (console s') ""
       = nl +:+ "Average interrupt latency: ~0 cycles" +:+ nl
    /\ line_enabled 32 0xF0C00000 s' 20 = false.
Proof.
  destruct (latency_run_report 32 0xF0C00000 32 64
              (fun i => if i =? 0 then Some 3 else None) (zero_state 32))
    as (s' & Hrun & Hcon & Hen).
  - cbn. lia.
  - intros i k H. destruct (i =? 0); [injection H as <-; lia | discriminate H].
  - exists s'. split; [exact Hrun |]. split; [| exact Hen].
    rewrite Hcon. vm_compute. reflexivity.
Defined.


(** The hardware services line 12 although its priority is above the
    threshold: the report still calls the line blocked, next to a count of
    1. *)
Lemma threshold_test_report_witness :
  exists s',
    test_interrupt_threshold 32 0xF0C00000
      (fun s0 => with_count (<[12%nat := 1]> (clic_interrupt_count s0)) s0)
      (zero_state 32)
    = Ok (tt, s')
    /\ List.last (console s') ""
       = threshold_result_line 12 200 1 "✗ (blocked)"
    /\ threshold 32 0xF0C00000 s' 0 = 0.
Proof.
  destruct (threshold_test_report 32 0xF0C00000
              (fun s0 => with_count (<[12%nat := 1]> (clic_interrupt_count s0)) s0)
              (zero_state 32))
    as (armed & c10 & c11 & c12 & s' & Hrun & [_ Harmed] & _ & _ & H12 & Hcon
        & Hthr & _).
  - lia.
  - cbn. lia.
  - intros s0. cbn. apply length_insert.
  - exists s'. split; [exact Hrun |]. split; [| exact Hthr].
    destruct (Harmed 12 200) as (_ & _ & _ & Hzero);
      [cbn [In]; right; right; left; reflexivity |].
    cbn [with_count clic_interrupt_count] in H12.
    rewrite list_lookup_insert_eq in H12
      by (apply lookup_lt_Some in Hzero; exact Hzero).
    injection H12 as <-.
    rewrite Hcon.
    exact (eq_trans (f_equal (fun l => List.last l "")
                       (app_assoc _ [_; _; _] [_]))
                    (last_last _ _ _)).
Defined.

Lemma clic_demo_counter_bounds_witness :
  exists s',
    clic_demo 32 0xF0C00000 32
      {| during_basic := fun _ s0 => s0;
         during_preemption := fun s0 => s0;
         during_threshold := fun s0 => s0;
         during_trigger_modes := fun _ s0 => s0;
         during_latency := fun _ s0 => s0;
         during_multiple := fun s0 => s0 |} (zero_state 32)
    = Ok (tt, s')
    /\ length (clic_interrupt_count s') = 32%nat.
Proof.
  apply (clic_demo_counter_bounds 32 0xF0C00000 32
           {| during_basic := fun _ s0 => s0;
              during_preemption := fun s0 => s0;
              during_threshold := fun s0 => s0;
              during_trigger_modes := fun _ s0 => s0;
              during_latency := fun _ s0 => s0;
              during_multiple := fun s0 => s0 |} (zero_state 32));
    first [ reflexivity | lia | intros ? ?; reflexivity | intros ?; reflexivity ].
Defined.

(** No interrupt arrives during the delay: the round reports the line as
    not handled. *)
Lemma basic_test_round_witness :
  exists s',
    test_basic_interrupts_body 32 0xF0C00000 (fun s0 => s0) 3 (zero_state 32)
    = Ok (tt, s')
    /\ List.last (console s') "" = "✗ IRQ 3 was not handled!" +:+ nl
    /\ line_enabled 32 0xF0C00000 s' 3 = false.
Proof.
  destruct (basic_test_round 32 0xF0C00000 (fun s0 => s0) 3 (zero_state 32))
    as (armed & c & s' & Hrun & _ & _ & _ & _ & Hzero & Hc & Hcon & Hen).
  - lia.
  - lia.
  - cbn. lia.
  - intros s0. reflexivity.
  - exists s'. split; [exact Hrun |]. split; [| exact Hen].
    rewrite Hzero in Hc. injection Hc as <-.
    rewrite Hcon. apply last_last.
Defined.

Lemma preemption_test_report_witness :
  exists s',
    test_priority_preemption 32 0xF0C00000 (fun s0 => s0) (zero_state 32)
    = Ok (tt, s')
    /\ line_enabled 32 0xF0C00000 s' 2 = false
    /\ line_enabled 32 0xF0C00000 s' 4 = false.
Proof.
  destruct (preemption_test_report 32 0xF0C00000 (fun s0 => s0)
              (zero_state 32))
    as (armed & c2 & c4 & s' & Hrun & _ & _ & _ & _ & Hoff).
  - lia.
  - cbn. lia.
  - intros s0. reflexivity.
  - exists s'. split; [exact Hrun |].
    split; apply Hoff; cbn [In]; [left | right; left]; reflexivity.
Defined.

Lemma trigger_modes_test_report_witness :
  exists s',
    test_trigger_modes 32 0xF0C00000 (fun _ s0 => s0) (zero_state 32)
    = Ok (tt, s')
    /\ line_enabled 32 0xF0C00000 s' 15 = false
    /\ line_enabled 32 0xF0C00000 s' 16 = false.
Proof.
  destruct (trigger_modes_test_report 32 0xF0C00000 (fun _ s0 => s0)
              (zero_state 32))
    as (first & second & ce & cv & s' & Hrun & _ & _ & _ & _ & _ & _ & _ & _
        & H15 & H16).
  - lia.
  - cbn. lia.
  - intros i s0. reflexivity.
  - exists s'. split; [exact Hrun |]. split; [exact H15 | exact H16].
Defined.

(** Nothing is serviced during the delay: the report shows five counts of
    0. *)
Lemma multiple_test_report_witness :
  exists s',
    test_multiple_interrupts 32 0xF0C00000 (fun s0 => s0) (zero_state 32)
    = Ok (tt, s')
    /\ List.last (console s') "" = "  IRQ 29: handled 0 times" +:+ nl
    /\ line_enabled 32 0xF0C00000 s' 27 = false.
Proof.
  destruct (multiple_test_report 32 0xF0C00000 (fun s0 => s0) (zero_state 32))
    as (armed & c25 & c26 & c27 & c28 & c29 & s' & Hrun & Harmed & _ & _ & _
        & _ & H29 & Hcon & Hoff).
  - lia.
  - cbn. lia.
  - intros s0. reflexivity.
  - exists s'. split; [exact Hrun |]. split; [| apply (Hoff 2); lia].
    destruct (Harmed 4) as (_ & _ & _ & _ & Hzero); [lia |].
    change (Z.to_nat (25 + 4)) with 29%nat in Hzero.
    rewrite Hzero in H29. injection H29 as <-.
    rewrite Hcon.
    exact (eq_trans (f_equal (fun l => List.last l "")
                       (app_assoc _ [_; _; _; _; _] [_]))
                    (last_last _ _ _)).
Defined.

Lemma list_modes_descriptors_witness :
  exists buf',
    processor_list_modes 2 32 (replicate 64 NUL) = Done buf'
    /\ string_at buf' 0 = "1024x768 @60Hz"
    /\ string_at buf' 32 = "1280x720 @60Hz".
Proof.
  destruct (proj1 (list_modes_descriptors 2 32 (replicate 64 NUL)
                     eq_refl ltac:(lia)))
    as (buf' & Hrun & _ & Hsecond & Hfirst & _); [cbn; lia |].
  exists buf'. split; [exact Hrun |].
  split; [apply Hfirst; lia | exact Hsecond].
Defined.

Lemma clkgen_write_handshake_witness :
  exists word,
    fb_clkgen_write 1 1 9 (mkHw [] [1; 1; 0; 2] [])
    = Done (tt, mkHw [CsrWrite fb_driver_clocking_cmd_data word;
                      CsrWrite fb_driver_clocking_send_cmd_data 1]
                  [2] [])
    /\ Z.land word 3 = 1
    /\ Z.shiftr word 2 = 9.
Proof.
  apply (proj1 (clkgen_write_handshake 1 1 9 (mkHw [] [1; 1; 0; 2] [])
                  ltac:(lia) ltac:(lia)) [1; 1] 0 [2]).
  - reflexivity.
  - repeat constructor; discriminate.
  - reflexivity.
Defined.

Lemma set_mode_clock_ignores_pixel_clock_witness :
  exists s',
    fb_set_mode 1 2 4 (mkTiming 7425 1280 370 220 40 720 30 20 5)
      (mkHw [] [0; 0; 2; 4] []) = Done (tt, s')
    /\ List.filter is_clocking (trace s')
       = [CsrWrite fb_driver_clocking_cmd_data 37;
          CsrWrite fb_driver_clocking_send_cmd_data 1;
          CsrWrite fb_driver_clocking_cmd_data 51;
          CsrWrite fb_driver_clocking_send_cmd_data 1;
          CsrWrite fb_driver_clocking_send_go 1].
Proof.
  destruct (proj1 (set_mode_clock_ignores_pixel_clock 1 2 4
                     (mkTiming 7425 1280 370 220 40 720 30 20 5)
                     (mkHw [] [0; 0; 2; 4] [])) [] eq_refl)
    as (s' & Hrun & _ & Hclock & _).
  exists s'. split; [exact Hrun | exact Hclock].
Defined.

Lemma built_in_modes_timing_witness :
  exists s' hsync_start hsync_end hscan,
    fb_set_mode 1 2 4 (mkTiming 6500 1024 320 24 136 768 38 3 6)
      (mkHw [] [0; 0; 2; 4] []) = Done (tt, s')
    /\ written fb_fi_hsync_start (trace s') = [hsync_start]
    /\ written fb_fi_hsync_end (trace s') = [hsync_end]
    /\ written fb_fi_hscan (trace s') = [hscan]
    /\ 1024 < hsync_start < hsync_end
    /\ hsync_end < hscan.
Proof.
  destruct (built_in_modes_timing 2 1 2 4
              (mkTiming 6500 1024 320 24 136 768 38 3 6)
              (mkHw [] [0; 0; 2; 4] []) [] eq_refl
              ltac:(left; reflexivity) eq_refl)
    as (s' & mid & hs & he & hscan & vs & ve & vscan & Hrun & Htrace & _
        & Hhs & Hhe & Hhscan & _ & _ & _ & _ & _ & _ & Hh1 & Hh2 & _).
  exists s', hs, he, hscan. split; [exact Hrun |].
  rewrite Htrace. cbn [trace app].
  split; [exact Hhs |]. split; [exact Hhe |]. split; [exact Hhscan |].
  cbn [h_active] in Hh1. lia.
Defined.

Lemma processor_start_protocol_witness :
  exists s',
    processor_start 2 1 2 4 0x20000000 0x20001000
      (fun _ _ _ _ _ => replicate 128 0) 1 (mkHw [] [0; 0; 2; 4] [])
    = Done (tt, s')
    /\ List.last (trace s') (CsrWrite fb_enable 0)
       = CsrWrite dvisampler1_edid_hpd_en 1
    /\ answers s' = [].
Proof.
  destruct (proj1 (processor_start_protocol 2 1 2 4 0x20000000 0x20001000
                     (fun _ _ _ _ _ => replicate 128 0) 1
                     (mkHw [] [0; 0; 2; 4] []) eq_refl)
              ltac:(lia) [] eq_refl)
    as (m & mid & s' & Hrun & _ & Htrace & _ & Hrest).
  exists s'. split; [exact Hrun |]. split; [| exact Hrest].
  rewrite Htrace.
  exact (eq_trans
           (f_equal (fun l => List.last l (CsrWrite fb_enable 0))
              (eq_trans (app_assoc _ _ (mid ++ [_; _; _; _; _]))
                 (eq_trans (app_assoc _ mid [_; _; _; _; _])
                    (app_assoc _ [_; _; _; _] [_]))))
           (last_last _ _ _)).
Defined.
